(** * Radial combination and radial selection of the HFR-TT training code

    A shallow embedding of [performRadialCombination] and [selectRadials]
    from [funcs.py], followed by [modifyNetworkDataFolders] and
    [modifyStationDataFolders].

    Python values are modelled as follows.
    - A pandas DataFrame is the list of its rows, each row a record with one
      field per column that the code reads or writes.
    - Integer flags read from the database are [Z].
    - Numbers that are floats at run time (coordinates, resolutions,
      velocities, file sizes) belong to an abstract number type with the
      operations the code applies to them ([*] and [/]); nothing below
      depends on how these operations round.
    - Strings are sequences of code points below 256.
    - Functions imported from the modules [radials], [totals], [calc] and
      [common], and the operating-system services ([os.path], [glob], the
      wall clock), are parameters of the development, collected in type
      classes.  Each call of an imported processing function is recorded
      in a call log, so that the arguments it received can be stated.
    - Python exceptions are values of [PyExc]; a computation is a function
      from a state to an outcome and the state reached, because what a
      Python block has mutated before it raises stays mutated. *)

From Stdlib Require Import List String Ascii ZArith QArith Bool Arith Lia.
Import ListNotations.

Local Open Scope string_scope.
Local Open Scope list_scope.
Local Open Scope Z_scope.

(* ================================================================== *)
(** ** Exceptions and the state-and-exception monad *)

(** The exceptions that can occur; each is a subclass of [Exception], so
    [except Exception] catches every one of them. *)
Inductive PyExc : Type :=
| NameError (name : string)
| UnboundLocalError (name : string)
| IndexError
| KeyError
| AttributeError
| ValueError
| OSError
| CollaboratorError (what : string).

Inductive result (A : Type) : Type :=
| Ok (a : A)
| Raise (e : PyExc).

Arguments Ok {A} a.
Arguments Raise {A} e.

Definition M (S A : Type) : Type := S -> result A * S.

Definition ret {S A} (a : A) : M S A := fun s => (Ok a, s).

Definition bind {S A B} (c : M S A) (k : A -> M S B) : M S B :=
  fun s => match c s with
           | (Ok a, s') => k a s'
           | (Raise e, s') => (Raise e, s')
           end.

Definition raise {S A} (e : PyExc) : M S A := fun s => (Raise e, s).

Definition gets {S A} (f : S -> A) : M S A := fun s => (Ok (f s), s).

Definition modify {S} (f : S -> S) : M S unit := fun s => (Ok tt, f s).

(** The value of a fallible pure expression. *)
Definition lift {S A} (r : result A) : M S A := fun s => (r, s).

(** [try: body  except Exception as err: handler]. *)
Definition try_except {S A} (body : M S A) (handler : PyExc -> M S A) : M S A :=
  fun s => match body s with
           | (Ok a, s') => (Ok a, s')
           | (Raise e, s') => handler e s'
           end.

Declare Scope py_scope.
Delimit Scope py_scope with py.
Notation "x <- c ;; k" := (bind c (fun x => k))
  (at level 61, c at next level, right associativity) : py_scope.
Notation "' pat <- c ;; k" := (bind c (fun x => match x with pat => k end))
  (at level 61, pat pattern, c at next level, right associativity) : py_scope.
Notation "c ;; k" := (bind c (fun _ => k))
  (at level 61, right associativity) : py_scope.
Local Open Scope py_scope.

(** [for x in xs: body x]. *)
Fixpoint for_each {S A} (xs : list A) (body : A -> M S unit) : M S unit :=
  match xs with
  | [] => ret tt
  | x :: xs' => body x ;; for_each xs' body
  end.

(** Reading a local variable that some paths leave unassigned. *)
Definition load_local {S A} (name : string) (v : option A) : M S A :=
  match v with
  | Some a => ret a
  | None => raise (UnboundLocalError name)
  end.

(** [df.iloc[0]]. *)
Definition iloc0 {S A} (df : list A) : M S A :=
  match df with
  | r :: _ => ret r
  | [] => raise IndexError
  end.

(* ================================================================== *)
(** ** Python built-ins used by the code *)

(** [Series.unique()]: the distinct values in order of first appearance. *)
Fixpoint unique (l : list string) : list string :=
  match l with
  | [] => []
  | x :: t => x :: filter (fun y => negb (String.eqb x y)) (unique t)
  end.

(** [str.isspace] on one code point below 256. *)
Definition is_space (c : ascii) : bool :=
  let n := nat_of_ascii c in
  ((9 <=? n) && (n <=? 13) || (28 <=? n) && (n <=? 32)
   || (n =? 133) || (n =? 160))%nat.

Fixpoint lstrip (s : string) : string :=
  match s with
  | String c t => if is_space c then lstrip t else s
  | EmptyString => EmptyString
  end.

Fixpoint rstrip (s : string) : string :=
  match s with
  | EmptyString => EmptyString
  | String c t =>
      match rstrip t with
      | EmptyString => if is_space c then EmptyString else String c EmptyString
      | t' => String c t'
      end
  end.

(** [str.strip()]. *)
Definition strip (s : string) : string := rstrip (lstrip s).

Definition lower_char (c : ascii) : ascii :=
  let n := nat_of_ascii c in
  (if (65 <=? n) && (n <=? 90)
      || (192 <=? n) && (n <=? 222) && negb (n =? 215)
   then ascii_of_nat (n + 32) else c)%nat.

(** [str.lower()]. *)
Fixpoint lower (s : string) : string :=
  match s with
  | EmptyString => EmptyString
  | String c t => String (lower_char c) (lower t)
  end.

(** [sub in s] for strings. *)
Fixpoint contains (sub s : string) : bool :=
  String.prefix sub s
  || match s with
     | EmptyString => false
     | String _ t => contains sub t
     end.

(* ================================================================== *)
(** ** Numbers and the imported library *)

(** The numbers of the program, with the two operations applied to them. *)
Class PyNumber : Type := {
  num : Type;
  num_of_Z : Z -> num;
  num_mul : num -> num -> num;
  num_div : num -> num -> num
}.

(** Exact rationals are one interpretation. *)
Definition Q_PyNumber : PyNumber :=
  {| num := Q; num_of_Z := inject_Z; num_mul := Qmult; num_div := Qdiv |}.

(** The object types of the imported modules. *)
Class HFRTypes : Type := {
  Grid : Type;
  TotalData : Type;
  Warn : Type;
  DateTime : Type
}.

Section DataModel.
Context {PN : PyNumber} {HT : HFRTypes}.

(* ================================================================== *)
(** ** Data model *)

(** The columns of [Radial.data] that the code touches. *)
Record RadialData : Type := {
  VELO : list num;
  HCSS : list num
}.

(** A [Radial] object: its acquisition time and its samples. *)
Record RadialObject : Type := {
  time : DateTime;
  data : RadialData
}.

(** A row of [radialsToBeProcessed], the DataFrame built by
    [selectRadials]. *)
Record RadialsRow : Type := {
  filename : string;
  filepath : string;
  network_id : string;
  station_id : string;
  timestamp : string;
  datetime : string;
  reception_date : string;
  filesize : num;
  extension : string;
  NRT_processed_flag : Z;
  NRT_processed_flag_integrated_network : Z;
  NRT_combined_flag : Z
}.

(** A row of [combRad]: the information of one radial file together with
    the [Radial] object loaded from it (column ['Radial']). *)
Record CombRow : Type := {
  info : RadialsRow;
  Radial : RadialObject
}.

(** A row of [networkData]. *)
Record NetworkRow : Type := {
  ntw_network_id : string;
  radial_combination : Z;
  geospatial_lon_min : num;
  geospatial_lon_max : num;
  geospatial_lat_min : num;
  geospatial_lat_max : num;
  grid_resolution : num;
  combination_search_radius : num
}.

(** A row of [stationData]; a field that is NULL in the database is
    [None]. *)
Record StationRow : Type := {
  sta_station_id : string;
  radial_input_folder_path : option string;
  manufacturer : option string
}.

(** A [Total] object: what the combination computed, and the two
    attributes that [performRadialCombination] assigns. *)
Record Total : Type := {
  total_data : TotalData;
  is_combined : bool;
  is_wera : bool
}.

Definition set_is_combined (T : Total) (b : bool) : Total :=
  {| total_data := total_data T; is_combined := b; is_wera := is_wera T |}.

Definition set_is_wera (T : Total) (b : bool) : Total :=
  {| total_data := total_data T; is_combined := is_combined T; is_wera := b |}.

(** The functions imported from [calc], [totals] and [common], and
    [datetime.strptime].  Each may raise. *)
Class Collaborators : Type := {
  createLonLatGridFromBB : num -> num -> num -> num -> num -> result Grid;
  createLonLatGridFromBBwera : num -> num -> num -> num -> num -> result Grid;
  combineRadials :
    list CombRow -> Grid -> num -> num -> DateTime -> result (Total * Warn);
  addBoundingBoxMetadata :
    Total -> num -> num -> num -> num -> num -> result Total;
  strptime : string -> string -> result DateTime
}.

(** One entry of the call log: the imported function and its arguments. *)
Inductive Call : Type :=
| Call_createLonLatGridFromBB
    (lonMin lonMax latMin latMax gridResolution : num)
| Call_createLonLatGridFromBBwera
    (lonMin lonMax latMin latMax gridResolution : num)
| Call_combineRadials
    (rDF : list CombRow) (gridGS : Grid) (searchRadius gridResolution : num)
    (timeStamp : DateTime)
| Call_addBoundingBoxMetadata
    (T : Total) (lonMin lonMax latMin latMax gridResolution : num).

(** What [performRadialCombination] can change: the frame [combRad], which
    it shares with its caller, and the log of calls it made. *)
Record CombState : Type := {
  combRad : list CombRow;
  calls : list Call
}.

Definition log_call (c : Call) (s : CombState) : CombState :=
  {| combRad := combRad s; calls := calls s ++ [c] |}.

(** Calling an imported function: the call is logged, then its outcome is
    the outcome of the call. *)
Definition call {A} (c : Call) (r : result A) : M CombState A :=
  modify (log_call c) ;; lift r.

(* ================================================================== *)
(** ** performRadialCombination *)

(** The names bound at module level of [funcs.py]: the imports and the
    four functions.  All are modules, classes or functions. *)
Definition module_names : list string :=
  [ "os"; "sys"; "getopt"; "glob"; "dt"; "np"; "pd";
    "Radial"; "buildEHNradialFolder"; "buildEHNradialFilename";
    "convertEHNtoINSTACradialDatamodel"; "buildINSTACradialFolder";
    "buildINSTACradialFilename";
    "Total"; "buildEHNtotalFolder"; "buildEHNtotalFilename";
    "combineRadials"; "convertEHNtoINSTACtotalDatamodel";
    "buildINSTACtotalFolder"; "buildINSTACtotalFilename"; "buildUStotal";
    "createLonLatGridFromBB"; "createLonLatGridFromBBwera";
    "createLonLatGridFromTopLeftPointWera";
    "addBoundingBoxMetadata"; "pickle";
    "modifyNetworkDataFolders"; "modifyStationDataFolders";
    "performRadialCombination"; "selectRadials" ].

(** [name.loc] for a name that the function never assigns, hence a global:
    an unbound name raises [NameError]; a bound one is a module, class or
    function, which has no attribute [loc]. *)
Definition global_loc {S A} (name : string) : M S A :=
  if existsb (String.eqb name) module_names
  then raise AttributeError
  else raise (NameError name).

Definition WesternItaly : string := "HFR-WesternItaly".

(** Line 152, the test "the radials were not already combined":
    [0 in column.values] holds when some entry equals 0. *)
Definition radialsToBeCombined (net : NetworkRow) (cr : list CombRow) : bool :=
  (negb (String.eqb (ntw_network_id net) WesternItaly)
   && existsb (fun r => NRT_combined_flag (info r) =? 0) cr)
  || (String.eqb (ntw_network_id net) WesternItaly
      && existsb
           (fun r => NRT_processed_flag_integrated_network (info r) =? 0) cr).

(** [combRad.extension.unique().tolist()]. *)
Definition extensions (cr : list CombRow) : list string :=
  unique (map (fun r => extension (info r)) cr).

Section Combination.
Context {CO : Collaborators}.

(** Lines 162-170, "Create the geographical grid".  The local [gridGS]
    stays unassigned when the single extension is neither ['.ruv'] nor
    ['.crad_ascii']. *)
Definition createGeographicalGrid (exts : list string)
    (lonMin lonMax latMin latMax gridResolution : num)
  : M CombState (option Grid) :=
  if (List.length exts =? 1)%nat then
    if String.eqb (nth 0 exts EmptyString) ".ruv" then
      g <- call (Call_createLonLatGridFromBB
                   lonMin lonMax latMin latMax gridResolution)
                (createLonLatGridFromBB
                   lonMin lonMax latMin latMax gridResolution) ;;
      ret (Some g)
    else if String.eqb (nth 0 exts EmptyString) ".crad_ascii" then
      g <- call (Call_createLonLatGridFromBBwera
                   lonMin lonMax latMin latMax gridResolution)
                (createLonLatGridFromBBwera
                   lonMin lonMax latMin latMax gridResolution) ;;
      ret (Some g)
    else ret None
  else
    g <- call (Call_createLonLatGridFromBB
                 lonMin lonMax latMin latMax gridResolution)
              (createLonLatGridFromBB
                 lonMin lonMax latMin latMax gridResolution) ;;
    ret (Some g).

Definition scale (k : Z) (xs : list num) : list num :=
  map (fun x => num_mul x (num_of_Z k)) xs.

(** The two statements of the loop body, lines 175-176, on one [Radial]. *)
Definition scaleRadialObject (R : RadialObject) : RadialObject :=
  {| time := time R;
     data := {| VELO := scale 100 (VELO (data R));
                HCSS := scale 10000 (HCSS (data R)) |} |}.

Fixpoint update_row (idx : nat) (f : CombRow -> CombRow) (cr : list CombRow)
  : option (list CombRow) :=
  match idx, cr with
  | _, [] => None
  | O, r :: t => Some (f r :: t)
  | S i, r :: t => option_map (cons r) (update_row i f t)
  end.

(** The loop body at index [idx]; [combRad.loc[idx]] raises [KeyError]
    when the frame has no such row. *)
Definition scaleRadial (idx : nat) : M CombState unit :=
  cr <- gets combRad ;;
  match update_row idx
          (fun r => {| info := info r; Radial := scaleRadialObject (Radial r) |})
          cr with
  | Some cr' => modify (fun s => {| combRad := cr'; calls := calls s |})
  | None => raise KeyError
  end.

(** Lines 172-176, "Scale velocities and variances of WERA radials in case
    of combination with CODAR radials".  The iterable of the [for]
    statement starts with the name [combRadcombRad]; evaluating it comes
    first, and the loop body runs only on the indices it yields. *)
Definition scaleWeraRadials (exts : list string) : M CombState unit :=
  if (1 <? List.length exts)%nat then
    idxs <- global_loc "combRadcombRad" ;;
    for_each idxs scaleRadial
  else ret tt.

(** Lines 193-200, "Add is_wera attribute". *)
Definition addIsWera (exts : list string) (T : Total) : Total :=
  if (List.length exts =? 1)%nat then
    if String.eqb (nth 0 exts EmptyString) ".ruv" then set_is_wera T false
    else if String.eqb (nth 0 exts EmptyString) ".crad_ascii"
    then set_is_wera T true
    else T
  else set_is_wera T false.

(** Lines 178-200: search radius, time stamp, combination, metadata and
    the two attributes.  It yields the value assigned to the local [T]. *)
Definition combineOnGrid (net : NetworkRow) (exts : list string)
    (gridGS : option Grid) : M CombState Total :=
  let lonMin := geospatial_lon_min net in
  let lonMax := geospatial_lon_max net in
  let latMin := geospatial_lat_min net in
  let latMax := geospatial_lat_max net in
  let gridResolution := num_mul (grid_resolution net) (num_of_Z 1000) in
  let searchRadius :=
    num_mul (combination_search_radius net) (num_of_Z 1000) in
  cr <- gets combRad ;;
  first <- iloc0 cr ;;
  timeStamp <- lift (strptime (datetime (info first)) "%Y-%m-%d %H:%M:%S") ;;
  g <- load_local "gridGS" gridGS ;;
  ' (T, warn) <- call (Call_combineRadials cr g searchRadius gridResolution
                         timeStamp)
                      (combineRadials cr g searchRadius gridResolution
                         timeStamp) ;;
  T <- call (Call_addBoundingBoxMetadata T lonMin lonMax latMin latMax
               (num_div gridResolution (num_of_Z 1000)))
            (addBoundingBoxMetadata T lonMin lonMax latMin latMax
               (num_div gridResolution (num_of_Z 1000))) ;;
  let T := set_is_combined T true in
  ret (addIsWera exts T).

(** Lines 153-200: the body guarded by the two tests. *)
Definition combine (net : NetworkRow) : M CombState Total :=
  let lonMin := geospatial_lon_min net in
  let lonMax := geospatial_lon_max net in
  let latMin := geospatial_lat_min net in
  let latMax := geospatial_lat_max net in
  let gridResolution := num_mul (grid_resolution net) (num_of_Z 1000) in
  cr <- gets combRad ;;
  let exts := extensions cr in
  gridGS <- createGeographicalGrid exts lonMin lonMax latMin latMax
              gridResolution ;;
  scaleWeraRadials exts ;;
  combineOnGrid net exts gridGS.

(** [performRadialCombination(combRad, networkData)].  The frame [combRad]
    is the [combRad] component of the state.  The locals [crErr] and
    [combTot] (an empty DataFrame with columns ['Total'] and
    ['NRT_processed_flag']) are assigned at lines 144 and 147 and never
    read.  The function ends with [return T]. *)
Definition performRadialCombination (networkData : list NetworkRow)
  : M CombState Total :=
  net <- iloc0 networkData ;;
  T <- (if radial_combination net =? 1 then
          cr <- gets combRad ;;
          if radialsToBeCombined net cr then
            T <- combine net ;; ret (Some T)
          else ret None
        else ret None) ;;
  load_local "T" T.

(* ------------------------------------------------------------------ *)
(** *** Vocabulary for the properties *)

(** The outcome of [createGeographicalGrid] when it calls a grid
    constructor whose outcome is [r]. *)
Definition bound_to (r : result Grid) : result (option Grid) :=
  match r with
  | Ok g => Ok (Some g)
  | Raise e => Raise e
  end.

(** All rows carry the format tag [e]. *)
Definition all_format (e : string) (cr : list CombRow) : Prop :=
  Forall (fun r => extension (info r) = e) cr.

(** Two rows carry different format tags. *)
Definition mixed_formats (cr : list CombRow) : Prop :=
  exists r1 r2, In r1 cr /\ In r2 cr
                /\ extension (info r1) <> extension (info r2).

(** A logged call whose lengths are those of the network descriptor
    converted as the code converts them: metres (the stored kilometres
    times 1000) for grid construction and combination, and the metres
    divided by 1000 for the bounding-box metadata; and whose bounding box
    is the descriptor's. *)
Definition call_in_units (net : NetworkRow) (c : Call) : Prop :=
  let metres := num_mul (grid_resolution net) (num_of_Z 1000) in
  match c with
  | Call_createLonLatGridFromBB lonMin lonMax latMin latMax res
  | Call_createLonLatGridFromBBwera lonMin lonMax latMin latMax res =>
      lonMin = geospatial_lon_min net /\ lonMax = geospatial_lon_max net
      /\ latMin = geospatial_lat_min net /\ latMax = geospatial_lat_max net
      /\ res = metres
  | Call_combineRadials _ _ searchRadius res _ =>
      searchRadius
      = num_mul (combination_search_radius net) (num_of_Z 1000)
      /\ res = metres
  | Call_addBoundingBoxMetadata _ lonMin lonMax latMin latMax res =>
      lonMin = geospatial_lon_min net /\ lonMax = geospatial_lon_max net
      /\ latMin = geospatial_lat_min net /\ latMax = geospatial_lat_max net
      /\ res = num_div metres (num_of_Z 1000)
  end.

(** From [s] to [s'] the frame was left as it was and the log grew by
    calls in the units of [net]. *)
Definition only_logged (net : NetworkRow) (s s' : CombState) : Prop :=
  combRad s' = combRad s
  /\ exists new, calls s' = calls s ++ new
                 /\ Forall (call_in_units net) new.

(** A computation that, however it ends, does no more than that. *)
Definition well_behaved (net : NetworkRow) {A} (c : M CombState A) : Prop :=
  forall s, only_logged net s (snd (c s)).

End Combination.

(* ================================================================== *)
(** ** selectRadials *)

(** The services of [os.path], [glob], the [Radial] constructor and the
    clock.  The file system does not change while the function runs, so
    each service is a function of its arguments; the clock is a function
    of the number of times it was read before. *)
Class Runtime : Type := {
  path_join : string -> string -> string;
  path_isdir : string -> bool;
  path_dirname : string -> string;
  path_basename : string -> string;
  path_splitext : string -> string * string;
  path_getsize : string -> result Z;
  glob_recursive : string -> result (list string);
  Radial_init : string -> result RadialObject;
  strftime : DateTime -> string -> string;
  utcnow : nat -> DateTime
}.

(** The locals of [selectRadials] that outlive one statement, the text
    printed, and the number of clock readings. *)
Record SelState : Type := {
  radialsToBeProcessed : list RadialsRow;
  fileTypeWildcard : option string;
  sRerr : bool;
  stdout : list string;
  clock : nat
}.

Definition set_radialsToBeProcessed (df : list RadialsRow) (s : SelState)
  : SelState :=
  {| radialsToBeProcessed := df; fileTypeWildcard := fileTypeWildcard s;
     sRerr := sRerr s; stdout := stdout s; clock := clock s |}.

Definition set_fileTypeWildcard (w : option string) (s : SelState)
  : SelState :=
  {| radialsToBeProcessed := radialsToBeProcessed s; fileTypeWildcard := w;
     sRerr := sRerr s; stdout := stdout s; clock := clock s |}.

Definition set_sRerr (b : bool) (s : SelState) : SelState :=
  {| radialsToBeProcessed := radialsToBeProcessed s;
     fileTypeWildcard := fileTypeWildcard s;
     sRerr := b; stdout := stdout s; clock := clock s |}.

Definition print (line : string) : M SelState unit :=
  modify (fun s =>
    {| radialsToBeProcessed := radialsToBeProcessed s;
       fileTypeWildcard := fileTypeWildcard s;
       sRerr := sRerr s; stdout := stdout s ++ [line]; clock := clock s |}).

Definition tick (s : SelState) : SelState :=
  {| radialsToBeProcessed := radialsToBeProcessed s;
     fileTypeWildcard := fileTypeWildcard s;
     sRerr := sRerr s; stdout := stdout s; clock := S (clock s) |}.

(** [pd.concat([radialsToBeProcessed, dfRadial], ignore_index=True)] for a
    one-row [dfRadial], assigned back to [radialsToBeProcessed]. *)
Definition concat_row (row : RadialsRow) (s : SelState) : SelState :=
  set_radialsToBeProcessed (radialsToBeProcessed s ++ [row]) s.

(** Calling a method on a value that may be [None]. *)
Definition method_of {A B} (f : A -> B) (v : option A) : result B :=
  match v with
  | Some a => Ok (f a)
  | None => Raise AttributeError
  end.

Section Selection.
Context {RT : Runtime}.

(** [dt.datetime.utcnow()]. *)
Definition read_clock : M SelState DateTime :=
  n <- gets clock ;;
  modify tick ;;
  ret (utcnow n).

(** Lines 265-291, the body of the inner [try]. *)
Definition listRadial (networkID stationID inputFile : string)
  : M SelState unit :=
  let filePath := path_dirname inputFile in
  let fileName := path_basename inputFile in
  let fileExt := snd (path_splitext inputFile) in
  radial <- lift (Radial_init inputFile) ;;
  let timeStamp := strftime (time radial) "%Y %m %d %H %M %S" in
  let dateTime := strftime (time radial) "%Y-%m-%d %H:%M:%S" in
  size <- lift (path_getsize inputFile) ;;
  let fileSize := num_div (num_of_Z size) (num_of_Z 1024) in
  now <- read_clock ;;
  let dfRadial :=
    {| filename := fileName; filepath := filePath; network_id := networkID;
       station_id := stationID; timestamp := timeStamp; datetime := dateTime;
       reception_date := strftime now "%Y-%m-%d %H:%M:%S";
       filesize := fileSize; extension := fileExt;
       NRT_processed_flag := 0;
       NRT_processed_flag_integrated_network := 0;
       NRT_combined_flag := 0 |} in
  modify (concat_row dfRadial).

Definition folder_missing (networkID stationID : string) : string :=
  ("The radial input folder for station " ++ networkID ++ "-" ++ stationID
   ++ " does not exist.")%string.

(** Lines 253-260: the wildcard is assigned when the manufacturer is
    recognised, and keeps its previous binding otherwise. *)
Definition chooseWildcard (manufacturer : string) : M SelState unit :=
  if contains "codar" manufacturer then
    modify (set_fileTypeWildcard (Some "**/*.ruv"))
  else if contains "wera" manufacturer then
    modify (set_fileTypeWildcard (Some "**/*.crad_ascii"))
  else if contains "lera" manufacturer then
    modify (set_fileTypeWildcard (Some "**/*.crad_ascii"))
  else ret tt.

(** Lines 241-294, the body of the outer [try] for one station. *)
Definition listStation (networkID : string) (st : StationRow)
  : M SelState unit :=
  let stationID := sta_station_id st in
  inputFolder <- lift (method_of strip (radial_input_folder_path st)) ;;
  if String.eqb inputFolder EmptyString then
    print (folder_missing networkID stationID)
  else if negb (path_isdir inputFolder) then
    print (folder_missing networkID stationID)
  else
    manufacturer <- lift (method_of lower (manufacturer st)) ;;
    chooseWildcard manufacturer ;;
    w <- gets fileTypeWildcard ;;
    wildcard <- load_local "fileTypeWildcard" w ;;
    inputFiles <- lift (glob_recursive (path_join inputFolder wildcard)) ;;
    for_each inputFiles (fun inputFile =>
      try_except (listRadial networkID stationID inputFile)
                 (fun err => modify (set_sRerr true))).

(** [selectRadials(networkID, stationData)]. *)
Definition selectRadials (networkID : string) (stationData : list StationRow)
  : M SelState (list RadialsRow) :=
  modify (fun s =>
    {| radialsToBeProcessed := []; fileTypeWildcard := None; sRerr := false;
       stdout := stdout s; clock := clock s |}) ;;
  for_each stationData (fun st =>
    try_except (listStation networkID st)
               (fun err => modify (set_sRerr true))) ;;
  gets radialsToBeProcessed.

(* ------------------------------------------------------------------ *)
(** *** The rows a run is expected to return

    The same expressions as above, read as functions: what one file
    contributes, which files one station lists, and the rows of every file
    that was read and parsed, in the order the files were visited, a file
    or a station on which an exception occurs contributing nothing. *)

(** The row of one file when the clock has been read [n] times, or the
    exception raised while reading it. *)
Definition radialInfo (networkID stationID inputFile : string) (n : nat)
  : result RadialsRow :=
  match Radial_init inputFile with
  | Raise e => Raise e
  | Ok radial =>
      match path_getsize inputFile with
      | Raise e => Raise e
      | Ok size =>
          Ok {| filename := path_basename inputFile;
                filepath := path_dirname inputFile;
                network_id := networkID;
                station_id := stationID;
                timestamp := strftime (time radial) "%Y %m %d %H %M %S";
                datetime := strftime (time radial) "%Y-%m-%d %H:%M:%S";
                reception_date := strftime (utcnow n) "%Y-%m-%d %H:%M:%S";
                filesize := num_div (num_of_Z size) (num_of_Z 1024);
                extension := snd (path_splitext inputFile);
                NRT_processed_flag := 0;
                NRT_processed_flag_integrated_network := 0;
                NRT_combined_flag := 0 |}
      end
  end.

(** The rows of the files of one station that were processed
    successfully. *)
Fixpoint rowsOfFiles (networkID stationID : string) (files : list string)
    (n : nat) : list RadialsRow :=
  match files with
  | [] => []
  | f :: fs =>
      match radialInfo networkID stationID f n with
      | Ok row => row :: rowsOfFiles networkID stationID fs (S n)
      | Raise _ => rowsOfFiles networkID stationID fs n
      end
  end.

(** The wildcard bound after lines 253-260. *)
Definition wildcardAfter (manufacturer : string) (previous : option string)
  : option string :=
  if contains "codar" manufacturer then Some "**/*.ruv"
  else if contains "wera" manufacturer then Some "**/*.crad_ascii"
  else if contains "lera" manufacturer then Some "**/*.crad_ascii"
  else previous.

(** The files listed for one station (none when its folder is not given
    or does not exist), or the exception raised before the files are
    visited; and the wildcard bound afterwards. *)
Definition stationFiles (st : StationRow) (previous : option string)
  : result (list string) * option string :=
  match radial_input_folder_path st with
  | None => (Raise AttributeError, previous)
  | Some p =>
      if String.eqb (strip p) EmptyString then (Ok [], previous)
      else if negb (path_isdir (strip p)) then (Ok [], previous)
      else
        match manufacturer st with
        | None => (Raise AttributeError, previous)
        | Some m =>
            match wildcardAfter (lower m) previous with
            | None => (Raise (UnboundLocalError "fileTypeWildcard"), None)
            | Some w => (glob_recursive (path_join (strip p) w), Some w)
            end
        end
  end.

(** The rows of all files processed successfully, station by station. *)
Fixpoint rowsOfStations (networkID : string) (stations : list StationRow)
    (previous : option string) (n : nat) : list RadialsRow :=
  match stations with
  | [] => []
  | st :: rest =>
      match stationFiles st previous with
      | (Ok files, w) =>
          let rows := rowsOfFiles networkID (sta_station_id st) files n in
          rows ++ rowsOfStations networkID rest w (n + List.length rows)
      | (Raise _, w) => rowsOfStations networkID rest w n
      end
  end.

(** A row whose three lifecycle flags are 0. *)
Definition pending (row : RadialsRow) : Prop :=
  NRT_processed_flag row = 0
  /\ NRT_processed_flag_integrated_network row = 0
  /\ NRT_combined_flag row = 0.

End Selection.
End DataModel.

(* ================================================================== *)
(** ** A concrete world

    Rational numbers, and collaborators that record what they were given:
    a grid is the name of its constructor with its arguments, a total
    carries the grid's constructor name and the lengths it was computed
    and annotated with. *)

Module Demo.

#[local] Existing Instance Q_PyNumber.

#[local] Instance types : HFRTypes :=
  {| Grid := string * list Q;
     TotalData := string * list Q;
     Warn := string;
     DateTime := string |}.

#[local] Instance collaborators : Collaborators :=
  {| createLonLatGridFromBB a b c d r :=
       Ok ("createLonLatGridFromBB", [a; b; c; d; r]);
     createLonLatGridFromBBwera a b c d r :=
       Ok ("createLonLatGridFromBBwera", [a; b; c; d; r]);
     combineRadials cr g searchRadius res ts :=
       Ok ({| total_data := (fst g, [searchRadius; res]);
              is_combined := false; is_wera := false |}, EmptyString);
     addBoundingBoxMetadata T a b c d r :=
       Ok {| total_data := (fst (total_data T),
                            snd (total_data T) ++ [a; b; c; d; r]);
             is_combined := is_combined T; is_wera := is_wera T |};
     strptime s fmt := Ok s |}.

Definition network (id : string) (enabled : Z) : NetworkRow :=
  {| ntw_network_id := id; radial_combination := enabled;
     geospatial_lon_min := 8 # 1; geospatial_lon_max := 11 # 1;
     geospatial_lat_min := 42 # 1; geospatial_lat_max := 44 # 1;
     grid_resolution := 2 # 1; combination_search_radius := 3 # 1 |}.

(** A radial of station [sta] in format [ext] with the given
    "integrated-network processed" and "combined" flags. *)
Definition radial (sta ext : string) (integrated combined : Z) : CombRow :=
  {| info :=
       {| filename := (sta ++ ext)%string;
          filepath := ("/data/" ++ sta)%string;
          network_id := "HFR-TirLig"; station_id := sta;
          timestamp := "2024 05 14 10 00 00";
          datetime := "2024-05-14 10:00:00";
          reception_date := "2024-05-14 10:20:00";
          filesize := 12 # 1; extension := ext;
          NRT_processed_flag := 0;
          NRT_processed_flag_integrated_network := integrated;
          NRT_combined_flag := combined |};
     Radial := {| time := "2024-05-14 10:00:00";
                  data := {| VELO := [3 # 10; (-1) # 10];
                             HCSS := [4 # 100; 9 # 100] |} |} |}.

Definition frame (cr : list CombRow) : CombState :=
  {| combRad := cr; calls := [] |}.

Definition codar_pair : list CombRow :=
  [radial "TINO" ".ruv" 0 0; radial "VIAR" ".ruv" 0 0].

Definition wera_pair : list CombRow :=
  [radial "TINO" ".crad_ascii" 0 0; radial "VIAR" ".crad_ascii" 0 0].

Definition mixed_pair : list CombRow :=
  [radial "TINO" ".ruv" 0 0; radial "VIAR" ".crad_ascii" 0 0].

Definition combined_pair : list CombRow :=
  [radial "TINO" ".ruv" 0 1; radial "VIAR" ".ruv" 0 1].

(** A file system whose only folder, /data/TINO, holds three radial
    files, the second of which cannot be parsed. *)
#[local] Instance runtime : Runtime :=
  {| path_join a b := (a ++ "/" ++ b)%string;
     path_isdir p := String.eqb p "/data/TINO";
     path_dirname p := "/data/TINO";
     path_basename p := substring 11 (String.length p - 11) p;
     path_splitext p := (substring 0 (String.length p - 4) p,
                         substring (String.length p - 4) 4 p);
     path_getsize p := Ok 2048;
     glob_recursive pat :=
       if String.eqb pat "/data/TINO/**/*.ruv"
       then Ok ["/data/TINO/a.ruv"; "/data/TINO/b.ruv"; "/data/TINO/c.ruv"]
       else Ok [];
     Radial_init p :=
       if String.eqb p "/data/TINO/b.ruv" then Raise ValueError
       else Ok {| time := "10h"; data := {| VELO := []; HCSS := [] |} |};
     strftime t fmt := t;
     utcnow n := if (n =? 0)%nat then "10h20" else "10h21" |}.

(** Three stations: one with files, one whose folder path is NULL, one
    whose folder does not exist. *)
Definition stations : list StationRow :=
  [ {| sta_station_id := "TINO";
       radial_input_folder_path := Some " /data/TINO ";
       manufacturer := Some "CODAR Ocean Sensors" |};
    {| sta_station_id := "VIAR";
       radial_input_folder_path := None;
       manufacturer := Some "CODAR Ocean Sensors" |};
    {| sta_station_id := "PCOR";
       radial_input_folder_path := Some "/data/PCOR";
       manufacturer := Some "WERA" |} ].

Definition start : SelState :=
  {| radialsToBeProcessed := []; fileTypeWildcard := None; sRerr := false;
     stdout := []; clock := 0 |}.

End Demo.

(* ================================================================== *)
(** ** modifyNetworkDataFolders and modifyStationDataFolders *)

(** [s.split(sep)] for a one-character separator: the pieces between the
    occurrences of [sep], at least one piece. *)
Fixpoint split_on (sep : ascii) (s : string) : list string :=
  match s with
  | EmptyString => [EmptyString]
  | String c t =>
      if Ascii.eqb c sep then EmptyString :: split_on sep t
      else match split_on sep t with
           | h :: r => String c h :: r
           | [] => [String c EmptyString]
           end
  end.

(** [l[-k]] for [k >= 1]. *)
Definition index_from_end {A} (l : list A) (k : nat) : result A :=
  if (k <=? List.length l)%nat then
    match nth_error l (List.length l - k) with
    | Some a => Ok a
    | None => Raise IndexError
    end
  else Raise IndexError.

(** [c in s] for a character. *)
Fixpoint has_char (c : ascii) (s : string) : bool :=
  match s with
  | EmptyString => false
  | String x t => Ascii.eqb x c || has_char c t
  end.

(** [s.endswith(c)] for a character. *)
Fixpoint endswith_char (c : ascii) (s : string) : bool :=
  match s with
  | EmptyString => false
  | String x EmptyString => Ascii.eqb x c
  | String _ t => endswith_char c t
  end.

(** [os.path.join(a, b)] of [posixpath]: a component that starts with a
    slash replaces what precedes it; otherwise it is appended, after a
    slash unless the path so far is empty or ends with one. *)
Definition posix_join (a b : string) : string :=
  if String.prefix "/" b then b
  else if String.eqb a EmptyString || endswith_char "/" a then (a ++ b)%string
  else (a ++ "/" ++ b)%string.

(** A cell of a text column read from the database: a string, or a
    missing value, which pandas holds as [None] or as the float NaN. *)
Inductive Cell : Type :=
| Str (s : string)
| PyNone
| NaN.

(** The truth value of a cell: the empty string and [None] are false, a
    non-empty string and NaN are true. *)
Definition truthy (v : Cell) : bool :=
  match v with
  | Str s => negb (String.eqb s EmptyString)
  | PyNone => false
  | NaN => true
  end.

(** [v.split(sep)]: a string has the method, [None] and a float have
    not. *)
Definition split_cell (sep : ascii) (v : Cell) : result (list string) :=
  match v with
  | Str s => Ok (split_on sep s)
  | PyNone | NaN => Raise AttributeError
  end.

(** What the two functions can change: the Series they were given, which
    they share with their caller, and the local [mfErr]. *)
Record FolderState (A : Type) : Type := {
  series : A;
  mfErr : bool
}.
Arguments series {A} _.
Arguments mfErr {A} _.

Definition set_series {A} (f : A -> A) (s : FolderState A) : FolderState A :=
  {| series := f (series s); mfErr := mfErr s |}.

Definition set_mfErr {A} (b : bool) (s : FolderState A) : FolderState A :=
  {| series := series s; mfErr := b |}.

Section Folders.
Context {PN : PyNumber} {HT : HFRTypes} {RT : Runtime}.

(** The Series [ntwDF]: the descriptor of a network with its two folder
    columns. *)
Record NetworkSeries : Type := {
  ntw_info : NetworkRow;
  total_input_folder_path : Cell;
  total_HFRnetCDF_folder_path : Cell
}.

(** The Series [staDF]: the identity of a station, its manufacturer, the
    identity of its network and its two folder columns. *)
Record StationSeries : Type := {
  staDF_station_id : string;
  staDF_manufacturer : option string;
  sta_network_id : string;
  staDF_radial_input_folder_path : Cell;
  radial_HFRnetCDF_folder_path : Cell
}.

Definition set_total_input_folder_path (v : Cell)
    (df : NetworkSeries) : NetworkSeries :=
  {| ntw_info := ntw_info df; total_input_folder_path := v;
     total_HFRnetCDF_folder_path := total_HFRnetCDF_folder_path df |}.

Definition set_total_HFRnetCDF_folder_path (v : Cell)
    (df : NetworkSeries) : NetworkSeries :=
  {| ntw_info := ntw_info df;
     total_input_folder_path := total_input_folder_path df;
     total_HFRnetCDF_folder_path := v |}.

Definition set_radial_input_folder_path (v : Cell)
    (df : StationSeries) : StationSeries :=
  {| staDF_station_id := staDF_station_id df;
     staDF_manufacturer := staDF_manufacturer df;
     sta_network_id := sta_network_id df;
     staDF_radial_input_folder_path := v;
     radial_HFRnetCDF_folder_path := radial_HFRnetCDF_folder_path df |}.

Definition set_radial_HFRnetCDF_folder_path (v : Cell)
    (df : StationSeries) : StationSeries :=
  {| staDF_station_id := staDF_station_id df;
     staDF_manufacturer := staDF_manufacturer df;
     sta_network_id := sta_network_id df;
     staDF_radial_input_folder_path := staDF_radial_input_folder_path df;
     radial_HFRnetCDF_folder_path := v |}.

(** Lines 68-71.  [os.path.join] with more than two arguments joins them
    from the left. *)
Definition relocate_total_input_folder (dataFolder : string)
  : M (FolderState NetworkSeries) unit :=
  v <- gets (fun s => total_input_folder_path (series s)) ;;
  if truthy v then
    network_id <- gets (fun s => ntw_network_id (ntw_info (series s))) ;;
    parts <- lift (split_cell "/" v) ;;
    last <- lift (index_from_end parts 1) ;;
    modify (set_series (set_total_input_folder_path
              (Str (path_join (path_join dataFolder network_id) last))))
  else ret tt.

(** Lines 73-76. *)
Definition relocate_total_HFRnetCDF_folder (dataFolder : string)
  : M (FolderState NetworkSeries) unit :=
  v <- gets (fun s => total_HFRnetCDF_folder_path (series s)) ;;
  if truthy v then
    network_id <- gets (fun s => ntw_network_id (ntw_info (series s))) ;;
    modify (set_series (set_total_HFRnetCDF_folder_path
              (Str (path_join (path_join dataFolder network_id)
                      "Totals_nc"))))
  else ret tt.

(** Lines 67-76, the body of the [try]. *)
Definition modifyNetworkDataFolders_try (dataFolder : string)
  : M (FolderState NetworkSeries) unit :=
  relocate_total_input_folder dataFolder ;;
  relocate_total_HFRnetCDF_folder dataFolder.

(** [modifyNetworkDataFolders(ntwDF,dataFolder)]: what it returns, and
    the Series and the local [mfErr] when it returns. *)
Definition modifyNetworkDataFolders (ntwDF : NetworkSeries)
    (dataFolder : string)
  : result NetworkSeries * FolderState NetworkSeries :=
  (try_except (modifyNetworkDataFolders_try dataFolder)
              (fun err => modify (set_mfErr true)) ;;
   gets series)
    {| series := ntwDF; mfErr := false |}.

(** Lines 105-108.  The path is split once for each of the two pieces
    taken from it. *)
Definition relocate_radial_input_folder (dataFolder : string)
  : M (FolderState StationSeries) unit :=
  v <- gets (fun s => staDF_radial_input_folder_path (series s)) ;;
  if truthy v then
    network_id <- gets (fun s => sta_network_id (series s)) ;;
    parts <- lift (split_cell "/" v) ;;
    parent <- lift (index_from_end parts 2) ;;
    parts <- lift (split_cell "/" v) ;;
    last <- lift (index_from_end parts 1) ;;
    modify (set_series (set_radial_input_folder_path
              (Str (path_join
                      (path_join (path_join dataFolder network_id) parent)
                      last))))
  else ret tt.

(** Lines 110-113. *)
Definition relocate_radial_HFRnetCDF_folder (dataFolder : string)
  : M (FolderState StationSeries) unit :=
  v <- gets (fun s => radial_HFRnetCDF_folder_path (series s)) ;;
  if truthy v then
    network_id <- gets (fun s => sta_network_id (series s)) ;;
    modify (set_series (set_radial_HFRnetCDF_folder_path
              (Str (path_join (path_join dataFolder network_id)
                      "Radials_nc"))))
  else ret tt.

(** Lines 104-113, the body of the [try]. *)
Definition modifyStationDataFolders_try (dataFolder : string)
  : M (FolderState StationSeries) unit :=
  relocate_radial_input_folder dataFolder ;;
  relocate_radial_HFRnetCDF_folder dataFolder.

(** [modifyStationDataFolders(staDF,dataFolder)]. *)
Definition modifyStationDataFolders (staDF : StationSeries)
    (dataFolder : string)
  : result StationSeries * FolderState StationSeries :=
  (try_except (modifyStationDataFolders_try dataFolder)
              (fun err => modify (set_mfErr true)) ;;
   gets series)
    {| series := staDF; mfErr := false |}.

(** [os.path.join] is the one of [posixpath]. *)
Definition posix_paths : Prop :=
  forall a b, path_join a b = posix_join a b.

End Folders.

(* ------------------------------------------------------------------ *)
(** *** Vocabulary for further properties of selectRadials *)

(** A string of white space only. *)
Fixpoint blank (s : string) : bool :=
  match s with
  | EmptyString => true
  | String c t => is_space c && blank t
  end.

(** The wildcard is unbound or one of the two the code assigns. *)
Definition known_wildcard (w : option string) : Prop :=
  w = None \/ w = Some "**/*.ruv" \/ w = Some "**/*.crad_ascii".

Section SelectionVocabulary.
Context {PN : PyNumber} {HT : HFRTypes} {RT : Runtime}.

(** [row] describes the radial file [f] of station [stationID]: the file
    was parsed and its size was read, and the columns are computed from
    the path, the parsed time and the size. *)
Definition row_of_file (networkID stationID f : string) (row : RadialsRow)
  : Prop :=
  network_id row = networkID
  /\ station_id row = stationID
  /\ filename row = path_basename f
  /\ filepath row = path_dirname f
  /\ extension row = snd (path_splitext f)
  /\ exists radial size,
       Radial_init f = Ok radial
       /\ path_getsize f = Ok size
       /\ filesize row = num_div (num_of_Z size) (num_of_Z 1024)
       /\ timestamp row = strftime (time radial) "%Y %m %d %H %M %S"
       /\ datetime row = strftime (time radial) "%Y-%m-%d %H:%M:%S".

End SelectionVocabulary.

(** More of the concrete world: a POSIX file system otherwise like the
    one of [Demo], the Series of one network and one station, a
    combination that fails, and a station of a manufacturer the code does
    not know. *)
Module DemoMore.

#[local] Existing Instance Q_PyNumber.
#[local] Existing Instance Demo.types.

#[local] Instance runtime : Runtime :=
  {| path_join := posix_join;
     path_isdir := @path_isdir _ _ Demo.runtime;
     path_dirname := @path_dirname _ _ Demo.runtime;
     path_basename := @path_basename _ _ Demo.runtime;
     path_splitext := @path_splitext _ _ Demo.runtime;
     path_getsize := @path_getsize _ _ Demo.runtime;
     glob_recursive := @glob_recursive _ _ Demo.runtime;
     Radial_init := @Radial_init _ _ Demo.runtime;
     strftime := @strftime _ _ Demo.runtime;
     utcnow := @utcnow _ _ Demo.runtime |}.

Definition tirlig : NetworkSeries :=
  {| ntw_info := Demo.network "HFR-TirLig" 1;
     total_input_folder_path := Str "/home/radarcombine/TirLig/Totals";
     total_HFRnetCDF_folder_path := PyNone |}.

(** A network whose input folder is missing and held as NaN, with a
    netCDF folder. *)
Definition tirlig_nan : NetworkSeries :=
  {| ntw_info := Demo.network "HFR-TirLig" 1;
     total_input_folder_path := NaN;
     total_HFRnetCDF_folder_path := Str "/var/nc/Totals" |}.

Definition station_with (path : Cell) : StationSeries :=
  {| staDF_station_id := "TINO";
     staDF_manufacturer := Some "CODAR";
     sta_network_id := "HFR-TirLig";
     staDF_radial_input_folder_path := path;
     radial_HFRnetCDF_folder_path := Str "/var/nc/TINO" |}.

Definition station (path : string) : StationSeries :=
  station_with (Str path).

(** Collaborators like those of [Demo], except that the least-squares
    combination fails. *)
#[local] Instance failing : Collaborators :=
  {| createLonLatGridFromBB := @createLonLatGridFromBB _ _ Demo.collaborators;
     createLonLatGridFromBBwera :=
       @createLonLatGridFromBBwera _ _ Demo.collaborators;
     combineRadials cr g searchRadius res ts :=
       Raise (CollaboratorError "combineRadials");
     addBoundingBoxMetadata :=
       @addBoundingBoxMetadata _ _ Demo.collaborators;
     strptime := @strptime _ _ Demo.collaborators |}.

(** Two stations sharing the folder of [Demo]: the first a CODAR, the
    second of a manufacturer that names none of the three families. *)
Definition codar_then_unknown : list StationRow :=
  [ {| sta_station_id := "TINO";
       radial_input_folder_path := Some "/data/TINO";
       manufacturer := Some "CODAR Ocean Sensors" |};
    {| sta_station_id := "HELZ";
       radial_input_folder_path := Some "/data/TINO";
       manufacturer := Some "Helzel Messtechnik" |} ].

End DemoMore.

(* ================================================================== *)
(** ** Properties of the built-ins *)

Lemma unique_In (l : list string) (x : string) : In x (unique l) <-> In x l.
Proof.
  induction l as [|y t IH]; simpl; [tauto|].
  rewrite filter_In, IH.
  destruct (String.eqb_spec y x) as [->|Hne]; simpl; split.
  - intros _. now left.
  - intros _. now left.
  - intros [H|[H _]]; [now left|now right].
  - intros [H|H]; [now left|right; split; trivial].
Qed.

Lemma unique_nil (l : list string) : unique l = [] -> l = [].
Proof. destruct l; simpl; [trivial|discriminate]. Qed.

Lemma unique_uniform (e : string) (l : list string) :
  Forall (fun x => x = e) l -> l <> [] -> unique l = [e].
Proof.
  induction 1 as [|x t Hx Ht IH]; intros Hne; [congruence|].
  subst x. simpl. destruct t as [|y t'].
  - reflexivity.
  - rewrite IH by discriminate. simpl.
    now rewrite String.eqb_refl.
Qed.

Lemma unique_singleton (e : string) (l : list string) :
  unique l = [e] -> Forall (fun x => x = e) l.
Proof.
  intros H. apply Forall_forall. intros x Hx.
  apply unique_In in Hx. rewrite H in Hx.
  destruct Hx as [Hx|[]]. now symmetry.
Qed.

Lemma two_distinct_members {A} (u : list A) (a b : A) :
  In a u -> In b u -> a <> b -> (1 < List.length u)%nat.
Proof.
  destruct u as [|x [|y u']]; simpl; intros Ha Hb Hab.
  - contradiction.
  - destruct Ha as [<-|[]], Hb as [<-|[]]. congruence.
  - lia.
Qed.

Lemma unique_mixed (l : list string) (a b : string) :
  In a l -> In b l -> a <> b -> (1 < List.length (unique l))%nat.
Proof.
  intros Ha Hb. apply two_distinct_members; now apply unique_In.
Qed.

Section CombinationProperties.
Context {PN : PyNumber} {HT : HFRTypes} {CO : Collaborators}.

Lemma extensions_nil (cr : list CombRow) : extensions cr = [] -> cr = [].
Proof.
  unfold extensions. intros H. apply unique_nil in H.
  now apply map_eq_nil in H.
Qed.

Lemma extensions_uniform (e : string) (cr : list CombRow) :
  all_format e cr -> cr <> [] -> extensions cr = [e].
Proof.
  intros H Hne. apply unique_uniform.
  - apply Forall_map. exact H.
  - intros Hm. apply map_eq_nil in Hm. contradiction.
Qed.

Lemma extensions_singleton (e : string) (cr : list CombRow) :
  extensions cr = [e] -> all_format e cr.
Proof.
  intros H. apply unique_singleton in H.
  now apply Forall_map in H.
Qed.

Lemma extensions_mixed (cr : list CombRow) :
  mixed_formats cr -> (1 < List.length (extensions cr))%nat.
Proof.
  intros (r1 & r2 & H1 & H2 & Hne).
  apply unique_mixed with (a := extension (info r1)) (b := extension (info r2));
    trivial;
    [ apply (in_map (fun r => extension (info r)) cr r1 H1)
    | apply (in_map (fun r => extension (info r)) cr r2 H2) ].
Qed.


(* ------------------------------------------------------------------ *)
(** *** Running the monad *)

Lemma bind_Ok {S A B} (c : M S A) (k : A -> M S B) (s s' : S) (a : A) :
  c s = (Ok a, s') -> bind c k s = k a s'.
Proof. unfold bind. now intros ->. Qed.

Lemma bind_Raise {S A B} (c : M S A) (k : A -> M S B) (s s' : S) (e : PyExc) :
  c s = (Raise e, s') -> bind c k s = (Raise e, s').
Proof. unfold bind. now intros ->. Qed.

Lemma call_run {A} (c : Call) (r : result A) (s : CombState) :
  call c r s = (r, log_call c s).
Proof. reflexivity. Qed.

(** The misspelt name is not bound at module level. *)
Lemma combRadcombRad_unbound {S A} (s : S) :
  @global_loc S A "combRadcombRad" s = (Raise (NameError "combRadcombRad"), s).
Proof. reflexivity. Qed.

(** With at most one format tag the scaling step does nothing; with more
    it raises before any row is touched. *)
Lemma scaleWeraRadials_run (exts : list string) (s : CombState) :
  scaleWeraRadials exts s
  = if (1 <? List.length exts)%nat
    then (Raise (NameError "combRadcombRad"), s)
    else (Ok tt, s).
Proof.
  unfold scaleWeraRadials. destruct (1 <? List.length exts)%nat; trivial.
Qed.

Lemma createGeographicalGrid_single (e : string)
    (lonMin lonMax latMin latMax res : num) (s : CombState) :
  createGeographicalGrid [e] lonMin lonMax latMin latMax res s
  = if String.eqb e ".ruv" then
      (bound_to (createLonLatGridFromBB lonMin lonMax latMin latMax res),
       log_call (Call_createLonLatGridFromBB lonMin lonMax latMin latMax res) s)
    else if String.eqb e ".crad_ascii" then
      (bound_to (createLonLatGridFromBBwera lonMin lonMax latMin latMax res),
       log_call
         (Call_createLonLatGridFromBBwera lonMin lonMax latMin latMax res) s)
    else (Ok None, s).
Proof.
  unfold createGeographicalGrid. simpl.
  destruct (String.eqb e ".ruv").
  - unfold bind. rewrite call_run.
    destruct (createLonLatGridFromBB lonMin lonMax latMin latMax res); trivial.
  - destruct (String.eqb e ".crad_ascii"); trivial.
    unfold bind. rewrite call_run.
    destruct (createLonLatGridFromBBwera lonMin lonMax latMin latMax res);
      trivial.
Qed.

Lemma createGeographicalGrid_other (exts : list string)
    (lonMin lonMax latMin latMax res : num) (s : CombState) :
  List.length exts <> 1%nat ->
  createGeographicalGrid exts lonMin lonMax latMin latMax res s
  = (bound_to (createLonLatGridFromBB lonMin lonMax latMin latMax res),
     log_call (Call_createLonLatGridFromBB lonMin lonMax latMin latMax res) s).
Proof.
  intros H. unfold createGeographicalGrid.
  apply Nat.eqb_neq in H. rewrite H.
  unfold bind. rewrite call_run.
  destruct (createLonLatGridFromBB lonMin lonMax latMin latMax res); trivial.
Qed.

(** What a run of [combineOnGrid] that returns has done. *)
Lemma combineOnGrid_returns (net : NetworkRow) (exts : list string)
    (gridGS : option Grid) (s s' : CombState) (T : Total) :
  combineOnGrid net exts gridGS s = (Ok T, s') ->
  let lonMin := geospatial_lon_min net in
  let lonMax := geospatial_lon_max net in
  let latMin := geospatial_lat_min net in
  let latMax := geospatial_lat_max net in
  let metres := num_mul (grid_resolution net) (num_of_Z 1000) in
  let radius := num_mul (combination_search_radius net) (num_of_Z 1000) in
  exists g first rest ts T0 w T1,
    gridGS = Some g
    /\ combRad s = first :: rest
    /\ strptime (datetime (info first)) "%Y-%m-%d %H:%M:%S" = Ok ts
    /\ combineRadials (combRad s) g radius metres ts = Ok (T0, w)
    /\ addBoundingBoxMetadata T0 lonMin lonMax latMin latMax
         (num_div metres (num_of_Z 1000)) = Ok T1
    /\ T = addIsWera exts (set_is_combined T1 true)
    /\ combRad s' = combRad s
    /\ calls s'
       = calls s
         ++ [Call_combineRadials (combRad s) g radius metres ts;
             Call_addBoundingBoxMetadata T0 lonMin lonMax latMin latMax
               (num_div metres (num_of_Z 1000))].
Proof.
  intros H. cbv zeta.
  unfold combineOnGrid in H. cbv zeta in H.
  unfold bind at 1 in H. unfold gets at 1 in H.
  destruct (combRad s) as [|first rest] eqn:Hcr;
    unfold bind at 1 in H; simpl in H; [discriminate|].
  unfold bind at 1, lift at 1 in H.
  destruct (strptime (datetime (info first)) "%Y-%m-%d %H:%M:%S")
    as [ts|] eqn:Hts; [|discriminate].
  destruct gridGS as [g|]; unfold bind at 1 in H; simpl in H;
    [|discriminate].
  unfold bind at 1 in H. rewrite call_run in H.
  destruct (combineRadials (first :: rest) g _ _ ts) as [[T0 w]|] eqn:Hc;
    [|discriminate].
  unfold bind at 1 in H. rewrite call_run in H.
  destruct (addBoundingBoxMetadata T0 _ _ _ _ _) as [T1|] eqn:Hm;
    [|discriminate].
  unfold ret in H. injection H as <- <-.
  exists g, first, rest, ts, T0, w, T1.
  repeat split; trivial.
  simpl. now rewrite <- app_assoc.
Qed.

(** What a run of [combine] that returns has done: the frame holds one
    format, the grid came from the constructor of that format, and the
    three collaborators were called in turn. *)
Lemma combine_returns (net : NetworkRow) (s s' : CombState) (T : Total) :
  combine net s = (Ok T, s') ->
  let lonMin := geospatial_lon_min net in
  let lonMax := geospatial_lon_max net in
  let latMin := geospatial_lat_min net in
  let latMax := geospatial_lat_max net in
  let metres := num_mul (grid_resolution net) (num_of_Z 1000) in
  let radius := num_mul (combination_search_radius net) (num_of_Z 1000) in
  exists e gc g first rest ts T0 w T1,
    extensions (combRad s) = [e]
    /\ ((e = ".ruv"
         /\ gc = Call_createLonLatGridFromBB lonMin lonMax latMin latMax metres
         /\ createLonLatGridFromBB lonMin lonMax latMin latMax metres = Ok g)
        \/ (e = ".crad_ascii"
            /\ gc = Call_createLonLatGridFromBBwera
                      lonMin lonMax latMin latMax metres
            /\ createLonLatGridFromBBwera lonMin lonMax latMin latMax metres
               = Ok g))
    /\ combRad s = first :: rest
    /\ strptime (datetime (info first)) "%Y-%m-%d %H:%M:%S" = Ok ts
    /\ combineRadials (combRad s) g radius metres ts = Ok (T0, w)
    /\ addBoundingBoxMetadata T0 lonMin lonMax latMin latMax
         (num_div metres (num_of_Z 1000)) = Ok T1
    /\ T = addIsWera [e] (set_is_combined T1 true)
    /\ combRad s' = combRad s
    /\ calls s'
       = calls s
         ++ [gc;
             Call_combineRadials (combRad s) g radius metres ts;
             Call_addBoundingBoxMetadata T0 lonMin lonMax latMin latMax
               (num_div metres (num_of_Z 1000))].
Proof.
  intros H. cbv zeta.
  unfold combine in H. cbv zeta in H.
  unfold bind at 1 in H. unfold gets at 1 in H.
  destruct (extensions (combRad s)) as [|e [|e2 exts]] eqn:Hexts.
  - (* no row: the first row cannot be read *)
    apply extensions_nil in Hexts.
    unfold bind at 1 in H.
    rewrite createGeographicalGrid_other in H by (simpl; lia).
    destruct (createLonLatGridFromBB _ _ _ _ _); simpl in H;
      [|discriminate].
    unfold bind at 1 in H. rewrite scaleWeraRadials_run in H. simpl in H.
    apply combineOnGrid_returns in H.
    destruct H as (g' & first & rest & _ & _ & _ & _ & _ & Hcr & _).
    simpl in Hcr. congruence.
  - unfold bind at 1 in H. rewrite createGeographicalGrid_single in H.
    destruct (String.eqb_spec e ".ruv") as [->|Hruv];
      [|destruct (String.eqb_spec e ".crad_ascii") as [->|Hcrad]].
    + destruct (createLonLatGridFromBB _ _ _ _ _) as [g|] eqn:Hg;
        simpl in H; [|discriminate].
      unfold bind at 1 in H. rewrite scaleWeraRadials_run in H. simpl in H.
      apply combineOnGrid_returns in H.
      destruct H as (g' & first & rest & ts & T0 & w & T1 & Hg' & Hcr & Hts
                     & Hc & Hm & HTot & Hfr & Hlog).
      injection Hg' as <-. simpl in *.
      exists ".ruv", (Call_createLonLatGridFromBB (geospatial_lon_min net)
                        (geospatial_lon_max net) (geospatial_lat_min net)
                        (geospatial_lat_max net)
                        (num_mul (grid_resolution net) (num_of_Z 1000))),
        g, first, rest, ts, T0, w, T1.
      repeat split; trivial.
      * left. repeat split; trivial.
      * rewrite Hlog. now rewrite <- app_assoc.
    + destruct (createLonLatGridFromBBwera _ _ _ _ _) as [g|] eqn:Hg;
        simpl in H; [|discriminate].
      unfold bind at 1 in H. rewrite scaleWeraRadials_run in H. simpl in H.
      apply combineOnGrid_returns in H.
      destruct H as (g' & first & rest & ts & T0 & w & T1 & Hg' & Hcr & Hts
                     & Hc & Hm & HTot & Hfr & Hlog).
      injection Hg' as <-. simpl in *.
      exists ".crad_ascii",
        (Call_createLonLatGridFromBBwera (geospatial_lon_min net)
           (geospatial_lon_max net) (geospatial_lat_min net)
           (geospatial_lat_max net)
           (num_mul (grid_resolution net) (num_of_Z 1000))),
        g, first, rest, ts, T0, w, T1.
      repeat split; trivial.
      * right. repeat split; trivial.
      * rewrite Hlog. now rewrite <- app_assoc.
    + unfold bind at 1 in H. rewrite scaleWeraRadials_run in H. simpl in H.
      apply combineOnGrid_returns in H.
      destruct H as (g' & _ & _ & _ & _ & _ & _ & Hg' & _). discriminate.
  - unfold bind at 1 in H.
    rewrite createGeographicalGrid_other in H by (simpl; lia).
    destruct (createLonLatGridFromBB _ _ _ _ _); simpl in H;
      [|discriminate].
    unfold bind at 1 in H. rewrite scaleWeraRadials_run in H. simpl in H.
    discriminate.
Qed.


(** The same run read forwards: when the frame holds one known format and
    every collaborator returns, [combine] returns the flagged total. *)
Lemma combine_single_format (net : NetworkRow) (s : CombState)
    (e : string) (gc : Call) (g : Grid) (first : CombRow)
    (rest : list CombRow) (ts : DateTime) (T0 T1 : Total) (w : Warn) :
  let lonMin := geospatial_lon_min net in
  let lonMax := geospatial_lon_max net in
  let latMin := geospatial_lat_min net in
  let latMax := geospatial_lat_max net in
  let metres := num_mul (grid_resolution net) (num_of_Z 1000) in
  let radius := num_mul (combination_search_radius net) (num_of_Z 1000) in
  extensions (combRad s) = [e] ->
  (e = ".ruv"
   /\ gc = Call_createLonLatGridFromBB lonMin lonMax latMin latMax metres
   /\ createLonLatGridFromBB lonMin lonMax latMin latMax metres = Ok g)
  \/ (e = ".crad_ascii"
      /\ gc = Call_createLonLatGridFromBBwera lonMin lonMax latMin latMax metres
      /\ createLonLatGridFromBBwera lonMin lonMax latMin latMax metres = Ok g) ->
  combRad s = first :: rest ->
  strptime (datetime (info first)) "%Y-%m-%d %H:%M:%S" = Ok ts ->
  combineRadials (combRad s) g radius metres ts = Ok (T0, w) ->
  addBoundingBoxMetadata T0 lonMin lonMax latMin latMax
    (num_div metres (num_of_Z 1000)) = Ok T1 ->
  fst (combine net s) = Ok (addIsWera [e] (set_is_combined T1 true)).
Proof.
  cbv zeta. intros Hexts Hgrid Hcr Hts Hc Hm.
  unfold combine. cbv zeta.
  unfold bind at 1. unfold gets at 1. rewrite Hexts.
  unfold bind at 1. rewrite createGeographicalGrid_single.
  assert (Htail : forall s1, combRad s1 = combRad s ->
            fst (combineOnGrid net [e] (Some g) s1)
            = Ok (addIsWera [e] (set_is_combined T1 true))).
  { intros s1 H1. unfold combineOnGrid. cbv zeta.
    unfold bind at 1. unfold gets at 1. rewrite H1, Hcr.
    unfold bind at 1. simpl iloc0. unfold ret at 1.
    unfold bind at 1, lift at 1. rewrite Hts.
    unfold bind at 1. simpl load_local. unfold ret at 1.
    unfold bind at 1. rewrite call_run. rewrite <- Hcr, Hc.
    unfold bind at 1. rewrite call_run. rewrite Hm. reflexivity. }
  destruct Hgrid as [(-> & _ & Hg)|(-> & _ & Hg)]; simpl String.eqb;
    rewrite Hg; simpl bound_to; cbv iota;
    unfold bind at 1; rewrite scaleWeraRadials_run; simpl;
    apply Htail; reflexivity.
Qed.

(** *** The two guards *)

Lemma performRadialCombination_proceeds (net : NetworkRow)
    (rest : list NetworkRow) (s : CombState) :
  radial_combination net = 1 ->
  radialsToBeCombined net (combRad s) = true ->
  performRadialCombination (net :: rest) s = combine net s.
Proof.
  intros Hrc Hgate. unfold performRadialCombination.
  unfold bind at 1. simpl iloc0. unfold ret at 1.
  rewrite Hrc. simpl Z.eqb. cbv iota.
  unfold bind at 1. unfold bind at 1. unfold gets at 1. rewrite Hgate.
  unfold bind at 1.
  destruct (combine net s) as [[T|e] s']; reflexivity.
Qed.

Lemma performRadialCombination_skips (net : NetworkRow)
    (rest : list NetworkRow) (s : CombState) :
  radial_combination net <> 1
  \/ radialsToBeCombined net (combRad s) = false ->
  performRadialCombination (net :: rest) s
  = (Raise (UnboundLocalError "T"), s).
Proof.
  intros H. unfold performRadialCombination.
  unfold bind at 1. simpl iloc0. unfold ret at 1.
  destruct (Z.eqb_spec (radial_combination net) 1) as [Hrc|Hrc].
  - destruct H as [H|H]; [contradiction|].
    unfold bind at 1. unfold bind at 1. unfold gets at 1. rewrite H.
    reflexivity.
  - reflexivity.
Qed.

Lemma performRadialCombination_returns (networkData : list NetworkRow)
    (s s' : CombState) (T : Total) :
  performRadialCombination networkData s = (Ok T, s') ->
  exists net rest,
    networkData = net :: rest
    /\ radial_combination net = 1
    /\ radialsToBeCombined net (combRad s) = true
    /\ combine net s = (Ok T, s').
Proof.
  intros H. destruct networkData as [|net rest]; [discriminate|].
  exists net, rest.
  destruct (Z.eq_dec (radial_combination net) 1) as [Hrc|Hrc].
  - destruct (radialsToBeCombined net (combRad s)) eqn:Hgate.
    + rewrite performRadialCombination_proceeds in H by trivial. auto.
    + rewrite performRadialCombination_skips in H by auto. discriminate.
  - rewrite performRadialCombination_skips in H by auto. discriminate.
Qed.

(* ------------------------------------------------------------------ *)
(** *** Every run leaves the frame alone and logs calls in metres *)

Lemma only_logged_refl (net : NetworkRow) (s : CombState) :
  only_logged net s s.
Proof.
  split; trivial. exists []. split; [now rewrite app_nil_r|constructor].
Qed.

Lemma only_logged_trans (net : NetworkRow) (s1 s2 s3 : CombState) :
  only_logged net s1 s2 -> only_logged net s2 s3 -> only_logged net s1 s3.
Proof.
  intros [Hf1 (n1 & Hl1 & Hu1)] [Hf2 (n2 & Hl2 & Hu2)]. split.
  - congruence.
  - exists (n1 ++ n2). split.
    + now rewrite Hl2, Hl1, app_assoc.
    + apply Forall_app; auto.
Qed.

Lemma wb_ret (net : NetworkRow) {A} (a : A) : well_behaved net (ret a).
Proof. intros s. apply only_logged_refl. Qed.

Lemma wb_raise (net : NetworkRow) {A} (e : PyExc) :
  well_behaved net (@raise CombState A e).
Proof. intros s. apply only_logged_refl. Qed.

Lemma wb_gets (net : NetworkRow) {A} (f : CombState -> A) :
  well_behaved net (gets f).
Proof. intros s. apply only_logged_refl. Qed.

Lemma wb_lift (net : NetworkRow) {A} (r : result A) :
  well_behaved net (lift r).
Proof. intros s. apply only_logged_refl. Qed.

Lemma wb_load_local (net : NetworkRow) {A} (name : string) (v : option A) :
  well_behaved net (load_local name v).
Proof. destruct v; [apply wb_ret|apply wb_raise]. Qed.

Lemma wb_iloc0 (net : NetworkRow) {A} (df : list A) :
  well_behaved net (iloc0 df).
Proof. destruct df; [apply wb_raise|apply wb_ret]. Qed.

Lemma wb_call (net : NetworkRow) {A} (c : Call) (r : result A) :
  call_in_units net c -> well_behaved net (call c r).
Proof.
  intros Hc s. rewrite call_run. split; trivial.
  exists [c]. split; trivial. now constructor.
Qed.

Lemma wb_bind (net : NetworkRow) {A B} (c : M CombState A)
    (k : A -> M CombState B) :
  well_behaved net c -> (forall a, well_behaved net (k a)) ->
  well_behaved net (bind c k).
Proof.
  intros Hc Hk s. unfold bind. specialize (Hc s).
  destruct (c s) as [[a|e] s1]; simpl in Hc; trivial.
  eapply only_logged_trans; [exact Hc|apply Hk].
Qed.

Lemma wb_scaleWeraRadials (net : NetworkRow) (exts : list string) :
  well_behaved net (scaleWeraRadials exts).
Proof.
  intros s. rewrite scaleWeraRadials_run.
  destruct (1 <? List.length exts)%nat; apply only_logged_refl.
Qed.

Create HintDb wb.
#[local] Hint Resolve wb_ret wb_raise wb_gets wb_lift wb_load_local wb_iloc0
  wb_scaleWeraRadials : wb.

Ltac wb_step :=
  first [ apply wb_call; simpl; repeat split; reflexivity
        | solve [auto with wb]
        | apply wb_bind; [|intros ?] ].

Lemma wb_createGeographicalGrid (net : NetworkRow) (exts : list string) :
  well_behaved net
    (createGeographicalGrid exts (geospatial_lon_min net)
       (geospatial_lon_max net) (geospatial_lat_min net)
       (geospatial_lat_max net)
       (num_mul (grid_resolution net) (num_of_Z 1000))).
Proof.
  unfold createGeographicalGrid.
  destruct (List.length exts =? 1)%nat;
    [destruct (String.eqb (nth 0 exts EmptyString) ".ruv");
     [|destruct (String.eqb (nth 0 exts EmptyString) ".crad_ascii")]|];
    repeat wb_step.
Qed.

Lemma wb_combineOnGrid (net : NetworkRow) (exts : list string)
    (gridGS : option Grid) :
  well_behaved net (combineOnGrid net exts gridGS).
Proof.
  unfold combineOnGrid. cbv zeta.
  apply wb_bind; [auto with wb|intros cr].
  apply wb_bind; [auto with wb|intros first].
  apply wb_bind; [auto with wb|intros ts].
  apply wb_bind; [auto with wb|intros g].
  apply wb_bind; [wb_step|intros [T warn]].
  apply wb_bind; [wb_step|intros T1; apply wb_ret].
Qed.

Lemma wb_combine (net : NetworkRow) : well_behaved net (combine net).
Proof.
  unfold combine. cbv zeta.
  wb_step; [wb_step|].
  wb_step; [apply wb_createGeographicalGrid|].
  wb_step; [wb_step|]. apply wb_combineOnGrid.
Qed.

Lemma wb_performRadialCombination (net : NetworkRow)
    (rest : list NetworkRow) :
  well_behaved net (performRadialCombination (net :: rest)).
Proof.
  intros s.
  destruct (Z.eq_dec (radial_combination net) 1) as [Hrc|Hrc].
  - destruct (radialsToBeCombined net (combRad s)) eqn:Hgate.
    + rewrite performRadialCombination_proceeds by trivial.
      apply wb_combine.
    + rewrite performRadialCombination_skips by auto.
      apply only_logged_refl.
  - rewrite performRadialCombination_skips by auto.
    apply only_logged_refl.
Qed.

Lemma frame_unchanged (networkData : list NetworkRow) (s : CombState) :
  combRad (snd (performRadialCombination networkData s)) = combRad s.
Proof.
  destruct networkData as [|net rest]; [reflexivity|].
  apply (wb_performRadialCombination net rest s).
Qed.


Lemma combine_log_starts (net : NetworkRow) (s : CombState) (gc : Call)
    (r : result (option Grid)) :
  createGeographicalGrid (extensions (combRad s)) (geospatial_lon_min net)
    (geospatial_lon_max net) (geospatial_lat_min net)
    (geospatial_lat_max net) (num_mul (grid_resolution net) (num_of_Z 1000)) s
  = (r, log_call gc s) ->
  exists tail, calls (snd (combine net s)) = calls s ++ gc :: tail.
Proof.
  intros Hg. unfold combine. cbv zeta.
  unfold bind at 1. unfold gets at 1.
  unfold bind at 1. rewrite Hg.
  destruct r as [gridGS|e].
  - assert (Hwb : well_behaved net
                    (scaleWeraRadials (extensions (combRad s)) ;;
                     combineOnGrid net (extensions (combRad s)) gridGS)).
    { apply wb_bind; [auto with wb|intros _; apply wb_combineOnGrid]. }
    destruct (Hwb (log_call gc s)) as [_ (new & Hnew & _)].
    exists new. rewrite Hnew. simpl. now rewrite <- app_assoc.
  - exists []. reflexivity.
Qed.

Lemma addIsWera_is_combined (exts : list string) (T : Total) :
  is_combined (addIsWera exts T) = is_combined T.
Proof.
  unfold addIsWera.
  destruct (List.length exts =? 1)%nat; trivial.
  destruct (String.eqb (nth 0 exts EmptyString) ".ruv"); trivial.
  destruct (String.eqb (nth 0 exts EmptyString) ".crad_ascii"); trivial.
Qed.

Lemma addIsWera_mixed (exts : list string) (T : Total) :
  (1 < List.length exts)%nat -> is_wera (addIsWera exts T) = false.
Proof.
  intros H. unfold addIsWera.
  destruct (Nat.eqb_spec (List.length exts) 1); [lia|reflexivity].
Qed.

Lemma flag_unset_somewhere (f : CombRow -> Z) (cr : list CombRow) :
  existsb (fun r => f r =? 0) cr = true <-> Exists (fun r => f r = 0) cr.
Proof.
  rewrite existsb_exists, Exists_exists.
  split; intros (r & Hin & Hr); exists r; split; trivial; lia.
Qed.

(* ================================================================== *)
(** ** The claims about performRadialCombination *)

(** C1.  Eligibility to combine is decided by one flag, chosen by the
    network identity: for a network other than 'HFR-WesternItaly' the test
    of line 152 holds exactly when some candidate has its
    [NRT_combined_flag] equal to 0; for 'HFR-WesternItaly' it holds exactly
    when some candidate has its [NRT_processed_flag_integrated_network]
    equal to 0, whatever the combined flags are.  A total is returned only
    when the test holds, and when it fails no collaborator is called. *)
Theorem eligibility_by_network (net : NetworkRow) (cr : list CombRow) :
  (ntw_network_id net <> WesternItaly ->
   (radialsToBeCombined net cr = true
    <-> Exists (fun r => NRT_combined_flag (info r) = 0) cr))
  /\ (ntw_network_id net = WesternItaly ->
      (radialsToBeCombined net cr = true
       <-> Exists
             (fun r => NRT_processed_flag_integrated_network (info r) = 0)
             cr))
  /\ (forall rest log T s',
        performRadialCombination (net :: rest)
          {| combRad := cr; calls := log |} = (Ok T, s') ->
        radialsToBeCombined net cr = true)
  /\ (radialsToBeCombined net cr = false ->
      forall rest log,
        snd (performRadialCombination (net :: rest)
               {| combRad := cr; calls := log |})
        = {| combRad := cr; calls := log |}).
Proof.
  split; [|split; [|split]].
  - intros Hid. unfold radialsToBeCombined.
    apply String.eqb_neq in Hid. rewrite Hid. simpl.
    rewrite orb_false_r.
    apply (flag_unset_somewhere (fun r => NRT_combined_flag (info r))).
  - intros Hid. unfold radialsToBeCombined.
    apply String.eqb_eq in Hid. rewrite Hid. simpl.
    apply (flag_unset_somewhere
             (fun r => NRT_processed_flag_integrated_network (info r))).
  - intros rest log T s' Hrun.
    apply performRadialCombination_returns in Hrun.
    destruct Hrun as (net' & rest' & Heq & _ & Hgate & _).
    injection Heq as <- <-. exact Hgate.
  - intros Hgate rest log.
    rewrite performRadialCombination_skips by (right; exact Hgate).
    reflexivity.
Qed.

(** C4.  When a total is returned its [is_combined] attribute is true, and
    its [is_wera] attribute is true exactly when every observation of the
    frame has the extension '.crad_ascii'; an observation with extension
    '.ruv' in the frame makes it false.  The attribute step itself (lines
    190-200) sets [is_wera] to false on a list of more than one format
    tag, and leaves [is_combined] true. *)
Theorem total_attributes (networkData : list NetworkRow) :
  (forall s s' T,
      performRadialCombination networkData s = (Ok T, s') ->
      is_combined T = true
      /\ (is_wera T = true <-> all_format ".crad_ascii" (combRad s))
      /\ (Exists (fun r => extension (info r) = ".ruv") (combRad s) ->
          is_wera T = false))
  /\ (forall exts T,
        (1 < List.length exts)%nat ->
        is_wera (addIsWera exts (set_is_combined T true)) = false
        /\ is_combined (addIsWera exts (set_is_combined T true)) = true).
Proof.
  split.
  - intros s s' T Hrun.
    apply performRadialCombination_returns in Hrun.
    destruct Hrun as (net & rest & _ & _ & _ & Hrun).
    apply combine_returns in Hrun. cbv zeta in Hrun.
    destruct Hrun as (e & gc & g & first & tl & ts & T0 & w & T1 & Hexts
                      & Hgrid & Hcr & _ & _ & _ & HTot & _).
    pose proof (extensions_singleton _ _ Hexts) as Hall.
    subst T. split; [now rewrite addIsWera_is_combined|].
    destruct Hgrid as [(-> & _)|(-> & _)]; simpl.
    + split; [split; [discriminate|]|reflexivity].
      intros Hcrad. rewrite Hcr in Hall, Hcrad.
      apply Forall_inv in Hall, Hcrad. congruence.
    + split; [split; trivial|].
      intros Hruv. apply Exists_exists in Hruv.
      destruct Hruv as (r & Hin & Hr).
      unfold all_format in Hall. rewrite Forall_forall in Hall.
      specialize (Hall r Hin). congruence.
  - intros exts T Hlen. split.
    + now apply addIsWera_mixed.
    + now rewrite addIsWera_is_combined.
Qed.

(** C5.  The grid constructor is selected from the distinct format tags
    of a non-empty frame: [createLonLatGridFromBB] when every observation
    is '.ruv', [createLonLatGridFromBBwera] when every observation is
    '.crad_ascii', and [createLonLatGridFromBB] again when two
    observations differ in format.  In a run of the function that passes
    the two guards, that constructor is the first collaborator called. *)
Theorem grid_method_by_format (cr : list CombRow)
    (lonMin lonMax latMin latMax res : num) (log : list Call) :
  cr <> [] ->
  let s := {| combRad := cr; calls := log |} in
  (all_format ".ruv" cr ->
   createGeographicalGrid (extensions cr) lonMin lonMax latMin latMax res s
   = (bound_to (createLonLatGridFromBB lonMin lonMax latMin latMax res),
      log_call (Call_createLonLatGridFromBB lonMin lonMax latMin latMax res)
        s))
  /\ (all_format ".crad_ascii" cr ->
      createGeographicalGrid (extensions cr) lonMin lonMax latMin latMax res s
      = (bound_to (createLonLatGridFromBBwera lonMin lonMax latMin latMax res),
         log_call
           (Call_createLonLatGridFromBBwera lonMin lonMax latMin latMax res)
           s))
  /\ (mixed_formats cr ->
      createGeographicalGrid (extensions cr) lonMin lonMax latMin latMax res s
      = (bound_to (createLonLatGridFromBB lonMin lonMax latMin latMax res),
         log_call
           (Call_createLonLatGridFromBB lonMin lonMax latMin latMax res) s))
  /\ (forall net rest,
        radial_combination net = 1 ->
        radialsToBeCombined net cr = true ->
        let metres := num_mul (grid_resolution net) (num_of_Z 1000) in
        (all_format ".ruv" cr \/ mixed_formats cr ->
         exists tail,
           calls (snd (performRadialCombination (net :: rest) s))
           = log ++ Call_createLonLatGridFromBB (geospatial_lon_min net)
                      (geospatial_lon_max net) (geospatial_lat_min net)
                      (geospatial_lat_max net) metres :: tail)
        /\ (all_format ".crad_ascii" cr ->
            exists tail,
              calls (snd (performRadialCombination (net :: rest) s))
              = log ++ Call_createLonLatGridFromBBwera (geospatial_lon_min net)
                         (geospatial_lon_max net) (geospatial_lat_min net)
                         (geospatial_lat_max net) metres :: tail)).
Proof.
  intros Hne s.
  assert (Hruv : forall a b c d r, all_format ".ruv" cr ->
            createGeographicalGrid (extensions cr) a b c d r s
            = (bound_to (createLonLatGridFromBB a b c d r),
               log_call (Call_createLonLatGridFromBB a b c d r) s)).
  { intros a b c d r H. rewrite (extensions_uniform _ _ H Hne).
    now rewrite createGeographicalGrid_single. }
  assert (Hcrad : forall a b c d r, all_format ".crad_ascii" cr ->
            createGeographicalGrid (extensions cr) a b c d r s
            = (bound_to (createLonLatGridFromBBwera a b c d r),
               log_call (Call_createLonLatGridFromBBwera a b c d r) s)).
  { intros a b c d r H. rewrite (extensions_uniform _ _ H Hne).
    now rewrite createGeographicalGrid_single. }
  assert (Hmix : forall a b c d r, mixed_formats cr ->
            createGeographicalGrid (extensions cr) a b c d r s
            = (bound_to (createLonLatGridFromBB a b c d r),
               log_call (Call_createLonLatGridFromBB a b c d r) s)).
  { intros a b c d r H. apply extensions_mixed in H.
    apply createGeographicalGrid_other. lia. }
  split; [apply Hruv|]. split; [apply Hcrad|]. split; [apply Hmix|].
  intros net rest Hrc Hgate metres. subst metres.
  rewrite performRadialCombination_proceeds by trivial.
  split.
  - intros [Hfmt|Hfmt]; eapply (combine_log_starts net s);
      [apply Hruv|apply Hmix]; exact Hfmt.
  - intros Hfmt. eapply (combine_log_starts net s). apply Hcrad. exact Hfmt.
Qed.

Lemma addIsWera_total_data (exts : list string) (T : Total) :
  total_data (addIsWera exts T) = total_data T.
Proof.
  unfold addIsWera.
  destruct (List.length exts =? 1)%nat; trivial.
  destruct (String.eqb (nth 0 exts EmptyString) ".ruv"); trivial.
  destruct (String.eqb (nth 0 exts EmptyString) ".crad_ascii"); trivial.
Qed.

(** C6.  The grid resolution and the combination search radius, stored in
    kilometres, are multiplied by 1000 before they are passed on, and the
    bounding-box metadata is attached to the result with the resolution
    in metres divided by 1000.
    - Every collaborator call of every run is logged with its lengths in
      these units and with the bounding box of the descriptor.
    - A run that returns a total [T] has applied the grid constructor to
      the bounding box and the resolution times 1000, [combineRadials] to
      the frame, that grid, the search radius times 1000 and the
      resolution times 1000, and [addBoundingBoxMetadata] to the total
      that [combineRadials] returned, the bounding box and the resolution
      in metres divided by 1000; [T] is what [addBoundingBoxMetadata]
      returned, with the two attributes set and its data as they were.
    - Conversely, when these applications return, the function returns
      that total: what it returns is computed from the converted values
      and from no others. *)
Theorem lengths_in_metres (net : NetworkRow) (rest : list NetworkRow)
    (s : CombState) :
  let lonMin := geospatial_lon_min net in
  let lonMax := geospatial_lon_max net in
  let latMin := geospatial_lat_min net in
  let latMax := geospatial_lat_max net in
  let metres := num_mul (grid_resolution net) (num_of_Z 1000) in
  let radius := num_mul (combination_search_radius net) (num_of_Z 1000) in
  let kilometres := num_div metres (num_of_Z 1000) in
  (exists new,
      calls (snd (performRadialCombination (net :: rest) s)) = calls s ++ new
      /\ Forall (call_in_units net) new)
  /\ (forall T s',
        performRadialCombination (net :: rest) s = (Ok T, s') ->
        exists e gc g first others ts T0 w T1,
          all_format e (combRad s)
          /\ ((e = ".ruv"
               /\ gc = Call_createLonLatGridFromBB
                         lonMin lonMax latMin latMax metres
               /\ createLonLatGridFromBB lonMin lonMax latMin latMax metres
                  = Ok g)
              \/ (e = ".crad_ascii"
                  /\ gc = Call_createLonLatGridFromBBwera
                            lonMin lonMax latMin latMax metres
                  /\ createLonLatGridFromBBwera
                       lonMin lonMax latMin latMax metres = Ok g))
          /\ combRad s = first :: others
          /\ strptime (datetime (info first)) "%Y-%m-%d %H:%M:%S" = Ok ts
          /\ combineRadials (combRad s) g radius metres ts = Ok (T0, w)
          /\ addBoundingBoxMetadata T0 lonMin lonMax latMin latMax kilometres
             = Ok T1
          /\ T = addIsWera [e] (set_is_combined T1 true)
          /\ total_data T = total_data T1
          /\ calls s'
             = calls s
               ++ [gc;
                   Call_combineRadials (combRad s) g radius metres ts;
                   Call_addBoundingBoxMetadata T0 lonMin lonMax latMin latMax
                     kilometres])
  /\ (forall e g first others ts T0 w T1,
        radial_combination net = 1 ->
        radialsToBeCombined net (combRad s) = true ->
        all_format e (combRad s) ->
        (e = ".ruv"
         /\ createLonLatGridFromBB lonMin lonMax latMin latMax metres = Ok g)
        \/ (e = ".crad_ascii"
            /\ createLonLatGridFromBBwera lonMin lonMax latMin latMax metres
               = Ok g) ->
        combRad s = first :: others ->
        strptime (datetime (info first)) "%Y-%m-%d %H:%M:%S" = Ok ts ->
        combineRadials (combRad s) g radius metres ts = Ok (T0, w) ->
        addBoundingBoxMetadata T0 lonMin lonMax latMin latMax kilometres
        = Ok T1 ->
        fst (performRadialCombination (net :: rest) s)
        = Ok (addIsWera [e] (set_is_combined T1 true))).
Proof.
  cbv zeta. split; [|split].
  - apply (wb_performRadialCombination net rest s).
  - intros T s' Hrun.
    apply performRadialCombination_returns in Hrun.
    destruct Hrun as (net' & rest' & Heq & _ & _ & Hrun).
    injection Heq as <- <-.
    apply combine_returns in Hrun. cbv zeta in Hrun.
    destruct Hrun as (e & gc & g & first & tl & ts & T0 & w & T1 & Hexts
                      & Hgrid & Hcr & Hts & Hc & Hm & HTot & _ & Hlog).
    exists e, gc, g, first, tl, ts, T0, w, T1.
    split; [now apply extensions_singleton|].
    split; [exact Hgrid|].
    repeat (split; [assumption|]).
    split; [|exact Hlog].
    subst T. now rewrite addIsWera_total_data.
  - intros e g first others ts T0 w T1 Hrc Hgate Hall Hgrid Hcr Hts Hc Hm.
    rewrite performRadialCombination_proceeds by trivial.
    assert (Hne : combRad s <> []) by (rewrite Hcr; discriminate).
    pose proof (extensions_uniform _ _ Hall Hne) as Hexts.
    destruct Hgrid as [[-> Hg]|[-> Hg]].
    + eapply (combine_single_format net s ".ruv"
                (Call_createLonLatGridFromBB (geospatial_lon_min net)
                   (geospatial_lon_max net) (geospatial_lat_min net)
                   (geospatial_lat_max net)
                   (num_mul (grid_resolution net) (num_of_Z 1000))));
        eauto.
    + eapply (combine_single_format net s ".crad_ascii"
                (Call_createLonLatGridFromBBwera (geospatial_lon_min net)
                   (geospatial_lon_max net) (geospatial_lat_min net)
                   (geospatial_lat_max net)
                   (num_mul (grid_resolution net) (num_of_Z 1000))));
        eauto 10.
Qed.

(** C7, as the code has it.  [performRadialCombination] never writes to
    the frame: after every run each observation has the flags it had
    before, so a second cycle on the frame left by a cycle that returned a
    total passes the same guards and returns the same total. *)
Theorem flags_left_to_the_caller (networkData : list NetworkRow) :
  (forall s,
      combRad (snd (performRadialCombination networkData s)) = combRad s)
  /\ (forall s s' T,
        performRadialCombination networkData s = (Ok T, s') ->
        fst (performRadialCombination networkData s') = Ok T).
Proof.
  split; [apply frame_unchanged|].
  intros s s' T Hrun.
  pose proof (frame_unchanged networkData s) as Hfr.
  rewrite Hrun in Hfr. simpl in Hfr.
  apply performRadialCombination_returns in Hrun.
  destruct Hrun as (net & rest & -> & Hrc & Hgate & Hrun).
  rewrite performRadialCombination_proceeds by (trivial; now rewrite Hfr).
  apply combine_returns in Hrun. cbv zeta in Hrun.
  destruct Hrun as (e & gc & g & first & tl & ts & T0 & w & T1 & Hexts
                    & Hgrid & Hcr & Hts & Hc & Hm & -> & _ & _).
  rewrite <- Hfr in Hexts, Hcr, Hc.
  eapply combine_single_format; eauto.
Qed.

(** C8.  When all observations share one format tag the scaling step is
    skipped: it returns without an exception and leaves every velocity
    and every variance sample, and the rest of the state, as it was. *)
Theorem scaling_skipped_when_uniform (cr : list CombRow) (s : CombState) :
  (forall r1 r2, In r1 cr -> In r2 cr ->
                 extension (info r1) = extension (info r2)) ->
  scaleWeraRadials (extensions cr) s = (Ok tt, s).
Proof.
  intros Hsame. rewrite scaleWeraRadials_run.
  destruct cr as [|r0 cr']; [reflexivity|].
  rewrite (extensions_uniform (extension (info r0))); trivial.
  - apply Forall_forall. intros r Hr. apply Hsame; simpl; auto.
  - discriminate.
Qed.

(** C2, on the code.  A frame with two formats that passes the guards
    never reaches the scaling: the run ends in an exception, which is
    [NameError] for the name [combRadcombRad] as soon as the grid is
    built, and no sample of the frame has been rescaled. *)
Theorem mixed_formats_raise (net : NetworkRow) (rest : list NetworkRow)
    (s : CombState) :
  radial_combination net = 1 ->
  radialsToBeCombined net (combRad s) = true ->
  mixed_formats (combRad s) ->
  (forall T, fst (performRadialCombination (net :: rest) s) <> Ok T)
  /\ combRad (snd (performRadialCombination (net :: rest) s)) = combRad s
  /\ (forall g,
        createLonLatGridFromBB (geospatial_lon_min net)
          (geospatial_lon_max net) (geospatial_lat_min net)
          (geospatial_lat_max net)
          (num_mul (grid_resolution net) (num_of_Z 1000)) = Ok g ->
        fst (performRadialCombination (net :: rest) s)
        = Raise (NameError "combRadcombRad")).
Proof.
  intros Hrc Hgate Hmix. apply extensions_mixed in Hmix.
  repeat split.
  - intros T Hok.
    destruct (performRadialCombination (net :: rest) s) as [r s'] eqn:Hrun.
    simpl in Hok. subst r.
    apply performRadialCombination_returns in Hrun.
    destruct Hrun as (net' & rest' & _ & _ & _ & Hrun).
    apply combine_returns in Hrun. cbv zeta in Hrun.
    destruct Hrun as (e & _ & _ & _ & _ & _ & _ & _ & _ & Hexts & _).
    rewrite Hexts in Hmix. simpl in Hmix. lia.
  - apply frame_unchanged.
  - intros g Hg.
    rewrite performRadialCombination_proceeds by trivial.
    unfold combine. cbv zeta.
    unfold bind at 1. unfold gets at 1.
    unfold bind at 1.
    rewrite createGeographicalGrid_other by lia.
    rewrite Hg. simpl bound_to. cbv iota.
    unfold bind at 1. rewrite scaleWeraRadials_run.
    apply Nat.ltb_lt in Hmix. rewrite Hmix. reflexivity.
Qed.

(** C3, on the code.  When no combination is performed, because the
    network's [radial_combination] is not 1 or because no candidate passes
    the flag test, the final [return T] reads a local that was never
    assigned: the function raises [UnboundLocalError]. *)
Theorem no_combination_raises (net : NetworkRow) (rest : list NetworkRow)
    (s : CombState) :
  radial_combination net <> 1
  \/ radialsToBeCombined net (combRad s) = false ->
  performRadialCombination (net :: rest) s
  = (Raise (UnboundLocalError "T"), s).
Proof.
  intros H.
  unfold performRadialCombination.
  unfold bind at 1. simpl iloc0. unfold ret at 1.
  destruct H as [H|H].
  - apply Z.eqb_neq in H. rewrite H. reflexivity.
  - destruct (radial_combination net =? 1); [|reflexivity].
    unfold bind at 1. unfold bind at 1. unfold gets at 1.
    rewrite H. reflexivity.
Qed.

End CombinationProperties.

(* ================================================================== *)
(** ** Properties of selectRadials *)

Section SelectionProperties.
Context {PN : PyNumber} {HT : HFRTypes} {RT : Runtime}.

(** One file: either its row is appended and the clock has been read
    once, or the exception leaves the state as it was. *)
Lemma listRadial_run (networkID stationID inputFile : string) (s : SelState) :
  listRadial networkID stationID inputFile s
  = match radialInfo networkID stationID inputFile (clock s) with
    | Ok row => (Ok tt, concat_row row (tick s))
    | Raise e => (Raise e, s)
    end.
Proof.
  unfold listRadial, radialInfo. cbv zeta.
  unfold bind at 1, lift at 1.
  destruct (Radial_init inputFile) as [radial|e]; [|reflexivity].
  unfold bind at 1, lift at 1.
  destruct (path_getsize inputFile) as [size|e]; reflexivity.
Qed.

(** The inner loop with its [try]: it never raises, appends the rows of
    the files that were processed, and leaves the wildcard alone. *)
Lemma files_loop_run (networkID stationID : string) (files : list string) :
  forall s,
  exists s',
    for_each files (fun inputFile =>
      try_except (listRadial networkID stationID inputFile)
                 (fun err => modify (set_sRerr true))) s
    = (Ok tt, s')
    /\ radialsToBeProcessed s'
       = radialsToBeProcessed s
         ++ rowsOfFiles networkID stationID files (clock s)
    /\ clock s'
       = (clock s
          + List.length (rowsOfFiles networkID stationID files (clock s)))%nat
    /\ fileTypeWildcard s' = fileTypeWildcard s.
Proof.
  induction files as [|f fs IH]; intros s.
  - exists s. simpl. rewrite app_nil_r, Nat.add_0_r. auto.
  - simpl for_each. simpl rowsOfFiles.
    unfold bind at 1, try_except at 1. rewrite listRadial_run.
    destruct (radialInfo networkID stationID f (clock s)) as [row|e].
    + destruct (IH (concat_row row (tick s))) as (s' & Hrun & Hdf & Hck & Hw).
      exists s'. rewrite Hrun. simpl in Hdf, Hck, Hw.
      repeat split; trivial.
      * rewrite Hdf. now rewrite <- app_assoc.
      * rewrite Hck. simpl. lia.
    + destruct (IH (set_sRerr true s)) as (s' & Hrun & Hdf & Hck & Hw).
      exists s'. unfold modify at 1. cbv beta iota. rewrite Hrun. auto.
Qed.

Lemma chooseWildcard_run (m : string) (s : SelState) :
  chooseWildcard m s
  = (Ok tt, set_fileTypeWildcard (wildcardAfter m (fileTypeWildcard s)) s).
Proof.
  unfold chooseWildcard, wildcardAfter.
  destruct (contains "codar" m); [reflexivity|].
  destruct (contains "wera" m); [reflexivity|].
  destruct (contains "lera" m); [reflexivity|].
  destruct s; reflexivity.
Qed.

(** One station with its [try]: it never raises, and appends the rows of
    the files listed for the station, if they could be listed. *)
Lemma station_run (networkID : string) (st : StationRow) (s : SelState) :
  exists s',
    try_except (listStation networkID st)
               (fun err => modify (set_sRerr true)) s
    = (Ok tt, s')
    /\ fileTypeWildcard s' = snd (stationFiles st (fileTypeWildcard s))
    /\ radialsToBeProcessed s'
       = radialsToBeProcessed s
         ++ match fst (stationFiles st (fileTypeWildcard s)) with
            | Ok files =>
                rowsOfFiles networkID (sta_station_id st) files (clock s)
            | Raise _ => []
            end
    /\ clock s'
       = (clock s
          + match fst (stationFiles st (fileTypeWildcard s)) with
            | Ok files =>
                List.length
                  (rowsOfFiles networkID (sta_station_id st) files (clock s))
            | Raise _ => 0
            end)%nat.
Proof.
  assert (Hskip : forall s1 : SelState,
            radialsToBeProcessed s1 = radialsToBeProcessed s ->
            clock s1 = clock s ->
            radialsToBeProcessed s1 = radialsToBeProcessed s ++ []
            /\ clock s1 = (clock s + 0)%nat).
  { intros s1 -> ->. now rewrite app_nil_r, Nat.add_0_r. }
  unfold try_except, listStation, stationFiles. cbv zeta.
  unfold bind at 1, lift at 1.
  destruct (radial_input_folder_path st) as [p|]; simpl.
  2:{ exists (set_sRerr true s). repeat split; apply Hskip; reflexivity. }
  destruct (String.eqb (strip p) EmptyString); simpl.
  { eexists. split; [reflexivity|]. repeat split; apply Hskip; reflexivity. }
  destruct (path_isdir (strip p)); simpl.
  2:{ eexists. split; [reflexivity|].
      repeat split; apply Hskip; reflexivity. }
  unfold bind at 1, lift at 1.
  destruct (manufacturer st) as [m|]; simpl.
  2:{ exists (set_sRerr true s). repeat split; apply Hskip; reflexivity. }
  unfold bind at 1. rewrite chooseWildcard_run.
  unfold bind at 1, gets at 1. simpl fileTypeWildcard.
  destruct (wildcardAfter (lower m) (fileTypeWildcard s)) as [w|] eqn:Hw;
    simpl.
  2:{ eexists. split; [reflexivity|].
      repeat split; apply Hskip; reflexivity. }
  unfold bind at 1. unfold ret at 1.
  unfold bind at 1, lift at 1.
  destruct (glob_recursive (path_join (strip p) w)) as [files|e]; simpl.
  2:{ eexists. split; [reflexivity|].
      repeat split; apply Hskip; reflexivity. }
  destruct (files_loop_run networkID (sta_station_id st) files
              (set_fileTypeWildcard (Some w) s))
    as (s' & Hrun & Hdf & Hck & Hwc).
  exists s'. rewrite Hrun. simpl in *. auto.
Qed.

(** The outer loop. *)
Lemma stations_loop_run (networkID : string) (stations : list StationRow) :
  forall s,
  exists s',
    for_each stations (fun st =>
      try_except (listStation networkID st)
                 (fun err => modify (set_sRerr true))) s
    = (Ok tt, s')
    /\ radialsToBeProcessed s'
       = radialsToBeProcessed s
         ++ rowsOfStations networkID stations (fileTypeWildcard s) (clock s).
Proof.
  induction stations as [|st rest IH]; intros s.
  - exists s. simpl. now rewrite app_nil_r.
  - simpl for_each. unfold bind at 1.
    destruct (station_run networkID st s) as (s1 & Hrun & Hw & Hdf & Hck).
    rewrite Hrun.
    destruct (IH s1) as (s' & Hrest & Hdf').
    exists s'. split; [exact Hrest|].
    rewrite Hdf', Hdf, Hw, Hck. simpl rowsOfStations.
    destruct (stationFiles st (fileTypeWildcard s)) as [[files|e] w];
      simpl.
    + now rewrite <- app_assoc.
    + now rewrite app_nil_r, Nat.add_0_r.
Qed.

(** The function returns the rows of the files that were processed. *)
Lemma selectRadials_run (networkID : string) (stationData : list StationRow)
    (s : SelState) :
  fst (selectRadials networkID stationData s)
  = Ok (rowsOfStations networkID stationData None (clock s)).
Proof.
  destruct (stations_loop_run networkID stationData
              {| radialsToBeProcessed := []; fileTypeWildcard := None;
                 sRerr := false; stdout := stdout s; clock := clock s |})
    as (s' & Hrun & Hdf).
  unfold selectRadials. unfold bind at 1. unfold modify at 1.
  cbv beta iota. unfold bind at 1. rewrite Hrun.
  simpl in *. now rewrite Hdf.
Qed.

Lemma radialInfo_pending (networkID stationID inputFile : string) (n : nat)
    (row : RadialsRow) :
  radialInfo networkID stationID inputFile n = Ok row -> pending row.
Proof.
  unfold radialInfo.
  destruct (Radial_init inputFile); [|discriminate].
  destruct (path_getsize inputFile); [|discriminate].
  intros H. injection H as <-. repeat split.
Qed.

Lemma rowsOfFiles_pending (networkID stationID : string)
    (files : list string) :
  forall n, Forall pending (rowsOfFiles networkID stationID files n).
Proof.
  induction files as [|f fs IH]; intros n; simpl; [constructor|].
  destruct (radialInfo networkID stationID f n) as [row|e] eqn:Hrow; auto.
  constructor; [eapply radialInfo_pending; eassumption|apply IH].
Qed.

Lemma rowsOfStations_pending (networkID : string)
    (stations : list StationRow) :
  forall w n, Forall pending (rowsOfStations networkID stations w n).
Proof.
  induction stations as [|st rest IH]; intros w n; simpl; [constructor|].
  destruct (stationFiles st w) as [[files|e] w']; auto.
  apply Forall_app. split; [apply rowsOfFiles_pending|apply IH].
Qed.

Lemma rowsOfFiles_app (networkID stationID : string)
    (before after : list string) :
  forall n,
    rowsOfFiles networkID stationID (before ++ after) n
    = rowsOfFiles networkID stationID before n
      ++ rowsOfFiles networkID stationID after
           (n + List.length (rowsOfFiles networkID stationID before n)).
Proof.
  induction before as [|f fs IH]; intros n; simpl.
  - now rewrite Nat.add_0_r.
  - destruct (radialInfo networkID stationID f n) as [row|e]; simpl.
    + rewrite IH. f_equal. f_equal. f_equal. lia.
    + apply IH.
Qed.

(* ================================================================== *)
(** ** The claims about selectRadials *)

(** C9.  [selectRadials] returns a DataFrame, and every row of it has
    [NRT_processed_flag], [NRT_processed_flag_integrated_network] and
    [NRT_combined_flag] equal to 0. *)
Theorem listed_radials_are_pending (networkID : string)
    (stationData : list StationRow) (s : SelState) :
  exists df,
    fst (selectRadials networkID stationData s) = Ok df
    /\ Forall pending df.
Proof.
  exists (rowsOfStations networkID stationData None (clock s)).
  split; [apply selectRadials_run|apply rowsOfStations_pending].
Qed.

(** C10.  [selectRadials] never raises.  It returns the rows of the files
    that were read and parsed, in the order in which stations and files
    were visited: a station on which an exception occurs before its files
    are visited contributes no row, and a file on which an exception
    occurs is left out while the rows of the files before it and after it
    are kept. *)
Theorem selectRadials_skips_failures (networkID : string) :
  (forall stationData s,
      fst (selectRadials networkID stationData s)
      = Ok (rowsOfStations networkID stationData None (clock s)))
  /\ (forall st rest w n e w',
        stationFiles st w = (Raise e, w') ->
        rowsOfStations networkID (st :: rest) w n
        = rowsOfStations networkID rest w' n)
  /\ (forall stationID before f after n e,
        radialInfo networkID stationID f
          (n + List.length (rowsOfFiles networkID stationID before n))
        = Raise e ->
        rowsOfFiles networkID stationID (before ++ f :: after) n
        = rowsOfFiles networkID stationID before n
          ++ rowsOfFiles networkID stationID after
               (n + List.length (rowsOfFiles networkID stationID before n))).
Proof.
  split; [|split].
  - intros stationData s. apply selectRadials_run.
  - intros st rest w n e w' Hst. simpl. now rewrite Hst.
  - intros stationID before f after n e Hf.
    rewrite rowsOfFiles_app. simpl. now rewrite Hf.
Qed.

End SelectionProperties.


(* ================================================================== *)
(** ** Properties of splitting and joining paths *)

Lemma append_nil_r (s : string) : (s ++ EmptyString)%string = s.
Proof. induction s as [|c t IH]; simpl; [trivial|now rewrite IH]. Qed.

Lemma append_assoc (a b c : string) :
  ((a ++ b) ++ c)%string = (a ++ (b ++ c))%string.
Proof. induction a as [|x t IH]; simpl; [trivial|now rewrite IH]. Qed.

Lemma split_on_not_nil (sep : ascii) (s : string) : split_on sep s <> [].
Proof.
  destruct s as [|c t]; simpl; [discriminate|].
  destruct (Ascii.eqb c sep); [discriminate|].
  destruct (split_on sep t); discriminate.
Qed.

(** Splitting at a separator splits the pieces on either side of it. *)
Lemma split_on_app_sep (sep : ascii) (a b : string) :
  split_on sep (a ++ String sep b) = split_on sep a ++ split_on sep b.
Proof.
  induction a as [|c t IH]; simpl.
  - now rewrite Ascii.eqb_refl.
  - destruct (Ascii.eqb c sep); [now rewrite IH|].
    rewrite IH.
    destruct (split_on sep t) as [|h r] eqn:Ht; [|reflexivity].
    now apply split_on_not_nil in Ht.
Qed.

Lemma split_on_no_sep (sep : ascii) (s : string) :
  has_char sep s = false -> split_on sep s = [s].
Proof.
  induction s as [|c t IH]; simpl; [trivial|].
  intros H. apply orb_false_iff in H. destruct H as [Hc Ht].
  rewrite Hc, (IH Ht). reflexivity.
Qed.

(** The pieces hold no separator. *)
Lemma split_on_pieces (sep : ascii) (s : string) :
  Forall (fun p => has_char sep p = false) (split_on sep s).
Proof.
  induction s as [|c t IH]; simpl.
  - repeat constructor.
  - destruct (Ascii.eqb c sep) eqn:Hc.
    + constructor; trivial.
    + destruct (split_on sep t) as [|h r]; [repeat constructor|].
      * simpl. now rewrite Hc.
      * inversion IH as [|? ? Hh Hr]; subst.
        constructor; trivial. simpl. now rewrite Hc, Hh.
Qed.

Lemma endswith_char_inv (c : ascii) (s : string) :
  endswith_char c s = true ->
  exists s0, s = (s0 ++ String c EmptyString)%string.
Proof.
  induction s as [|x t IH]; simpl; [discriminate|].
  destruct t as [|y t'].
  - intros H. apply Ascii.eqb_eq in H. subst x. now exists EmptyString.
  - intros H. destruct (IH H) as (s0 & Hs0).
    exists (String x s0). simpl. now rewrite Hs0.
Qed.

Lemma endswith_char_app (c : ascii) (a b : string) :
  b <> EmptyString ->
  endswith_char c (a ++ b) = endswith_char c b.
Proof.
  intros Hb. induction a as [|x t IH]; simpl; [trivial|].
  destruct (t ++ b)%string eqn:Htb; [|exact IH].
  destruct t; simpl in Htb; [contradiction|discriminate].
Qed.

Lemma no_sep_not_at_end (c : ascii) (s : string) :
  has_char c s = false -> endswith_char c s = false.
Proof.
  induction s as [|x t IH]; simpl; [trivial|].
  intros H. apply orb_false_iff in H. destruct H as [Hx Ht].
  destruct t; [exact Hx|now apply IH].
Qed.

Lemma no_sep_not_at_start (s : string) :
  has_char "/" s = false -> String.prefix "/" s = false.
Proof.
  destruct s as [|x t]; [trivial|].
  cbn -[ascii_dec].
  intros H. apply orb_false_iff in H. destruct H as [Hx _].
  apply Ascii.eqb_neq in Hx.
  destruct (ascii_dec "/" x) as [E|E]; [congruence|reflexivity].
Qed.

Lemma index_from_end_last {A} (l : list A) (x : A) :
  index_from_end (l ++ [x]) 1 = Ok x.
Proof.
  unfold index_from_end. rewrite length_app. cbn [List.length].
  assert (E : (1 <=? List.length l + 1)%nat = true)
    by (apply Nat.leb_le; lia).
  rewrite E.
  replace (List.length l + 1 - 1)%nat with (List.length l) by lia.
  rewrite nth_error_app2 by lia. rewrite Nat.sub_diag. reflexivity.
Qed.

Lemma index_from_end_parent {A} (l : list A) (y x : A) :
  index_from_end (l ++ [y; x]) 2 = Ok y.
Proof.
  unfold index_from_end. rewrite length_app. cbn [List.length].
  assert (E : (2 <=? List.length l + 2)%nat = true)
    by (apply Nat.leb_le; lia).
  rewrite E.
  replace (List.length l + 2 - 2)%nat with (List.length l) by lia.
  rewrite nth_error_app2 by lia. rewrite Nat.sub_diag. reflexivity.
Qed.

Lemma index_from_end_1 {A} (l : list A) (d : A) :
  l <> [] -> index_from_end l 1 = Ok (last l d).
Proof.
  intros H. destruct (exists_last H) as (l' & x & ->).
  now rewrite index_from_end_last, last_last.
Qed.

(** The last piece of a joined path is the component that was joined,
    when it holds no slash. *)
Lemma posix_join_split (a b : string) :
  has_char "/" b = false ->
  exists pre, split_on "/" (posix_join a b) = pre ++ [b].
Proof.
  intros Hb. unfold posix_join.
  rewrite (no_sep_not_at_start _ Hb).
  destruct (String.eqb_spec a EmptyString) as [->|Ha]; simpl orb.
  - exists []. simpl. now apply split_on_no_sep.
  - destruct (endswith_char "/" a) eqn:He.
    + apply endswith_char_inv in He. destruct He as (a0 & ->).
      rewrite append_assoc. simpl append.
      exists (split_on "/" a0).
      now rewrite split_on_app_sep, (split_on_no_sep _ _ Hb).
    + exists (split_on "/" a).
      change (a ++ "/" ++ b)%string with (a ++ String "/" b)%string.
      now rewrite split_on_app_sep, (split_on_no_sep _ _ Hb).
Qed.

(** Joining a parent and a leaf that hold no slash, the parent not empty,
    gives a path whose last two pieces are the parent and the leaf. *)
Lemma posix_join_split2 (a parent leaf : string) :
  has_char "/" parent = false -> parent <> EmptyString ->
  has_char "/" leaf = false ->
  exists pre,
    split_on "/" (posix_join (posix_join a parent) leaf)
    = pre ++ [parent; leaf].
Proof.
  intros Hp Hne Hl.
  destruct (posix_join_split a parent Hp) as (pre & Hpre).
  assert (Hend : endswith_char "/" (posix_join a parent) = false).
  { unfold posix_join. rewrite (no_sep_not_at_start _ Hp).
    destruct (String.eqb a EmptyString || endswith_char "/" a).
    - rewrite endswith_char_app by trivial. now apply no_sep_not_at_end.
    - rewrite <- append_assoc.
      rewrite endswith_char_app by trivial. now apply no_sep_not_at_end. }
  assert (Hnil : posix_join a parent <> EmptyString).
  { intros E. rewrite E in Hpre. simpl in Hpre.
    destruct pre as [|x [|y pre']]; simpl in Hpre; try discriminate.
    injection Hpre as <-. contradiction. }
  exists pre. unfold posix_join at 1.
  rewrite (no_sep_not_at_start _ Hl), Hend.
  apply String.eqb_neq in Hnil. rewrite Hnil. simpl orb. cbv iota.
  change (posix_join a parent ++ "/" ++ leaf)%string
    with (posix_join a parent ++ String "/" leaf)%string.
  rewrite split_on_app_sep, Hpre, (split_on_no_sep _ _ Hl).
  now rewrite <- app_assoc.
Qed.

Lemma prefix_app (a b : string) : String.prefix a (a ++ b) = true.
Proof.
  induction a as [|x t IH]; [destruct b; reflexivity|].
  cbn -[ascii_dec].
  destruct (ascii_dec x x); [exact IH|contradiction].
Qed.

Lemma prefix_trans (a b c : string) :
  String.prefix a b = true -> String.prefix b c = true ->
  String.prefix a c = true.
Proof.
  revert b c. induction a as [|x t IH]; intros b c Hab Hbc;
    [destruct c; reflexivity|].
  destruct b as [|y b']; [discriminate|].
  destruct c as [|z c']; [discriminate|].
  cbn -[ascii_dec] in *.
  destruct (ascii_dec x y) as [->|]; [|discriminate].
  destruct (ascii_dec y z) as [->|]; [|discriminate].
  now apply (IH b').
Qed.

(** A component that does not start with a slash is joined below the
    path it is joined to. *)
Lemma posix_join_prefix (a b : string) :
  String.prefix "/" b = false -> String.prefix a (posix_join a b) = true.
Proof.
  intros Hb. unfold posix_join. rewrite Hb.
  destruct (String.eqb a EmptyString || endswith_char "/" a);
    apply prefix_app.
Qed.

(** A path with a slash splits into at least two pieces, one without into
    one. *)
Lemma split_on_two (sep : ascii) (s : string) :
  has_char sep s = true ->
  exists pre parent leaf, split_on sep s = pre ++ [parent; leaf].
Proof.
  intros H.
  assert (Hlen : (2 <= List.length (split_on sep s))%nat).
  { induction s as [|c t IH]; simpl in *; [discriminate|].
    destruct (Ascii.eqb c sep) eqn:Hc; simpl in H.
    - pose proof (split_on_not_nil sep t) as Hne.
      destruct (split_on sep t); [contradiction|simpl; lia].
    - specialize (IH H).
      destruct (split_on sep t) as [|h r]; simpl in *; lia. }
  destruct (split_on sep s) as [|a l] eqn:E; [simpl in Hlen; lia|].
  destruct (exists_last (l := a :: l)) as (l1 & leaf & E1); [discriminate|].
  rewrite E1 in *. rewrite length_app in Hlen. simpl in Hlen.
  destruct l1 as [|b l2]; [simpl in Hlen; lia|].
  destruct (exists_last (l := b :: l2)) as (pre & parent & E2);
    [discriminate|].
  exists pre, parent, leaf. rewrite E2. now rewrite <- app_assoc.
Qed.

Lemma index_from_end_short (p : string) :
  has_char "/" p = false ->
  index_from_end (split_on "/" p) 2 = @Raise string IndexError.
Proof. intros H. now rewrite (split_on_no_sep _ _ H). Qed.

Lemma split_on_two_not_empty (sep : ascii) (s : string)
    (pre : list string) (parent leaf : string) :
  split_on sep s = pre ++ [parent; leaf] -> s <> EmptyString.
Proof.
  intros H E. subst s. simpl in H.
  destruct pre as [|x [|y pre']]; discriminate.
Qed.

(* ================================================================== *)
(** ** Properties of the two folder functions *)

Section FolderProperties.
Context {PN : PyNumber} {HT : HFRTypes} {RT : Runtime}.

(** The last piece of a split can always be taken. *)
Lemma last_piece (p : string) :
  index_from_end (split_on "/" p) 1
  = Ok (last (split_on "/" p) EmptyString).
Proof. apply index_from_end_1, split_on_not_nil. Qed.

Lemma last_piece_no_slash (p : string) :
  has_char "/" (last (split_on "/" p) EmptyString) = false.
Proof.
  pose proof (split_on_pieces "/" p) as Hall.
  destruct (exists_last (split_on_not_nil "/" p)) as (l & x & E).
  rewrite E in *. rewrite last_last.
  apply Forall_app in Hall. destruct Hall as [_ Hx].
  now inversion Hx.
Qed.

Lemma posix_join_last_piece (a b : string) :
  has_char "/" b = false ->
  last (split_on "/" (posix_join a b)) EmptyString = b.
Proof.
  intros Hb. destruct (posix_join_split a b Hb) as (pre & ->).
  apply last_last.
Qed.

(* ------------------------------------------------------------------ *)
(** *** The steps of modifyNetworkDataFolders *)

(** Lines 68-71, by what the cell holds. *)
Lemma relocate_total_input_folder_run (dataFolder : string)
    (df : NetworkSeries) (b : bool) :
  relocate_total_input_folder dataFolder {| series := df; mfErr := b |}
  = match total_input_folder_path df with
    | Str p =>
        if String.eqb p EmptyString
        then (Ok tt, {| series := df; mfErr := b |})
        else
          (Ok tt,
           {| series :=
                set_total_input_folder_path
                  (Str (path_join
                          (path_join dataFolder
                             (ntw_network_id (ntw_info df)))
                          (last (split_on "/" p) EmptyString))) df;
              mfErr := b |})
    | PyNone => (Ok tt, {| series := df; mfErr := b |})
    | NaN => (Raise AttributeError, {| series := df; mfErr := b |})
    end.
Proof.
  unfold relocate_total_input_folder.
  unfold bind at 1, gets at 1. cbn [series].
  destruct (total_input_folder_path df) as [p| |]; cbn [truthy];
    [|reflexivity|reflexivity].
  destruct (String.eqb p EmptyString); cbn [negb]; [reflexivity|].
  unfold bind at 1, gets at 1. cbn [series].
  unfold bind at 1, lift at 1. cbn [split_cell].
  unfold bind at 1, lift at 1. rewrite last_piece. reflexivity.
Qed.

(** Lines 73-76. *)
Lemma relocate_total_HFRnetCDF_folder_run (dataFolder : string)
    (df : NetworkSeries) (b : bool) :
  relocate_total_HFRnetCDF_folder dataFolder {| series := df; mfErr := b |}
  = (Ok tt,
     {| series :=
          if truthy (total_HFRnetCDF_folder_path df)
          then set_total_HFRnetCDF_folder_path
                 (Str (path_join
                         (path_join dataFolder (ntw_network_id (ntw_info df)))
                         "Totals_nc")) df
          else df;
        mfErr := b |}).
Proof.
  unfold relocate_total_HFRnetCDF_folder.
  unfold bind at 1, gets at 1. cbn [series].
  destruct (truthy (total_HFRnetCDF_folder_path df)); reflexivity.
Qed.

(** A whole call when the input folder is held as NaN. *)
Lemma modifyNetworkDataFolders_NaN (ntwDF : NetworkSeries)
    (dataFolder : string) :
  total_input_folder_path ntwDF = NaN ->
  modifyNetworkDataFolders ntwDF dataFolder
  = (Ok ntwDF, {| series := ntwDF; mfErr := true |}).
Proof.
  intros Hin.
  unfold modifyNetworkDataFolders, modifyNetworkDataFolders_try.
  unfold bind at 1, try_except at 1. unfold bind at 1.
  rewrite relocate_total_input_folder_run, Hin. reflexivity.
Qed.

(** A whole call otherwise. *)
Lemma modifyNetworkDataFolders_run (ntwDF : NetworkSeries)
    (dataFolder : string) :
  total_input_folder_path ntwDF <> NaN ->
  let base := path_join dataFolder (ntw_network_id (ntw_info ntwDF)) in
  let df1 :=
    match total_input_folder_path ntwDF with
    | Str p =>
        if String.eqb p EmptyString then ntwDF
        else set_total_input_folder_path
               (Str (path_join base (last (split_on "/" p) EmptyString)))
               ntwDF
    | _ => ntwDF
    end in
  let df2 :=
    if truthy (total_HFRnetCDF_folder_path ntwDF)
    then set_total_HFRnetCDF_folder_path (Str (path_join base "Totals_nc"))
           df1
    else df1 in
  modifyNetworkDataFolders ntwDF dataFolder
  = (Ok df2, {| series := df2; mfErr := false |}).
Proof.
  intros Hnan. cbv zeta.
  unfold modifyNetworkDataFolders, modifyNetworkDataFolders_try.
  unfold bind at 1, try_except at 1. unfold bind at 1.
  rewrite relocate_total_input_folder_run.
  destruct (total_input_folder_path ntwDF) as [p| |] eqn:Hin;
    [|rewrite relocate_total_HFRnetCDF_folder_run; reflexivity
     |contradiction].
  destruct (String.eqb p EmptyString);
    rewrite relocate_total_HFRnetCDF_folder_run; reflexivity.
Qed.

Lemma NetworkSeries_ext (a b : NetworkSeries) :
  ntw_info a = ntw_info b ->
  total_input_folder_path a = total_input_folder_path b ->
  total_HFRnetCDF_folder_path a = total_HFRnetCDF_folder_path b ->
  a = b.
Proof. destruct a, b; simpl; intros; subst; reflexivity. Qed.

(** The fields of the Series returned when the input folder is not NaN. *)
Lemma modifyNetworkDataFolders_fields (ntwDF : NetworkSeries)
    (dataFolder : string) :
  total_input_folder_path ntwDF <> NaN ->
  let base := path_join dataFolder (ntw_network_id (ntw_info ntwDF)) in
  exists df',
    modifyNetworkDataFolders ntwDF dataFolder
    = (Ok df', {| series := df'; mfErr := false |})
    /\ ntw_info df' = ntw_info ntwDF
    /\ total_input_folder_path df'
       = match total_input_folder_path ntwDF with
         | Str p =>
             if String.eqb p EmptyString then Str p
             else Str (path_join base (last (split_on "/" p) EmptyString))
         | c => c
         end
    /\ total_HFRnetCDF_folder_path df'
       = (if truthy (total_HFRnetCDF_folder_path ntwDF)
          then Str (path_join base "Totals_nc")
          else total_HFRnetCDF_folder_path ntwDF).
Proof.
  intros Hnan. cbv zeta.
  eexists. split; [apply (modifyNetworkDataFolders_run _ _ Hnan)|].
  destruct (total_input_folder_path ntwDF) as [p| |] eqn:Hin;
    [destruct (String.eqb p EmptyString)| |contradiction];
    destruct (truthy (total_HFRnetCDF_folder_path ntwDF)); simpl;
    rewrite ?Hin; auto.
Qed.

(* ------------------------------------------------------------------ *)
(** *** modifyNetworkDataFolders *)

(** X1.  [modifyNetworkDataFolders] always returns the Series it was
    given, mutated in place, and the one failure it swallows is a
    [total_input_folder_path] held as NaN: NaN is true and has no
    [split], so the [try] is left and nothing is relocated, the netCDF
    folder included.  Otherwise the descriptor is untouched; a
    [total_input_folder_path] that is a non-empty string becomes
    dataFolder/network_id/last, where last is what follows the last slash
    of the old path; a [total_HFRnetCDF_folder_path] that is a non-empty
    string or NaN becomes dataFolder/network_id/Totals_nc; a path that is
    [None] or empty stays as it is. *)
Theorem network_folders_relocated (ntwDF : NetworkSeries)
    (dataFolder : string) :
  let base := path_join dataFolder (ntw_network_id (ntw_info ntwDF)) in
  (total_input_folder_path ntwDF = NaN ->
   modifyNetworkDataFolders ntwDF dataFolder
   = (Ok ntwDF, {| series := ntwDF; mfErr := true |}))
  /\ (total_input_folder_path ntwDF <> NaN ->
      exists df',
        modifyNetworkDataFolders ntwDF dataFolder
        = (Ok df', {| series := df'; mfErr := false |})
        /\ ntw_info df' = ntw_info ntwDF
        /\ (forall p,
              total_input_folder_path ntwDF = Str p -> p <> EmptyString ->
              total_input_folder_path df'
              = Str (path_join base (last (split_on "/" p) EmptyString)))
        /\ (truthy (total_input_folder_path ntwDF) = false ->
            total_input_folder_path df' = total_input_folder_path ntwDF)
        /\ (truthy (total_HFRnetCDF_folder_path ntwDF) = true ->
            total_HFRnetCDF_folder_path df'
            = Str (path_join base "Totals_nc"))
        /\ (truthy (total_HFRnetCDF_folder_path ntwDF) = false ->
            total_HFRnetCDF_folder_path df'
            = total_HFRnetCDF_folder_path ntwDF)).
Proof.
  cbv zeta. split; [apply modifyNetworkDataFolders_NaN|].
  intros Hnan.
  destruct (modifyNetworkDataFolders_fields ntwDF dataFolder Hnan)
    as (df' & Hrun & Hinfo & Hin & Hnc).
  exists df'. split; [exact Hrun|]. split; [exact Hinfo|].
  split; [|split; [|split]].
  - intros p Hp Hne. rewrite Hin, Hp.
    apply String.eqb_neq in Hne. now rewrite Hne.
  - intros Hf. rewrite Hin.
    destruct (total_input_folder_path ntwDF) as [p| |]; trivial.
    simpl in Hf. apply negb_false_iff in Hf. now rewrite Hf.
  - intros Ht. now rewrite Hnc, Ht.
  - intros Hf. now rewrite Hnc, Hf.
Qed.

(** X2.  On a POSIX system relocating twice is relocating once: a second
    call with the same data folder on the Series returned by a first call
    returns that Series again. *)
Theorem network_relocation_idempotent (ntwDF df1 : NetworkSeries)
    (dataFolder : string) :
  posix_paths ->
  fst (modifyNetworkDataFolders ntwDF dataFolder) = Ok df1 ->
  fst (modifyNetworkDataFolders df1 dataFolder) = Ok df1.
Proof.
  intros Hposix Hfirst.
  destruct (total_input_folder_path ntwDF) as [p0| |] eqn:Hcell.
  3:{ rewrite (modifyNetworkDataFolders_NaN _ _ Hcell) in Hfirst.
      simpl in Hfirst. injection Hfirst as <-.
      now rewrite (modifyNetworkDataFolders_NaN _ _ Hcell). }
  all: assert (Hnan : total_input_folder_path ntwDF <> NaN)
         by (rewrite Hcell; discriminate);
       destruct (modifyNetworkDataFolders_fields ntwDF dataFolder Hnan)
         as (d1 & Hrun1 & Hinfo1 & Hin1 & Hnc1);
       rewrite Hrun1 in Hfirst; simpl in Hfirst; injection Hfirst as ->;
       rewrite Hcell in Hin1;
       assert (Hnan1 : total_input_folder_path df1 <> NaN)
         by (rewrite Hin1; try destruct (String.eqb p0 EmptyString);
             discriminate);
       destruct (modifyNetworkDataFolders_fields df1 dataFolder Hnan1)
         as (d2 & Hrun2 & Hinfo2 & Hin2 & Hnc2);
       rewrite Hrun2; simpl; f_equal;
       apply NetworkSeries_ext; [exact Hinfo2| |].
  - rewrite Hin2, Hinfo1. clear Hin2.
    destruct (String.eqb p0 EmptyString) eqn:He; rewrite Hin1; cbv iota beta.
    + now rewrite He.
    + destruct (String.eqb (path_join _ _) EmptyString); [reflexivity|].
      rewrite !Hposix.
      now rewrite posix_join_last_piece by apply last_piece_no_slash.
  - rewrite Hnc2, Hinfo1, Hnc1.
    destruct (truthy (total_HFRnetCDF_folder_path ntwDF)) eqn:Ht0.
    + destruct (truthy (Str _)); reflexivity.
    + now rewrite Ht0.
  - now rewrite Hin2, Hin1.
  - rewrite Hnc2, Hinfo1, Hnc1.
    destruct (truthy (total_HFRnetCDF_folder_path ntwDF)) eqn:Ht0.
    + destruct (truthy (Str _)); reflexivity.
    + now rewrite Ht0.
Qed.

(** X3.  On a POSIX system, when the network identity does not start with
    a slash, every path that [modifyNetworkDataFolders] writes starts with
    the data folder. *)
Theorem network_folders_below_dataFolder (ntwDF df' : NetworkSeries)
    (dataFolder : string) :
  posix_paths ->
  String.prefix "/" (ntw_network_id (ntw_info ntwDF)) = false ->
  fst (modifyNetworkDataFolders ntwDF dataFolder) = Ok df' ->
  (forall p,
      total_input_folder_path ntwDF = Str p -> p <> EmptyString ->
      exists q, total_input_folder_path df' = Str q
                /\ String.prefix dataFolder q = true)
  /\ (total_input_folder_path ntwDF <> NaN ->
      truthy (total_HFRnetCDF_folder_path ntwDF) = true ->
      exists q, total_HFRnetCDF_folder_path df' = Str q
                /\ String.prefix dataFolder q = true)
  /\ (forall q,
        total_input_folder_path df' = Str q ->
        total_input_folder_path ntwDF <> Str q ->
        String.prefix dataFolder q = true)
  /\ (forall q,
        total_HFRnetCDF_folder_path df' = Str q ->
        total_HFRnetCDF_folder_path ntwDF <> Str q ->
        String.prefix dataFolder q = true).
Proof.
  intros Hposix Hid Hfirst.
  assert (Hbase : String.prefix dataFolder
                    (posix_join dataFolder
                       (ntw_network_id (ntw_info ntwDF))) = true)
    by now apply posix_join_prefix.
  assert (Hlast : forall p,
             String.prefix dataFolder
               (path_join
                  (path_join dataFolder (ntw_network_id (ntw_info ntwDF)))
                  (last (split_on "/" p) EmptyString)) = true).
  { intros p. rewrite !Hposix.
    eapply prefix_trans; [exact Hbase|].
    apply posix_join_prefix, no_sep_not_at_start, last_piece_no_slash. }
  assert (Hnc : String.prefix dataFolder
                  (path_join
                     (path_join dataFolder (ntw_network_id (ntw_info ntwDF)))
                     "Totals_nc") = true).
  { rewrite !Hposix. eapply prefix_trans; [exact Hbase|].
    now apply posix_join_prefix. }
  destruct (total_input_folder_path ntwDF) as [p0| |] eqn:Hcell.
  3:{ rewrite (modifyNetworkDataFolders_NaN _ _ Hcell) in Hfirst.
      simpl in Hfirst. injection Hfirst as <-.
      split; [|split; [|split]].
      - intros p Hp. discriminate.
      - intros Hn. contradiction.
      - intros q Hq Hne. congruence.
      - intros q Hq Hne. contradiction. }
  all: assert (Hnan : total_input_folder_path ntwDF <> NaN)
         by (rewrite Hcell; discriminate);
       destruct (modifyNetworkDataFolders_fields ntwDF dataFolder Hnan)
         as (d1 & Hrun1 & Hinfo1 & Hin1 & Hnc1);
       rewrite Hrun1 in Hfirst; simpl in Hfirst; injection Hfirst as ->;
       rewrite Hcell in Hin1.
  - split; [|split; [|split]].
    + intros p Hp Hne. injection Hp as <-.
      apply String.eqb_neq in Hne. rewrite Hne in Hin1.
      eexists. split; [exact Hin1|apply Hlast].
    + intros _ Ht. rewrite Ht in Hnc1.
      eexists. split; [exact Hnc1|exact Hnc].
    + intros q Hq Hne. rewrite Hin1 in Hq.
      destruct (String.eqb p0 EmptyString); [congruence|].
      injection Hq as <-. apply Hlast.
    + intros q Hq Hne. rewrite Hnc1 in Hq.
      destruct (truthy (total_HFRnetCDF_folder_path ntwDF));
        [|contradiction].
      injection Hq as <-. exact Hnc.
  - split; [|split; [|split]].
    + intros p Hp. discriminate.
    + intros _ Ht. rewrite Ht in Hnc1.
      eexists. split; [exact Hnc1|exact Hnc].
    + intros q Hq Hne. rewrite Hin1 in Hq. discriminate.
    + intros q Hq Hne. rewrite Hnc1 in Hq.
      destruct (truthy (total_HFRnetCDF_folder_path ntwDF));
        [|contradiction].
      injection Hq as <-. exact Hnc.
Qed.

(* ------------------------------------------------------------------ *)
(** *** The steps of modifyStationDataFolders *)

(** Lines 110-113. *)
Lemma relocate_radial_HFRnetCDF_folder_run (dataFolder : string)
    (df : StationSeries) (b : bool) :
  relocate_radial_HFRnetCDF_folder dataFolder {| series := df; mfErr := b |}
  = (Ok tt,
     {| series :=
          if truthy (radial_HFRnetCDF_folder_path df)
          then set_radial_HFRnetCDF_folder_path
                 (Str (path_join (path_join dataFolder (sta_network_id df))
                         "Radials_nc")) df
          else df;
        mfErr := b |}).
Proof.
  unfold relocate_radial_HFRnetCDF_folder.
  unfold bind at 1, gets at 1. cbn [series].
  destruct (truthy (radial_HFRnetCDF_folder_path df)); reflexivity.
Qed.

(** Lines 105-108, by what the cell holds. *)
Lemma relocate_radial_input_folder_run (dataFolder : string)
    (df : StationSeries) (b : bool) :
  relocate_radial_input_folder dataFolder {| series := df; mfErr := b |}
  = match staDF_radial_input_folder_path df with
    | Str p =>
        if String.eqb p EmptyString
        then (Ok tt, {| series := df; mfErr := b |})
        else
          match index_from_end (split_on "/" p) 2 with
          | Ok parent =>
              (Ok tt,
               {| series :=
                    set_radial_input_folder_path
                      (Str (path_join
                              (path_join
                                 (path_join dataFolder (sta_network_id df))
                                 parent)
                              (last (split_on "/" p) EmptyString))) df;
                  mfErr := b |})
          | Raise e => (Raise e, {| series := df; mfErr := b |})
          end
    | PyNone => (Ok tt, {| series := df; mfErr := b |})
    | NaN => (Raise AttributeError, {| series := df; mfErr := b |})
    end.
Proof.
  unfold relocate_radial_input_folder.
  unfold bind at 1, gets at 1. cbn [series].
  destruct (staDF_radial_input_folder_path df) as [p| |]; cbn [truthy];
    [|reflexivity|reflexivity].
  destruct (String.eqb p EmptyString); cbn [negb]; [reflexivity|].
  unfold bind at 1, gets at 1. cbn [series].
  unfold bind at 1, lift at 1. cbn [split_cell].
  unfold bind at 1, lift at 1.
  destruct (index_from_end (split_on "/" p) 2) as [parent|e]; [|reflexivity].
  unfold bind at 1, lift at 1. cbn [split_cell].
  unfold bind at 1, lift at 1. rewrite last_piece. reflexivity.
Qed.

(** A whole call, by the shape of [radial_input_folder_path]. *)
Lemma modifyStationDataFolders_NaN (staDF : StationSeries)
    (dataFolder : string) :
  staDF_radial_input_folder_path staDF = NaN ->
  modifyStationDataFolders staDF dataFolder
  = (Ok staDF, {| series := staDF; mfErr := true |}).
Proof.
  intros Hin.
  unfold modifyStationDataFolders, modifyStationDataFolders_try.
  unfold bind at 1, try_except at 1. unfold bind at 1.
  rewrite relocate_radial_input_folder_run, Hin. reflexivity.
Qed.

Lemma modifyStationDataFolders_short (staDF : StationSeries)
    (dataFolder p : string) :
  staDF_radial_input_folder_path staDF = Str p ->
  p <> EmptyString -> has_char "/" p = false ->
  modifyStationDataFolders staDF dataFolder
  = (Ok staDF, {| series := staDF; mfErr := true |}).
Proof.
  intros Hp Hne Hs.
  unfold modifyStationDataFolders, modifyStationDataFolders_try.
  unfold bind at 1, try_except at 1. unfold bind at 1.
  rewrite relocate_radial_input_folder_run, Hp.
  apply String.eqb_neq in Hne. rewrite Hne.
  rewrite (index_from_end_short _ Hs). reflexivity.
Qed.

Lemma modifyStationDataFolders_long (staDF : StationSeries)
    (dataFolder p : string) (pre : list string) (parent leaf : string) :
  staDF_radial_input_folder_path staDF = Str p ->
  split_on "/" p = pre ++ [parent; leaf] ->
  let df1 :=
    set_radial_input_folder_path
      (Str (path_join
              (path_join (path_join dataFolder (sta_network_id staDF))
                 parent) leaf)) staDF in
  let df2 :=
    if truthy (radial_HFRnetCDF_folder_path staDF)
    then set_radial_HFRnetCDF_folder_path
           (Str (path_join (path_join dataFolder (sta_network_id staDF))
                   "Radials_nc")) df1
    else df1 in
  modifyStationDataFolders staDF dataFolder
  = (Ok df2, {| series := df2; mfErr := false |}).
Proof.
  intros Hp Hsplit. cbv zeta.
  unfold modifyStationDataFolders, modifyStationDataFolders_try.
  unfold bind at 1, try_except at 1. unfold bind at 1.
  rewrite relocate_radial_input_folder_run, Hp.
  pose proof (split_on_two_not_empty _ _ _ _ _ Hsplit) as Hne.
  apply String.eqb_neq in Hne. rewrite Hne.
  rewrite Hsplit, index_from_end_parent.
  replace (pre ++ [parent; leaf]) with ((pre ++ [parent]) ++ [leaf])
    by now rewrite <- app_assoc.
  rewrite last_last.
  rewrite relocate_radial_HFRnetCDF_folder_run. reflexivity.
Qed.

Lemma modifyStationDataFolders_none (staDF : StationSeries)
    (dataFolder : string) :
  truthy (staDF_radial_input_folder_path staDF) = false ->
  let df2 :=
    if truthy (radial_HFRnetCDF_folder_path staDF)
    then set_radial_HFRnetCDF_folder_path
           (Str (path_join (path_join dataFolder (sta_network_id staDF))
                   "Radials_nc")) staDF
    else staDF in
  modifyStationDataFolders staDF dataFolder
  = (Ok df2, {| series := df2; mfErr := false |}).
Proof.
  intros Hf. cbv zeta.
  unfold modifyStationDataFolders, modifyStationDataFolders_try.
  unfold bind at 1, try_except at 1. unfold bind at 1.
  rewrite relocate_radial_input_folder_run.
  destruct (staDF_radial_input_folder_path staDF) as [p| |].
  - simpl in Hf. apply negb_false_iff in Hf. rewrite Hf.
    rewrite relocate_radial_HFRnetCDF_folder_run. reflexivity.
  - rewrite relocate_radial_HFRnetCDF_folder_run. reflexivity.
  - discriminate.
Qed.

(** The four shapes are all there are. *)
Lemma input_path_shape (v : Cell) :
  truthy v = false
  \/ (exists p, v = Str p /\ p <> EmptyString /\ has_char "/" p = false)
  \/ (exists p pre parent leaf,
         v = Str p /\ split_on "/" p = pre ++ [parent; leaf])
  \/ v = NaN.
Proof.
  destruct v as [p| |]; [|now left|now right; right; right].
  destruct (String.eqb_spec p EmptyString) as [->|Hne]; [now left|].
  right. destruct (has_char "/" p) eqn:Hs.
  - right. left. destruct (split_on_two _ _ Hs) as (pre & parent & leaf & E).
    now exists p, pre, parent, leaf.
  - left. now exists p.
Qed.

(* ------------------------------------------------------------------ *)
(** *** modifyStationDataFolders *)

(** X4.  The failures of [modifyStationDataFolders] on a Series whose
    folder cells are strings, [None] or NaN: the [try] is left by an
    exception exactly when [radial_input_folder_path] is NaN (true, and
    without a [split]) or a non-empty string without a slash (it has no
    last-but-one piece), and then the Series is returned as it was given:
    the radial input folder is kept, and [radial_HFRnetCDF_folder_path] is
    not relocated either. *)
Theorem station_failure_is_single_component (staDF : StationSeries)
    (dataFolder : string) :
  (mfErr (snd (modifyStationDataFolders staDF dataFolder)) = true
   <-> (staDF_radial_input_folder_path staDF = NaN
        \/ exists p,
             staDF_radial_input_folder_path staDF = Str p
             /\ p <> EmptyString /\ has_char "/" p = false))
  /\ (mfErr (snd (modifyStationDataFolders staDF dataFolder)) = true ->
      modifyStationDataFolders staDF dataFolder
      = (Ok staDF, {| series := staDF; mfErr := true |})).
Proof.
  destruct (input_path_shape (staDF_radial_input_folder_path staDF))
    as [Hf|[(p & Hp & Hne & Hs)
           |[(p & pre & parent & leaf & Hp & Hsplit)|Hnan]]].
  - rewrite (modifyStationDataFolders_none _ _ Hf). simpl.
    split; [|discriminate]. split; [discriminate|].
    intros [Hn|(p & Hp & Hne & _)]; rewrite ?Hn, ?Hp in Hf; simpl in Hf;
      [discriminate|].
    apply negb_false_iff, String.eqb_eq in Hf. contradiction.
  - rewrite (modifyStationDataFolders_short _ _ _ Hp Hne Hs). simpl.
    split; [|reflexivity]. split; [|reflexivity].
    intros _. right. now exists p.
  - rewrite (modifyStationDataFolders_long _ _ _ _ _ _ Hp Hsplit). simpl.
    split; [|discriminate]. split; [discriminate|].
    intros [Hn|(q & Hq & _ & Hs)]; [congruence|].
    rewrite Hp in Hq. injection Hq as <-.
    rewrite (split_on_no_sep _ _ Hs) in Hsplit.
    destruct pre as [|x [|y pre']]; discriminate.
  - rewrite (modifyStationDataFolders_NaN _ _ Hnan). simpl.
    split; [|reflexivity]. split; [|reflexivity].
    intros _. now left.
Qed.

(** X5.  When the radial input folder is neither NaN nor a single
    component, [modifyStationDataFolders] returns the Series it was given,
    mutated: station, manufacturer and network are untouched; a path
    [None] or empty stays as it is; a path with a slash becomes
    dataFolder/network_id/parent/leaf, where parent and leaf are the last
    two pieces of the old path; a [radial_HFRnetCDF_folder_path] that is
    true becomes dataFolder/network_id/Radials_nc and one that is [None]
    or empty stays as it is. *)
Theorem station_folders_relocated (staDF : StationSeries)
    (dataFolder : string) :
  staDF_radial_input_folder_path staDF <> NaN ->
  (forall p, staDF_radial_input_folder_path staDF = Str p ->
             p = EmptyString \/ has_char "/" p = true) ->
  let base := path_join dataFolder (sta_network_id staDF) in
  exists df',
    modifyStationDataFolders staDF dataFolder
    = (Ok df', {| series := df'; mfErr := false |})
    /\ staDF_station_id df' = staDF_station_id staDF
    /\ staDF_manufacturer df' = staDF_manufacturer staDF
    /\ sta_network_id df' = sta_network_id staDF
    /\ (truthy (staDF_radial_input_folder_path staDF) = false ->
        staDF_radial_input_folder_path df'
        = staDF_radial_input_folder_path staDF)
    /\ (forall p pre parent leaf,
          staDF_radial_input_folder_path staDF = Str p ->
          split_on "/" p = pre ++ [parent; leaf] ->
          staDF_radial_input_folder_path df'
          = Str (path_join (path_join base parent) leaf))
    /\ radial_HFRnetCDF_folder_path df'
       = (if truthy (radial_HFRnetCDF_folder_path staDF)
          then Str (path_join base "Radials_nc")
          else radial_HFRnetCDF_folder_path staDF).
Proof.
  intros Hnotnan Hshape. cbv zeta.
  destruct (input_path_shape (staDF_radial_input_folder_path staDF))
    as [Hf|[(p & Hp & Hne & Hs)
           |[(p & pre & parent & leaf & Hp & Hsplit)|Hnan]]].
  - rewrite (modifyStationDataFolders_none _ _ Hf).
    eexists. split; [reflexivity|].
    destruct (truthy (radial_HFRnetCDF_folder_path staDF)); simpl;
      repeat split; trivial;
      intros q pre parent leaf Hq Hsplit; rewrite Hq in Hf; simpl in Hf;
      apply negb_false_iff, String.eqb_eq in Hf; subst q;
      now apply split_on_two_not_empty in Hsplit.
  - destruct (Hshape p Hp) as [E|E]; [contradiction|congruence].
  - rewrite (modifyStationDataFolders_long _ _ _ _ _ _ Hp Hsplit).
    eexists. split; [reflexivity|].
    assert (Ht : truthy (staDF_radial_input_folder_path staDF) = true).
    { rewrite Hp. simpl. apply negb_true_iff, String.eqb_neq.
      eapply split_on_two_not_empty; eassumption. }
    destruct (truthy (radial_HFRnetCDF_folder_path staDF)); simpl;
      repeat split; trivial; try (rewrite Ht; discriminate);
      intros q pre' parent' leaf' Hq Hsplit'; rewrite Hp in Hq;
      injection Hq as <-; rewrite Hsplit in Hsplit';
      replace (pre ++ [parent; leaf]) with ((pre ++ [parent]) ++ [leaf])
        in Hsplit' by (now rewrite <- app_assoc);
      replace (pre' ++ [parent'; leaf']) with ((pre' ++ [parent']) ++ [leaf'])
        in Hsplit' by (now rewrite <- app_assoc);
      apply app_inj_tail in Hsplit'; destruct Hsplit' as [Hsplit' <-];
      apply app_inj_tail in Hsplit'; destruct Hsplit' as [_ <-];
      reflexivity.
  - contradiction.
Qed.

(** X6.  On a POSIX system relocating a station twice is relocating it
    once, provided the last-but-one piece of its radial input folder, if
    there is one, is not empty. *)
Theorem station_relocation_idempotent (staDF df1 : StationSeries)
    (dataFolder : string) :
  posix_paths ->
  (forall p parent,
      staDF_radial_input_folder_path staDF = Str p ->
      index_from_end (split_on "/" p) 2 = Ok parent ->
      parent <> EmptyString) ->
  fst (modifyStationDataFolders staDF dataFolder) = Ok df1 ->
  fst (modifyStationDataFolders df1 dataFolder) = Ok df1.
Proof.
  intros Hposix Hparent Hfirst.
  destruct (input_path_shape (staDF_radial_input_folder_path staDF))
    as [Hf|[(p & Hp & Hne & Hs)
           |[(p & pre & parent & leaf & Hp & Hsplit)|Hnan]]].
  - rewrite (modifyStationDataFolders_none _ _ Hf) in Hfirst.
    simpl in Hfirst. injection Hfirst as <-.
    destruct (truthy (radial_HFRnetCDF_folder_path staDF)) eqn:Hnc.
    + rewrite modifyStationDataFolders_none by exact Hf. simpl.
      destruct (negb _); reflexivity.
    + rewrite modifyStationDataFolders_none by exact Hf.
      now rewrite Hnc.
  - rewrite (modifyStationDataFolders_short _ _ _ Hp Hne Hs) in Hfirst.
    simpl in Hfirst. injection Hfirst as <-.
    now rewrite (modifyStationDataFolders_short _ _ _ Hp Hne Hs).
  - rewrite (modifyStationDataFolders_long _ _ _ _ _ _ Hp Hsplit) in Hfirst.
    simpl in Hfirst. injection Hfirst as <-.
    assert (Hpne : parent <> EmptyString).
    { apply (Hparent p parent Hp). rewrite Hsplit.
      apply index_from_end_parent. }
    pose proof (split_on_pieces "/" p) as Hall. rewrite Hsplit in Hall.
    apply Forall_app in Hall. destruct Hall as [_ Hall].
    inversion Hall as [|? ? Hpar Hl]; subst.
    inversion Hl as [|? ? Hleaf _]; subst.
    destruct (posix_join_split2
                (posix_join dataFolder (sta_network_id staDF))
                parent leaf Hpar Hpne Hleaf) as (pre' & Hsplit').
    rewrite <- !Hposix in Hsplit'.
    destruct (truthy (radial_HFRnetCDF_folder_path staDF)) eqn:Hnc.
    + rewrite (modifyStationDataFolders_long _ _ _ pre' parent leaf)
        by (first [exact Hsplit'|reflexivity]).
      simpl. destruct (negb _); reflexivity.
    + rewrite (modifyStationDataFolders_long _ _ _ pre' parent leaf)
        by (first [exact Hsplit'|reflexivity]).
      simpl. now rewrite Hnc.
  - rewrite (modifyStationDataFolders_NaN _ _ Hnan) in Hfirst.
    simpl in Hfirst. injection Hfirst as <-.
    now rewrite (modifyStationDataFolders_NaN _ _ Hnan).
Qed.

End FolderProperties.

(* ================================================================== *)
(** ** Further properties of performRadialCombination *)

Section CombinationRuns.
Context {PN : PyNumber} {HT : HFRTypes} {CO : Collaborators}.

(** Lines 178-200 as one case analysis on what each step yields. *)
Lemma combineOnGrid_run (net : NetworkRow) (exts : list string)
    (gridGS : option Grid) (s : CombState) :
  let lonMin := geospatial_lon_min net in
  let lonMax := geospatial_lon_max net in
  let latMin := geospatial_lat_min net in
  let latMax := geospatial_lat_max net in
  let metres := num_mul (grid_resolution net) (num_of_Z 1000) in
  let radius := num_mul (combination_search_radius net) (num_of_Z 1000) in
  combineOnGrid net exts gridGS s
  = match combRad s with
    | [] => (Raise IndexError, s)
    | first :: _ =>
        match strptime (datetime (info first)) "%Y-%m-%d %H:%M:%S" with
        | Raise e => (Raise e, s)
        | Ok ts =>
            match gridGS with
            | None => (Raise (UnboundLocalError "gridGS"), s)
            | Some g =>
                let c1 := Call_combineRadials (combRad s) g radius metres ts in
                match combineRadials (combRad s) g radius metres ts with
                | Raise e => (Raise e, log_call c1 s)
                | Ok (T0, w) =>
                    let c2 :=
                      Call_addBoundingBoxMetadata T0 lonMin lonMax latMin
                        latMax (num_div metres (num_of_Z 1000)) in
                    match addBoundingBoxMetadata T0 lonMin lonMax latMin
                            latMax (num_div metres (num_of_Z 1000)) with
                    | Raise e => (Raise e, log_call c2 (log_call c1 s))
                    | Ok T1 =>
                        (Ok (addIsWera exts (set_is_combined T1 true)),
                         log_call c2 (log_call c1 s))
                    end
                end
            end
        end
    end.
Proof.
  cbv zeta. unfold combineOnGrid. cbv zeta.
  unfold bind at 1. unfold gets at 1.
  destruct (combRad s) as [|first rest] eqn:Hcr;
    unfold bind at 1; simpl iloc0; [reflexivity|]. unfold ret at 1.
  unfold bind at 1, lift at 1.
  destruct (strptime (datetime (info first)) "%Y-%m-%d %H:%M:%S")
    as [ts|e]; [|reflexivity].
  destruct gridGS as [g|]; unfold bind at 1; simpl load_local;
    [|reflexivity]. unfold ret at 1.
  unfold bind at 1. rewrite call_run.
  destruct (combineRadials (first :: rest) g _ _ ts) as [[T0 w]|e];
    [|reflexivity].
  unfold bind at 1. rewrite call_run.
  destruct (addBoundingBoxMetadata T0 _ _ _ _ _) as [T1|e]; reflexivity.
Qed.

(** Lines 153-176 followed by the rest, for a frame with one format. *)
Lemma combine_run_single (net : NetworkRow) (s : CombState) (e : string) :
  extensions (combRad s) = [e] ->
  combine net s
  = match createGeographicalGrid [e] (geospatial_lon_min net)
            (geospatial_lon_max net) (geospatial_lat_min net)
            (geospatial_lat_max net)
            (num_mul (grid_resolution net) (num_of_Z 1000)) s with
    | (Ok gridGS, s1) => combineOnGrid net [e] gridGS s1
    | (Raise x, s1) => (Raise x, s1)
    end.
Proof.
  intros Hexts. unfold combine. cbv zeta.
  unfold bind at 1. unfold gets at 1. rewrite Hexts.
  unfold bind at 1.
  destruct (createGeographicalGrid [e] _ _ _ _ _ s) as [[gridGS|x] s1];
    [|reflexivity].
  unfold bind at 1. rewrite scaleWeraRadials_run. reflexivity.
Qed.

Lemma eligible_frame_not_empty (net : NetworkRow) (cr : list CombRow) :
  radialsToBeCombined net cr = true -> cr <> [].
Proof.
  intros H E. subst cr. unfold radialsToBeCombined in H. simpl in H.
  rewrite !andb_false_r in H. discriminate.
Qed.

(** X7.  A frame whose radials all carry one format tag that is neither
    '.ruv' nor '.crad_ascii' never yields a total: no grid is built and no
    collaborator is called, and the run ends in an exception, which is
    [UnboundLocalError] for [gridGS] when the time stamp of the first
    radial parses. *)
Theorem unknown_format_yields_no_total (net : NetworkRow)
    (rest : list NetworkRow) (s : CombState) (e : string) :
  radial_combination net = 1 ->
  radialsToBeCombined net (combRad s) = true ->
  all_format e (combRad s) ->
  e <> ".ruv" -> e <> ".crad_ascii" ->
  snd (performRadialCombination (net :: rest) s) = s
  /\ (forall T, fst (performRadialCombination (net :: rest) s) <> Ok T)
  /\ (forall first others ts,
        combRad s = first :: others ->
        strptime (datetime (info first)) "%Y-%m-%d %H:%M:%S" = Ok ts ->
        fst (performRadialCombination (net :: rest) s)
        = Raise (UnboundLocalError "gridGS")).
Proof.
  intros Hrc Hgate Hall Hruv Hcrad.
  pose proof (eligible_frame_not_empty _ _ Hgate) as Hne.
  pose proof (extensions_uniform _ _ Hall Hne) as Hexts.
  rewrite performRadialCombination_proceeds by trivial.
  rewrite (combine_run_single _ _ _ Hexts).
  rewrite createGeographicalGrid_single.
  apply String.eqb_neq in Hruv, Hcrad. rewrite Hruv, Hcrad.
  rewrite combineOnGrid_run. cbv zeta.
  destruct (combRad s) as [|first others]; [contradiction|].
  destruct (strptime (datetime (info first)) "%Y-%m-%d %H:%M:%S")
    as [ts|x] eqn:Hparse.
  - split; [reflexivity|]. split; [discriminate|].
    intros first' others' ts' _ _. reflexivity.
  - split; [reflexivity|]. split; [discriminate|].
    intros first' others' ts' Hcr Hts. injection Hcr as <- _.
    congruence.
Qed.


(** X8.  [performRadialCombination] catches nothing: past the two guards,
    an exception raised by the grid constructor selected for the frame,
    by [strptime] on the first radial's date, by [combineRadials] or by
    [addBoundingBoxMetadata] is the outcome of the call. *)
Theorem collaborator_exceptions_propagate (net : NetworkRow)
    (rest : list NetworkRow) (s : CombState) (x : PyExc) :
  radial_combination net = 1 ->
  radialsToBeCombined net (combRad s) = true ->
  let lonMin := geospatial_lon_min net in
  let lonMax := geospatial_lon_max net in
  let latMin := geospatial_lat_min net in
  let latMax := geospatial_lat_max net in
  let metres := num_mul (grid_resolution net) (num_of_Z 1000) in
  let radius := num_mul (combination_search_radius net) (num_of_Z 1000) in
  let run := performRadialCombination (net :: rest) s in
  (all_format ".ruv" (combRad s) \/ mixed_formats (combRad s) ->
   createLonLatGridFromBB lonMin lonMax latMin latMax metres = Raise x ->
   fst run = Raise x)
  /\ (all_format ".crad_ascii" (combRad s) ->
      createLonLatGridFromBBwera lonMin lonMax latMin latMax metres
      = Raise x ->
      fst run = Raise x)
  /\ (forall g first others,
        (all_format ".ruv" (combRad s)
         /\ createLonLatGridFromBB lonMin lonMax latMin latMax metres = Ok g)
        \/ (all_format ".crad_ascii" (combRad s)
            /\ createLonLatGridFromBBwera lonMin lonMax latMin latMax metres
               = Ok g) ->
        combRad s = first :: others ->
        (strptime (datetime (info first)) "%Y-%m-%d %H:%M:%S" = Raise x ->
         fst run = Raise x)
        /\ (forall ts,
              strptime (datetime (info first)) "%Y-%m-%d %H:%M:%S" = Ok ts ->
              (combineRadials (combRad s) g radius metres ts = Raise x ->
               fst run = Raise x)
              /\ (forall T0 w,
                    combineRadials (combRad s) g radius metres ts
                    = Ok (T0, w) ->
                    addBoundingBoxMetadata T0 lonMin lonMax latMin latMax
                      (num_div metres (num_of_Z 1000)) = Raise x ->
                    fst run = Raise x))).
Proof.
  intros Hrc Hgate. cbv zeta.
  pose proof (eligible_frame_not_empty _ _ Hgate) as Hne.
  rewrite performRadialCombination_proceeds by trivial.
  split; [|split].
  - intros [Hall|Hmix] Hg.
    + rewrite (combine_run_single _ _ _ (extensions_uniform _ _ Hall Hne)).
      rewrite createGeographicalGrid_single. simpl String.eqb.
      now rewrite Hg.
    + apply extensions_mixed in Hmix.
      unfold combine. cbv zeta.
      unfold bind at 1. unfold gets at 1. unfold bind at 1.
      rewrite createGeographicalGrid_other by lia.
      now rewrite Hg.
  - intros Hall Hg.
    rewrite (combine_run_single _ _ _ (extensions_uniform _ _ Hall Hne)).
    rewrite createGeographicalGrid_single. simpl String.eqb.
    now rewrite Hg.
  - intros g first others Hfmt Hcr.
    assert (Hrun : exists e gc,
               combine net s
               = combineOnGrid net [e] (Some g) (log_call gc s)).
    { destruct Hfmt as [[Hall Hg]|[Hall Hg]].
      - exists ".ruv". eexists.
        rewrite (combine_run_single _ _ _ (extensions_uniform _ _ Hall Hne)).
        rewrite createGeographicalGrid_single. simpl String.eqb.
        rewrite Hg. reflexivity.
      - exists ".crad_ascii". eexists.
        rewrite (combine_run_single _ _ _ (extensions_uniform _ _ Hall Hne)).
        rewrite createGeographicalGrid_single. simpl String.eqb.
        rewrite Hg. reflexivity. }
    destruct Hrun as (e & gc & ->).
    rewrite combineOnGrid_run. cbv zeta.
    change (combRad (log_call gc s)) with (combRad s). rewrite Hcr.
    split.
    + intros Hts. now rewrite Hts.
    + intros ts Hts. rewrite Hts. split.
      * intros Hc. now rewrite Hc.
      * intros T0 w Hc Hm. now rewrite Hc, Hm.
Qed.

(** X9.  When the frame passes the two guards, holds one format that is
    '.ruv' or '.crad_ascii', and the grid constructor of that format, the
    parsing of the first radial's date, [combineRadials] and
    [addBoundingBoxMetadata] all return, [performRadialCombination]
    returns the total that [addBoundingBoxMetadata] returned, with its
    data as they were, [is_combined] true and [is_wera] true exactly for
    '.crad_ascii'; it has made these three calls and no other.  The time
    stamp given to [combineRadials] is that of the first radial. *)
Theorem total_when_collaborators_return (net : NetworkRow)
    (rest : list NetworkRow) (s : CombState) (e : string) (gc : Call)
    (g : Grid) (first : CombRow) (others : list CombRow) (ts : DateTime)
    (T0 T1 : Total) (w : Warn) :
  let lonMin := geospatial_lon_min net in
  let lonMax := geospatial_lon_max net in
  let latMin := geospatial_lat_min net in
  let latMax := geospatial_lat_max net in
  let metres := num_mul (grid_resolution net) (num_of_Z 1000) in
  let radius := num_mul (combination_search_radius net) (num_of_Z 1000) in
  radial_combination net = 1 ->
  radialsToBeCombined net (combRad s) = true ->
  all_format e (combRad s) ->
  (e = ".ruv"
   /\ gc = Call_createLonLatGridFromBB lonMin lonMax latMin latMax metres
   /\ createLonLatGridFromBB lonMin lonMax latMin latMax metres = Ok g)
  \/ (e = ".crad_ascii"
      /\ gc = Call_createLonLatGridFromBBwera lonMin lonMax latMin latMax metres
      /\ createLonLatGridFromBBwera lonMin lonMax latMin latMax metres = Ok g) ->
  combRad s = first :: others ->
  strptime (datetime (info first)) "%Y-%m-%d %H:%M:%S" = Ok ts ->
  combineRadials (combRad s) g radius metres ts = Ok (T0, w) ->
  addBoundingBoxMetadata T0 lonMin lonMax latMin latMax
    (num_div metres (num_of_Z 1000)) = Ok T1 ->
  performRadialCombination (net :: rest) s
  = (Ok {| total_data := total_data T1; is_combined := true;
           is_wera := String.eqb e ".crad_ascii" |},
     {| combRad := combRad s;
        calls := calls s
                 ++ [gc;
                     Call_combineRadials (combRad s) g radius metres ts;
                     Call_addBoundingBoxMetadata T0 lonMin lonMax latMin
                       latMax (num_div metres (num_of_Z 1000))] |}).
Proof.
  cbv zeta. intros Hrc Hgate Hall Hfmt Hcr Hts Hc Hm.
  pose proof (eligible_frame_not_empty _ _ Hgate) as Hne.
  rewrite performRadialCombination_proceeds by trivial.
  rewrite (combine_run_single _ _ _ (extensions_uniform _ _ Hall Hne)).
  rewrite createGeographicalGrid_single.
  destruct Hfmt as [(-> & -> & Hg)|(-> & -> & Hg)]; simpl String.eqb;
    rewrite Hg; simpl bound_to; cbv iota;
    rewrite combineOnGrid_run; cbv zeta;
    match goal with
    | |- context [combRad (log_call ?c s)] =>
        change (combRad (log_call c s)) with (combRad s)
    end;
    rewrite Hcr in *; rewrite Hts, Hc, Hm;
    unfold log_call; simpl; rewrite <- !app_assoc; rewrite ?Hcr;
    reflexivity.
Qed.

End CombinationRuns.

(* ================================================================== *)
(** ** Further properties of selectRadials *)

Section SelectionRuns.
Context {PN : PyNumber} {HT : HFRTypes} {RT : Runtime}.

Lemma radialInfo_row (networkID stationID f : string) (n : nat)
    (row : RadialsRow) :
  radialInfo networkID stationID f n = Ok row ->
  row_of_file networkID stationID f row
  /\ reception_date row = strftime (utcnow n) "%Y-%m-%d %H:%M:%S".
Proof.
  unfold radialInfo, row_of_file.
  destruct (Radial_init f) as [radial|] eqn:Hr; [|discriminate].
  destruct (path_getsize f) as [size|] eqn:Hs; [|discriminate].
  intros H. injection H as <-. simpl.
  repeat split. exists radial, size. auto.
Qed.

Lemma radialInfo_succeeds (networkID stationID f : string) (n : nat)
    (radial : RadialObject) (size : Z) :
  Radial_init f = Ok radial -> path_getsize f = Ok size ->
  exists row, radialInfo networkID stationID f n = Ok row
              /\ station_id row = stationID
              /\ filename row = path_basename f.
Proof.
  intros Hr Hs. unfold radialInfo. rewrite Hr, Hs.
  eexists. split; [reflexivity|]. auto.
Qed.

Lemma rowsOfFiles_sound (networkID stationID : string)
    (files : list string) :
  forall n,
    Forall (fun row => exists f, In f files
                                 /\ row_of_file networkID stationID f row)
      (rowsOfFiles networkID stationID files n).
Proof.
  induction files as [|f fs IH]; intros n; simpl; [constructor|].
  assert (Hmono : forall m,
             Forall (fun row => exists f0, (f = f0 \/ In f0 fs)
                        /\ row_of_file networkID stationID f0 row)
               (rowsOfFiles networkID stationID fs m)).
  { intros m. eapply Forall_impl; [|apply IH].
    intros row (f0 & Hin & Hrow). exists f0. auto. }
  destruct (radialInfo networkID stationID f n) as [row|e] eqn:Hrow;
    [|apply Hmono].
  constructor; [|apply Hmono].
  exists f. split; [now left|]. now apply radialInfo_row in Hrow.
Qed.

Lemma rowsOfFiles_complete (networkID stationID : string)
    (files : list string) (f : string) (radial : RadialObject) (size : Z) :
  In f files ->
  Radial_init f = Ok radial -> path_getsize f = Ok size ->
  forall n,
  exists row, In row (rowsOfFiles networkID stationID files n)
              /\ station_id row = stationID
              /\ filename row = path_basename f.
Proof.
  intros Hin Hr Hs.
  induction files as [|f0 fs IH]; [contradiction|]. intros n. simpl.
  destruct Hin as [->|Hin].
  - destruct (radialInfo_succeeds networkID stationID f n _ _ Hr Hs)
      as (row & Hrow & Hid & Hname).
    rewrite Hrow. exists row. simpl. auto.
  - destruct (radialInfo networkID stationID f0 n) as [row0|e].
    + destruct (IH Hin (S n)) as (row & Hrow & Hrest).
      exists row. simpl. auto.
    + apply (IH Hin n).
Qed.

Lemma rowsOfFiles_reception (networkID stationID : string)
    (files : list string) :
  forall n,
    map reception_date (rowsOfFiles networkID stationID files n)
    = map (fun i => strftime (utcnow i) "%Y-%m-%d %H:%M:%S")
        (seq n (List.length (rowsOfFiles networkID stationID files n))).
Proof.
  induction files as [|f fs IH]; intros n; simpl; [reflexivity|].
  destruct (radialInfo networkID stationID f n) as [row|e] eqn:Hrow;
    [|apply IH].
  simpl. rewrite IH. f_equal.
  now apply radialInfo_row in Hrow.
Qed.

(** A recognised manufacturer fixes the wildcard, an unrecognised one
    keeps the previous binding. *)
Lemma wildcardAfter_cases (m : string) (previous : option string) :
  (wildcardAfter m None = None
   /\ wildcardAfter m previous = previous)
  \/ (exists w, (w = "**/*.ruv" \/ w = "**/*.crad_ascii")
                /\ wildcardAfter m None = Some w
                /\ wildcardAfter m previous = Some w).
Proof.
  unfold wildcardAfter.
  destruct (contains "codar" m); [right; eexists; eauto|].
  destruct (contains "wera" m); [right; eexists; eauto|].
  destruct (contains "lera" m); [right; eexists; eauto|].
  left. auto.
Qed.

(** What [stationFiles] yields, by cases. *)
Lemma stationFiles_inv (st : StationRow) (w : option string) :
  known_wildcard w ->
  known_wildcard (snd (stationFiles st w))
  /\ forall files,
       fst (stationFiles st w) = Ok files ->
       files = []
       \/ exists p wc,
            radial_input_folder_path st = Some p
            /\ path_isdir (strip p) = true
            /\ (wc = "**/*.ruv" \/ wc = "**/*.crad_ascii")
            /\ glob_recursive (path_join (strip p) wc) = Ok files.
Proof.
  intros Hw. unfold stationFiles.
  destruct (radial_input_folder_path st) as [p|];
    [|split; [exact Hw|discriminate]].
  destruct (String.eqb (strip p) EmptyString);
    [split; [exact Hw|intros files H; injection H as <-; now left]|].
  destruct (path_isdir (strip p)) eqn:Hdir; simpl negb; cbv iota;
    [|split; [exact Hw|intros files H; injection H as <-; now left]].
  destruct (manufacturer st) as [m|]; [|split; [exact Hw|discriminate]].
  destruct (wildcardAfter (lower m) w) as [wc|] eqn:Hwc;
    [|split; [now left|discriminate]].
  assert (Hknown : wc = "**/*.ruv" \/ wc = "**/*.crad_ascii").
  { destruct (wildcardAfter_cases (lower m) w)
      as [[_ E]|(w0 & Hw0 & _ & E)]; rewrite E in Hwc.
    - subst w. destruct Hw as [H|[H|H]]; [discriminate| |];
        injection H as <-; auto.
    - injection Hwc as <-. exact Hw0. }
  split.
  - simpl. destruct Hknown as [->| ->]; [right; now left|right; now right].
  - simpl. intros files Hg. right. exists p, wc. auto.
Qed.


Lemma rowsOfStations_sound (networkID : string)
    (stations : list StationRow) :
  forall w n,
    known_wildcard w ->
    Forall
      (fun row =>
         exists st p wc files f,
           In st stations
           /\ radial_input_folder_path st = Some p
           /\ path_isdir (strip p) = true
           /\ (wc = "**/*.ruv" \/ wc = "**/*.crad_ascii")
           /\ glob_recursive (path_join (strip p) wc) = Ok files
           /\ In f files
           /\ row_of_file networkID (sta_station_id st) f row)
      (rowsOfStations networkID stations w n).
Proof.
  induction stations as [|st rest IH]; intros w n Hw; simpl; [constructor|].
  destruct (stationFiles_inv st w Hw) as [Hw' Hfiles].
  assert (Htail : forall m,
             Forall
               (fun row =>
                  exists st0 p wc files f,
                    (st = st0 \/ In st0 rest)
                    /\ radial_input_folder_path st0 = Some p
                    /\ path_isdir (strip p) = true
                    /\ (wc = "**/*.ruv" \/ wc = "**/*.crad_ascii")
                    /\ glob_recursive (path_join (strip p) wc) = Ok files
                    /\ In f files
                    /\ row_of_file networkID (sta_station_id st0) f row)
               (rowsOfStations networkID rest (snd (stationFiles st w)) m)).
  { intros m. eapply Forall_impl; [|apply (IH _ m Hw')].
    intros row (st0 & p & wc & files & f & Hin & Hrest).
    exists st0, p, wc, files, f. auto. }
  destruct (stationFiles st w) as [[files|e] w'] eqn:Hst; simpl in *;
    [|apply Htail].
  apply Forall_app. split; [|apply Htail].
  destruct (Hfiles files eq_refl) as [->|(p & wc & Hp & Hdir & Hwc & Hg)];
    [constructor|].
  eapply Forall_impl; [|apply rowsOfFiles_sound].
  intros row (f & Hin & Hrow).
  exists st, p, wc, files, f. auto 10.
Qed.

Lemma rowsOfStations_reception (networkID : string)
    (stations : list StationRow) :
  forall w n,
    map reception_date (rowsOfStations networkID stations w n)
    = map (fun i => strftime (utcnow i) "%Y-%m-%d %H:%M:%S")
        (seq n (List.length (rowsOfStations networkID stations w n))).
Proof.
  induction stations as [|st rest IH]; intros w n; simpl; [reflexivity|].
  destruct (stationFiles st w) as [[files|e] w']; [|apply IH].
  rewrite map_app, length_app, seq_app, map_app.
  now rewrite rowsOfFiles_reception, IH.
Qed.

Lemma rowsOfStations_complete (networkID : string)
    (stations : list StationRow) (st : StationRow) (p m wc : string)
    (files : list string) (f : string) (radial : RadialObject) (size : Z) :
  In st stations ->
  radial_input_folder_path st = Some p ->
  strip p <> EmptyString -> path_isdir (strip p) = true ->
  manufacturer st = Some m -> wildcardAfter (lower m) None = Some wc ->
  glob_recursive (path_join (strip p) wc) = Ok files -> In f files ->
  Radial_init f = Ok radial -> path_getsize f = Ok size ->
  forall w n,
  exists row, In row (rowsOfStations networkID stations w n)
              /\ station_id row = sta_station_id st
              /\ filename row = path_basename f.
Proof.
  intros Hin Hp Hne Hdir Hm Hwc Hg Hf Hr Hs.
  induction stations as [|st0 rest IH]; [contradiction|]. intros w n.
  simpl. destruct Hin as [->|Hin].
  - assert (Hst : stationFiles st w = (Ok files, Some wc)).
    { unfold stationFiles. rewrite Hp.
      apply String.eqb_neq in Hne. rewrite Hne, Hdir, Hm. simpl.
      destruct (wildcardAfter_cases (lower m) w)
        as [[E _]|(w0 & _ & E0 & E)]; [congruence|].
      rewrite E. rewrite E0 in Hwc. injection Hwc as ->.
      now rewrite Hg. }
    rewrite Hst.
    destruct (rowsOfFiles_complete networkID (sta_station_id st) files f
                radial size Hf Hr Hs n) as (row & Hrow & Hrest).
    exists row. split; [apply in_or_app; now left|exact Hrest].
  - destruct (stationFiles st0 w) as [[files0|e] w'].
    + destruct (IH Hin w'
                  (n + List.length
                         (rowsOfFiles networkID (sta_station_id st0)
                            files0 n))%nat)
        as (row & Hrow & Hrest).
      exists row. split; [apply in_or_app; now right|exact Hrest].
    + apply (IH Hin w' n).
Qed.

Lemma strip_blank (p : string) : blank p = true -> strip p = EmptyString.
Proof.
  intros H. unfold strip.
  assert (E : lstrip p = EmptyString).
  { induction p as [|c t IH]; simpl in *; [reflexivity|].
    apply andb_true_iff in H. destruct H as [Hc Ht].
    rewrite Hc. now apply IH. }
  now rewrite E.
Qed.

(* ------------------------------------------------------------------ *)

(** X10.  Every row that [selectRadials] returns describes one radial
    file: the file was listed by [glob] with the wildcard '**/*.ruv' or
    '**/*.crad_ascii' under the stripped input folder of one of the
    stations given, that folder is a directory, the file was parsed and
    its size was read, and the row carries the network given, the
    station's identity, the file's name, folder and extension, its size
    divided by 1024 and its time in the two formats. *)
Theorem rows_come_from_listed_files (networkID : string)
    (stationData : list StationRow) (s : SelState) :
  exists df,
    fst (selectRadials networkID stationData s) = Ok df
    /\ Forall
         (fun row =>
            exists st p wc files f,
              In st stationData
              /\ radial_input_folder_path st = Some p
              /\ path_isdir (strip p) = true
              /\ (wc = "**/*.ruv" \/ wc = "**/*.crad_ascii")
              /\ glob_recursive (path_join (strip p) wc) = Ok files
              /\ In f files
              /\ row_of_file networkID (sta_station_id st) f row)
         df.
Proof.
  eexists. split; [apply selectRadials_run|].
  apply rowsOfStations_sound. now left.
Qed.

(** X11.  No radial file of a station with a recognised manufacturer is
    lost: when the station's stripped input folder is a directory, its
    manufacturer names 'codar', 'wera' or 'lera' (in any case), [glob]
    lists the file under the wildcard of that manufacturer, and the file
    can be parsed and measured, the returned DataFrame has a row for it,
    whatever happens at other stations and files. *)
Theorem parsed_files_are_listed (networkID : string)
    (stationData : list StationRow) (s : SelState) (st : StationRow)
    (p m wc : string) (files : list string) (f : string)
    (radial : RadialObject) (size : Z) :
  In st stationData ->
  radial_input_folder_path st = Some p ->
  strip p <> EmptyString -> path_isdir (strip p) = true ->
  manufacturer st = Some m -> wildcardAfter (lower m) None = Some wc ->
  glob_recursive (path_join (strip p) wc) = Ok files -> In f files ->
  Radial_init f = Ok radial -> path_getsize f = Ok size ->
  exists df row,
    fst (selectRadials networkID stationData s) = Ok df
    /\ In row df
    /\ station_id row = sta_station_id st
    /\ filename row = path_basename f.
Proof.
  intros Hin Hp Hne Hdir Hm Hwc Hg Hf Hr Hs.
  destruct (rowsOfStations_complete networkID stationData st p m wc files f
              radial size Hin Hp Hne Hdir Hm Hwc Hg Hf Hr Hs None (clock s))
    as (row & Hrow & Hrest).
  eexists. exists row. split; [apply selectRadials_run|]. auto.
Qed.

(** X12.  The clock is read once for each row, in the order of the rows:
    the reception date of the k-th row returned is the k-th reading of
    the clock after the call began. *)
Theorem reception_dates_are_clock_readings (networkID : string)
    (stationData : list StationRow) (s : SelState) :
  exists df,
    fst (selectRadials networkID stationData s) = Ok df
    /\ map reception_date df
       = map (fun i => strftime (utcnow i) "%Y-%m-%d %H:%M:%S")
           (seq (clock s) (List.length df)).
Proof.
  eexists. split; [apply selectRadials_run|].
  apply rowsOfStations_reception.
Qed.

(** X13.  A station whose manufacturer names none of 'codar', 'wera' and
    'lera' gets no wildcard of its own.  As the first station it
    contributes nothing.  After a station with a recognised manufacturer
    it is listed with the wildcard of that station: its rows are those of
    the files that [glob] lists under its own folder with the previous
    station's wildcard. *)
Theorem unrecognised_manufacturer_inherits_wildcard (networkID : string)
    (st2 : StationRow) (m2 : string) :
  manufacturer st2 = Some m2 ->
  wildcardAfter (lower m2) None = None ->
  (forall rest s,
      fst (selectRadials networkID (st2 :: rest) s)
      = fst (selectRadials networkID rest s))
  /\ (forall st1 p1 m1 wc files1 p2 files2 s,
        radial_input_folder_path st1 = Some p1 ->
        strip p1 <> EmptyString -> path_isdir (strip p1) = true ->
        manufacturer st1 = Some m1 ->
        wildcardAfter (lower m1) None = Some wc ->
        glob_recursive (path_join (strip p1) wc) = Ok files1 ->
        radial_input_folder_path st2 = Some p2 ->
        strip p2 <> EmptyString -> path_isdir (strip p2) = true ->
        glob_recursive (path_join (strip p2) wc) = Ok files2 ->
        let rows1 :=
          rowsOfFiles networkID (sta_station_id st1) files1 (clock s) in
        fst (selectRadials networkID [st1; st2] s)
        = Ok (rows1
              ++ rowsOfFiles networkID (sta_station_id st2) files2
                   (clock s + List.length rows1))).
Proof.
  intros Hm2 Hw2. split.
  - intros rest s. rewrite !selectRadials_run. f_equal. simpl.
    unfold stationFiles. rewrite Hm2.
    destruct (radial_input_folder_path st2) as [p|]; [|reflexivity].
    destruct (String.eqb (strip p) EmptyString);
      [simpl; now rewrite Nat.add_0_r|].
    destruct (path_isdir (strip p)); simpl;
      [|now rewrite Nat.add_0_r].
    now rewrite Hw2.
  - intros st1 p1 m1 wc files1 p2 files2 s Hp1 Hne1 Hdir1 Hm1 Hw1 Hg1
      Hp2 Hne2 Hdir2 Hg2. cbv zeta.
    rewrite selectRadials_run. f_equal. simpl.
    assert (H1 : stationFiles st1 None = (Ok files1, Some wc)).
    { unfold stationFiles. rewrite Hp1.
      apply String.eqb_neq in Hne1. rewrite Hne1, Hdir1, Hm1. simpl.
      now rewrite Hw1, Hg1. }
    assert (H2 : stationFiles st2 (Some wc) = (Ok files2, Some wc)).
    { unfold stationFiles. rewrite Hp2.
      apply String.eqb_neq in Hne2. rewrite Hne2, Hdir2, Hm2. simpl.
      destruct (wildcardAfter_cases (lower m2) (Some wc))
        as [[_ E]|(w0 & _ & E0 & _)]; [|congruence].
      now rewrite E, Hg2. }
    rewrite H1, H2. now rewrite app_nil_r.
Qed.

(** X14.  A station without a usable input folder contributes no row and
    stops nothing, but is reported differently: for a folder path that is
    blank, or that is not a directory, one line saying that the folder
    does not exist is printed; for a folder path that is [None] nothing
    is printed and the exception is swallowed. *)
Theorem station_without_folder (networkID : string) (st : StationRow)
    (s : SelState) :
  (forall p,
      radial_input_folder_path st = Some p ->
      blank p = true \/ path_isdir (strip p) = false ->
      selectRadials networkID [st] s
      = (Ok [],
         {| radialsToBeProcessed := []; fileTypeWildcard := None;
            sRerr := false;
            stdout := stdout s
                      ++ [folder_missing networkID (sta_station_id st)];
            clock := clock s |}))
  /\ (radial_input_folder_path st = None ->
      selectRadials networkID [st] s
      = (Ok [],
         {| radialsToBeProcessed := []; fileTypeWildcard := None;
            sRerr := true; stdout := stdout s; clock := clock s |})).
Proof.
  split.
  - intros p Hp Hcase.
    unfold selectRadials, for_each, try_except, listStation.
    unfold bind, modify, gets, lift, ret, print. simpl.
    rewrite Hp. simpl.
    destruct (String.eqb (strip p) EmptyString) eqn:He; [reflexivity|].
    destruct Hcase as [Hb|Hd].
    + rewrite (strip_blank _ Hb) in He. discriminate.
    + rewrite Hd. reflexivity.
  - intros Hp.
    unfold selectRadials, for_each, try_except, listStation.
    unfold bind, modify, gets, lift, ret. simpl.
    rewrite Hp. reflexivity.
Qed.

End SelectionRuns.
(* ================================================================== *)
(** ** The built-ins and the two functions at concrete inputs *)

#[local] Existing Instance Q_PyNumber.
#[local] Existing Instance Demo.types.
#[local] Existing Instance Demo.collaborators.
#[local] Existing Instance Demo.runtime.

Example unique_keeps_first_appearance :
  unique [".ruv"; ".crad_ascii"; ".ruv"; ".crad_ascii"]
  = [".ruv"; ".crad_ascii"].
Proof. reflexivity. Qed.

Example strip_both_ends : strip "  /data/TINO " = "/data/TINO".
Proof. reflexivity. Qed.

Example lower_then_contains :
  contains "codar" (lower "CODAR Ocean Sensors") = true
  /\ contains "wera" (lower "CODAR Ocean Sensors") = false.
Proof. split; reflexivity. Qed.

(** C1 at the exceptional network: both radials are already flagged
    "combined", and the unset "integrated-network processed" flag alone
    makes them eligible. *)
Lemma eligibility_by_network_at_WesternItaly :
  ntw_network_id (Demo.network "HFR-WesternItaly" 1) = WesternItaly
  /\ (radialsToBeCombined (Demo.network "HFR-WesternItaly" 1)
        Demo.combined_pair = true
      <-> Exists
            (fun r => NRT_processed_flag_integrated_network (info r) = 0)
            Demo.combined_pair).
Proof.
  split; [reflexivity|].
  apply (proj1 (proj2 (eligibility_by_network
                         (Demo.network "HFR-WesternItaly" 1)
                         Demo.combined_pair))).
  reflexivity.
Defined.

(** C4 at a frame of two '.crad_ascii' radials. *)
Lemma total_attributes_at_wera_pair :
  exists T,
    fst (performRadialCombination [Demo.network "HFR-TirLig" 1]
           (Demo.frame Demo.wera_pair)) = Ok T
    /\ is_combined T = true /\ is_wera T = true.
Proof.
  destruct (performRadialCombination [Demo.network "HFR-TirLig" 1]
              (Demo.frame Demo.wera_pair)) as [[T|e] s'] eqn:Hrun;
    [|vm_compute in Hrun; discriminate].
  exists T. split; [reflexivity|].
  destruct (proj1 (total_attributes [Demo.network "HFR-TirLig" 1])
              _ _ _ Hrun) as (Hc & Hw & _).
  split; [exact Hc|]. apply Hw. repeat constructor.
Defined.

(** C5 at a frame of two '.crad_ascii' radials. *)
Lemma grid_method_at_wera_pair :
  Demo.wera_pair <> []
  /\ all_format ".crad_ascii" Demo.wera_pair
  /\ fst (createGeographicalGrid (extensions Demo.wera_pair)
            (8 # 1) (11 # 1) (42 # 1) (44 # 1) (2000 # 1)
            (Demo.frame Demo.wera_pair))
     = Ok (Some ("createLonLatGridFromBBwera",
                 [8 # 1; 11 # 1; 42 # 1; 44 # 1; 2000 # 1])).
Proof.
  assert (Hne : Demo.wera_pair <> []) by discriminate.
  assert (Hall : all_format ".crad_ascii" Demo.wera_pair)
    by (repeat constructor).
  split; [exact Hne|]. split; [exact Hall|].
  rewrite (proj1 (proj2 (grid_method_by_format Demo.wera_pair
                           (8 # 1) (11 # 1) (42 # 1) (44 # 1) (2000 # 1)
                           [] Hne)) Hall).
  reflexivity.
Defined.

(** C6 at a network with a resolution of 2 km and a search radius of
    3 km, with collaborators that keep what they were given: the grid
    was built at 2000 m, the combination was given 3000 m and 2000 m, the
    metadata was given 2000/1000, and these are the values found in the
    total returned. *)
Lemma lengths_in_metres_at_TirLig :
  exists T s',
    performRadialCombination [Demo.network "HFR-TirLig" 1]
      (Demo.frame Demo.codar_pair) = (Ok T, s')
    /\ total_data T
       = ("createLonLatGridFromBB",
          [3000 # 1; 2000 # 1; 8 # 1; 11 # 1; 42 # 1; 44 # 1;
           Qdiv (2000 # 1) (1000 # 1)])
    /\ exists g ts T0,
         calls s'
         = [Call_createLonLatGridFromBB
              (8 # 1) (11 # 1) (42 # 1) (44 # 1) (2000 # 1);
            Call_combineRadials Demo.codar_pair g (3000 # 1) (2000 # 1) ts;
            Call_addBoundingBoxMetadata T0
              (8 # 1) (11 # 1) (42 # 1) (44 # 1) (Qdiv (2000 # 1) (1000 # 1))].
Proof.
  destruct (performRadialCombination [Demo.network "HFR-TirLig" 1]
              (Demo.frame Demo.codar_pair)) as [[T|e] s'] eqn:Hrun;
    [|vm_compute in Hrun; discriminate].
  exists T, s'. split; [reflexivity|].
  destruct (proj1 (proj2 (lengths_in_metres (Demo.network "HFR-TirLig" 1) []
                            (Demo.frame Demo.codar_pair))) T s' Hrun)
    as (e & gc & g & first & others & ts & T0 & w & T1 & Hall & Hgrid & Hcr
        & Hts & Hc & Hm & _ & Hdata & Hlog).
  destruct Hgrid as [(-> & -> & Hg)|(-> & _ & _)].
  - injection Hg as <-.
    simpl in Hc. injection Hc as <- _.
    simpl in Hm. injection Hm as <-.
    split; [rewrite Hdata; reflexivity|].
    eexists. eexists. eexists. rewrite Hlog. reflexivity.
  - inversion Hall as [|r l Hext _]. discriminate Hext.
Defined.

(** C7 as stated fails: a cycle on two pending '.ruv' radials returns a
    total, and afterwards the [NRT_combined_flag] of both radials is
    still 0. *)
Lemma combined_flag_still_unset :
  exists T s',
    performRadialCombination [Demo.network "HFR-TirLig" 1]
      (Demo.frame Demo.codar_pair) = (Ok T, s')
    /\ Forall (fun r => NRT_combined_flag (info r) = 0) (combRad s').
Proof.
  eexists. eexists. split; [reflexivity|]. repeat constructor.
Qed.

(** C7 as the code has it, on the same cycle run twice. *)
Lemma flags_left_to_the_caller_twice :
  exists T s',
    performRadialCombination [Demo.network "HFR-TirLig" 1]
      (Demo.frame Demo.codar_pair) = (Ok T, s')
    /\ fst (performRadialCombination [Demo.network "HFR-TirLig" 1] s') = Ok T.
Proof.
  destruct (performRadialCombination [Demo.network "HFR-TirLig" 1]
              (Demo.frame Demo.codar_pair)) as [[T|e] s'] eqn:Hrun;
    [|vm_compute in Hrun; discriminate].
  exists T, s'. split; [reflexivity|].
  exact (proj2 (flags_left_to_the_caller [Demo.network "HFR-TirLig" 1])
           _ _ _ Hrun).
Defined.

(** C8 at a frame of two '.ruv' radials. *)
Lemma scaling_skipped_at_codar_pair :
  (forall r1 r2, In r1 Demo.codar_pair -> In r2 Demo.codar_pair ->
                 extension (info r1) = extension (info r2))
  /\ scaleWeraRadials (extensions Demo.codar_pair) (Demo.frame Demo.codar_pair)
     = (Ok tt, Demo.frame Demo.codar_pair).
Proof.
  assert (H : forall r1 r2, In r1 Demo.codar_pair -> In r2 Demo.codar_pair ->
                            extension (info r1) = extension (info r2)).
  { intros r1 r2 [<-|[<-|[]]] [<-|[<-|[]]]; reflexivity. }
  split; [exact H|].
  exact (scaling_skipped_when_uniform Demo.codar_pair
           (Demo.frame Demo.codar_pair) H).
Defined.

(** C2 at one '.ruv' and one '.crad_ascii' radial, both pending: the
    cycle ends in [NameError] and the samples of the '.crad_ascii' radial
    are the raw ones. *)
Lemma mixed_formats_raise_at_mixed_pair :
  fst (performRadialCombination [Demo.network "HFR-TirLig" 1]
         (Demo.frame Demo.mixed_pair))
  = Raise (NameError "combRadcombRad")
  /\ combRad (snd (performRadialCombination [Demo.network "HFR-TirLig" 1]
                     (Demo.frame Demo.mixed_pair)))
     = Demo.mixed_pair.
Proof.
  assert (Hmix : mixed_formats (combRad (Demo.frame Demo.mixed_pair))).
  { exists (Demo.radial "TINO" ".ruv" 0 0),
      (Demo.radial "VIAR" ".crad_ascii" 0 0).
    simpl. repeat split; auto. discriminate. }
  destruct (mixed_formats_raise (Demo.network "HFR-TirLig" 1) []
              (Demo.frame Demo.mixed_pair) eq_refl eq_refl Hmix)
    as (_ & Hfr & Hname).
  split; [|exact Hfr].
  eapply Hname. reflexivity.
Defined.

(** C3 at a network with combination disabled, and at an enabled network
    whose radials are all flagged "combined". *)
Lemma no_combination_raises_at_TirLig :
  performRadialCombination [Demo.network "HFR-TirLig" 0]
    (Demo.frame Demo.codar_pair)
  = (Raise (UnboundLocalError "T"), Demo.frame Demo.codar_pair)
  /\ performRadialCombination [Demo.network "HFR-TirLig" 1]
       (Demo.frame Demo.combined_pair)
     = (Raise (UnboundLocalError "T"), Demo.frame Demo.combined_pair).
Proof.
  split.
  - apply no_combination_raises. left. discriminate.
  - apply no_combination_raises. right. reflexivity.
Defined.

(** C10 at three stations: the first lists three files, of which the
    second cannot be parsed; the second has no folder path; the folder of
    the third does not exist. *)
Lemma selectRadials_skips_failures_at_TINO :
  exists df,
    fst (selectRadials "HFR-TirLig" Demo.stations Demo.start) = Ok df
    /\ map filename df = ["a.ruv"; "c.ruv"]
    /\ map reception_date df = ["10h20"; "10h21"].
Proof.
  eexists. split.
  - apply (proj1 (selectRadials_skips_failures "HFR-TirLig")).
  - split; reflexivity.
Defined.

(* ================================================================== *)
(** ** The further properties at concrete inputs *)

(** X1 at a network with an input folder and no netCDF folder, and at one
    whose input folder is NaN: its netCDF folder '/var/nc/Totals' is
    kept. *)
Lemma network_folders_relocated_at_TirLig :
  fst (modifyNetworkDataFolders (RT := DemoMore.runtime) DemoMore.tirlig
         "/data")
  = Ok {| ntw_info := Demo.network "HFR-TirLig" 1;
          total_input_folder_path := Str "/data/HFR-TirLig/Totals";
          total_HFRnetCDF_folder_path := PyNone |}
  /\ modifyNetworkDataFolders (RT := DemoMore.runtime) DemoMore.tirlig_nan
       "/data"
     = (Ok DemoMore.tirlig_nan,
        {| series := DemoMore.tirlig_nan; mfErr := true |}).
Proof.
  split.
  - assert (Hnotnan : total_input_folder_path DemoMore.tirlig <> NaN)
      by discriminate.
    destruct (proj2 (network_folders_relocated (RT := DemoMore.runtime)
                       DemoMore.tirlig "/data") Hnotnan)
      as (df' & Hrun & Hinfo & Hin & _ & _ & Hnc).
    rewrite Hrun. simpl. f_equal.
    assert (Hne : "/home/radarcombine/TirLig/Totals" <> EmptyString)
      by discriminate.
    specialize (Hin _ eq_refl Hne). specialize (Hnc eq_refl).
    destruct df' as [i a b]. simpl in *.
    rewrite Hinfo, Hin, Hnc. reflexivity.
  - apply (proj1 (network_folders_relocated (RT := DemoMore.runtime)
                    DemoMore.tirlig_nan "/data")).
    reflexivity.
Defined.

(** X2 on the same network. *)
Lemma network_relocation_idempotent_at_TirLig :
  posix_paths (RT := DemoMore.runtime)
  /\ exists df1,
       fst (modifyNetworkDataFolders (RT := DemoMore.runtime)
              DemoMore.tirlig "/data") = Ok df1
       /\ fst (modifyNetworkDataFolders (RT := DemoMore.runtime) df1 "/data")
          = Ok df1.
Proof.
  assert (Hposix : posix_paths (RT := DemoMore.runtime))
    by (intros a b; reflexivity).
  split; [exact Hposix|].
  eexists. split; [reflexivity|].
  apply (network_relocation_idempotent (RT := DemoMore.runtime)
           DemoMore.tirlig _ "/data" Hposix).
  reflexivity.
Defined.

(** X3 on the same network. *)
Lemma network_folders_below_dataFolder_at_TirLig :
  exists q,
    total_input_folder_path
      (series (snd (modifyNetworkDataFolders (RT := DemoMore.runtime)
                      DemoMore.tirlig "/data"))) = Str q
    /\ String.prefix "/data" q = true.
Proof.
  assert (Hposix : posix_paths (RT := DemoMore.runtime))
    by (intros a b; reflexivity).
  destruct (network_folders_below_dataFolder (RT := DemoMore.runtime)
              DemoMore.tirlig _ "/data" Hposix eq_refl eq_refl)
    as [Hin _].
  assert (Hne : "/home/radarcombine/TirLig/Totals" <> EmptyString)
    by discriminate.
  exact (Hin _ eq_refl Hne).
Defined.

(** X4 at a station whose input folder is the single component 'TINO',
    and at one whose input folder is NaN: in both the netCDF folder
    '/var/nc/TINO' is kept too. *)
Lemma station_failure_at_single_component :
  modifyStationDataFolders (RT := DemoMore.runtime) (DemoMore.station "TINO")
    "/data"
  = (Ok (DemoMore.station "TINO"),
     {| series := DemoMore.station "TINO"; mfErr := true |})
  /\ modifyStationDataFolders (RT := DemoMore.runtime)
       (DemoMore.station_with NaN) "/data"
     = (Ok (DemoMore.station_with NaN),
        {| series := DemoMore.station_with NaN; mfErr := true |}).
Proof.
  split.
  - apply (proj2 (station_failure_is_single_component
                    (RT := DemoMore.runtime)
                    (DemoMore.station "TINO") "/data")).
    reflexivity.
  - apply (proj2 (station_failure_is_single_component
                    (RT := DemoMore.runtime)
                    (DemoMore.station_with NaN) "/data")).
    apply (proj1 (station_failure_is_single_component
                    (RT := DemoMore.runtime)
                    (DemoMore.station_with NaN) "/data")).
    left. reflexivity.
Defined.

(** X5 at a station whose input folder has four components. *)
Lemma station_folders_relocated_at_TINO :
  exists df',
    fst (modifyStationDataFolders (RT := DemoMore.runtime)
           (DemoMore.station "/home/x/TirLig/Radials/TINO") "/data") = Ok df'
    /\ staDF_radial_input_folder_path df'
       = Str "/data/HFR-TirLig/Radials/TINO"
    /\ radial_HFRnetCDF_folder_path df' = Str "/data/HFR-TirLig/Radials_nc".
Proof.
  destruct (station_folders_relocated (RT := DemoMore.runtime)
              (DemoMore.station "/home/x/TirLig/Radials/TINO") "/data")
    as (df' & Hrun & _ & _ & _ & _ & Hin & Hnc).
  { discriminate. }
  { intros p Hp. injection Hp as <-. now right. }
  exists df'. rewrite Hrun. split; [reflexivity|]. split.
  - rewrite (Hin "/home/x/TirLig/Radials/TINO"
               [EmptyString; "home"; "x"; "TirLig"] "Radials" "TINO"
               eq_refl eq_refl).
    reflexivity.
  - exact Hnc.
Defined.

(** X6 on the same station. *)
Lemma station_relocation_idempotent_at_TINO :
  exists df1,
    fst (modifyStationDataFolders (RT := DemoMore.runtime)
           (DemoMore.station "/home/x/TirLig/Radials/TINO") "/data") = Ok df1
    /\ fst (modifyStationDataFolders (RT := DemoMore.runtime) df1 "/data")
       = Ok df1.
Proof.
  eexists. split; [reflexivity|].
  apply (station_relocation_idempotent (RT := DemoMore.runtime)
           (DemoMore.station "/home/x/TirLig/Radials/TINO") _ "/data").
  - intros a b. reflexivity.
  - intros p parent Hp Hpar. injection Hp as <-.
    vm_compute in Hpar. injection Hpar as <-. discriminate.
  - reflexivity.
Defined.

(** The proviso of X6 is needed: with an empty last-but-one piece a second
    relocation repeats the network identity. *)
Example station_relocation_repeats_network :
  let once :=
    fst (modifyStationDataFolders (RT := DemoMore.runtime)
           (DemoMore.station "/TINO") "/data") in
  exists df1 df2,
    once = Ok df1
    /\ fst (modifyStationDataFolders (RT := DemoMore.runtime) df1 "/data")
       = Ok df2
    /\ staDF_radial_input_folder_path df1
       = Str "/data/HFR-TirLig/TINO"
    /\ staDF_radial_input_folder_path df2
       = Str "/data/HFR-TirLig/HFR-TirLig/TINO".
Proof. cbv zeta. eexists. eexists. repeat split. Qed.

(** X7 at two pending radials with the extension '.txt'. *)
Lemma unknown_format_at_txt_pair :
  performRadialCombination [Demo.network "HFR-TirLig" 1]
    (Demo.frame [Demo.radial "TINO" ".txt" 0 0; Demo.radial "VIAR" ".txt" 0 0])
  = (Raise (UnboundLocalError "gridGS"),
     Demo.frame [Demo.radial "TINO" ".txt" 0 0;
                 Demo.radial "VIAR" ".txt" 0 0]).
Proof.
  assert (Hall : all_format ".txt"
                   [Demo.radial "TINO" ".txt" 0 0;
                    Demo.radial "VIAR" ".txt" 0 0])
    by (repeat constructor).
  assert (Hruv : ".txt" <> ".ruv") by discriminate.
  assert (Hcrad : ".txt" <> ".crad_ascii") by discriminate.
  destruct (unknown_format_yields_no_total (Demo.network "HFR-TirLig" 1) []
              (Demo.frame [Demo.radial "TINO" ".txt" 0 0;
                           Demo.radial "VIAR" ".txt" 0 0]) ".txt"
              eq_refl eq_refl Hall Hruv Hcrad)
    as (Hs & _ & Hraise).
  specialize (Hraise _ _ _ eq_refl eq_refl).
  destruct (performRadialCombination _ _) as [r s'].
  simpl in *. now subst.
Defined.

(** X8 when the least-squares combination fails. *)
Lemma combineRadials_failure_propagates :
  fst (performRadialCombination (CO := DemoMore.failing)
         [Demo.network "HFR-TirLig" 1] (Demo.frame Demo.codar_pair))
  = Raise (CollaboratorError "combineRadials").
Proof.
  destruct (collaborator_exceptions_propagate (CO := DemoMore.failing)
              (Demo.network "HFR-TirLig" 1) []
              (Demo.frame Demo.codar_pair)
              (CollaboratorError "combineRadials") eq_refl eq_refl)
    as (_ & _ & Hrest).
  destruct (Hrest ("createLonLatGridFromBB",
                   [8 # 1; 11 # 1; 42 # 1; 44 # 1; 2000 # 1])
              (Demo.radial "TINO" ".ruv" 0 0)
              [Demo.radial "VIAR" ".ruv" 0 0])
    as [_ Hts].
  { left. split; [repeat constructor|reflexivity]. }
  { reflexivity. }
  destruct (Hts "2024-05-14 10:00:00" eq_refl) as [Hc _].
  apply Hc. reflexivity.
Defined.

(** X9 at a single pending '.crad_ascii' radial: one station is
    enough. *)
Lemma total_from_a_single_radial :
  exists T s',
    performRadialCombination [Demo.network "HFR-TirLig" 1]
      (Demo.frame [Demo.radial "TINO" ".crad_ascii" 0 0]) = (Ok T, s')
    /\ is_wera T = true /\ is_combined T = true
    /\ List.length (calls s') = 3%nat.
Proof.
  eexists. eexists. split.
  - eapply (total_when_collaborators_return (Demo.network "HFR-TirLig" 1) []
              (Demo.frame [Demo.radial "TINO" ".crad_ascii" 0 0])
              ".crad_ascii");
      try reflexivity.
    + repeat constructor.
    + right. repeat split; reflexivity.
  - repeat split.
Defined.

(** X11 at the third file of the first station of [Demo]. *)
Lemma parsed_files_are_listed_at_TINO :
  exists df row,
    fst (selectRadials "HFR-TirLig" Demo.stations Demo.start) = Ok df
    /\ In row df /\ station_id row = "TINO" /\ filename row = "c.ruv".
Proof.
  assert (Hne : strip " /data/TINO " <> EmptyString) by discriminate.
  destruct (parsed_files_are_listed (RT := Demo.runtime)
              "HFR-TirLig" Demo.stations Demo.start
              {| sta_station_id := "TINO";
                 radial_input_folder_path := Some " /data/TINO ";
                 manufacturer := Some "CODAR Ocean Sensors" |}
              " /data/TINO " "CODAR Ocean Sensors" "**/*.ruv"
              ["/data/TINO/a.ruv"; "/data/TINO/b.ruv"; "/data/TINO/c.ruv"]
              "/data/TINO/c.ruv"
              (@Build_RadialObject Q_PyNumber Demo.types "10h"
                 {| VELO := []; HCSS := [] |}) 2048
              (or_introl eq_refl) eq_refl Hne eq_refl eq_refl eq_refl eq_refl
              (or_intror (or_intror (or_introl eq_refl))) eq_refl eq_refl)
    as (df & row & Hrun & Hin & Hid & Hname).
  exists df, row. repeat split; assumption.
Defined.

(** X13 at a CODAR station followed by a station of an unknown
    manufacturer on the same folder: the second is listed with
    '**/*.ruv'. *)
Lemma unknown_manufacturer_after_codar :
  exists df,
    fst (selectRadials "HFR-TirLig" DemoMore.codar_then_unknown Demo.start)
    = Ok df
    /\ map station_id df = ["TINO"; "TINO"; "HELZ"; "HELZ"]
    /\ map extension df = [".ruv"; ".ruv"; ".ruv"; ".ruv"].
Proof.
  destruct (unrecognised_manufacturer_inherits_wildcard "HFR-TirLig"
              {| sta_station_id := "HELZ";
                 radial_input_folder_path := Some "/data/TINO";
                 manufacturer := Some "Helzel Messtechnik" |}
              "Helzel Messtechnik" eq_refl eq_refl) as [_ Hleak].
  eexists. split.
  - apply (Hleak {| sta_station_id := "TINO";
                    radial_input_folder_path := Some "/data/TINO";
                    manufacturer := Some "CODAR Ocean Sensors" |}
             "/data/TINO" "CODAR Ocean Sensors" "**/*.ruv"
             ["/data/TINO/a.ruv"; "/data/TINO/b.ruv"; "/data/TINO/c.ruv"]
             "/data/TINO"
             ["/data/TINO/a.ruv"; "/data/TINO/b.ruv"; "/data/TINO/c.ruv"]
             Demo.start);
      try reflexivity; discriminate.
  - split; reflexivity.
Defined.

(** X14 at the second and third stations of [Demo]. *)
Lemma station_without_folder_at_VIAR_and_PCOR :
  snd (selectRadials "HFR-TirLig"
         [ {| sta_station_id := "VIAR"; radial_input_folder_path := None;
              manufacturer := Some "CODAR Ocean Sensors" |} ] Demo.start)
  = {| radialsToBeProcessed := []; fileTypeWildcard := None; sRerr := true;
       stdout := []; clock := 0 |}
  /\ stdout
       (snd (selectRadials "HFR-TirLig"
               [ {| sta_station_id := "PCOR";
                    radial_input_folder_path := Some "/data/PCOR";
                    manufacturer := Some "WERA" |} ] Demo.start))
     = ["The radial input folder for station HFR-TirLig-PCOR does not exist."].
Proof.
  split.
  - rewrite (proj2 (station_without_folder "HFR-TirLig" _ Demo.start));
      reflexivity.
  - rewrite (proj1 (station_without_folder "HFR-TirLig" _ Demo.start)
               "/data/PCOR"); [reflexivity|reflexivity|now right].
Defined.
